(** * FitPet: workout completion, scheduling guard and pet attribute engine

    A shallow embedding of the server side of FitPet (server/storage.ts,
    server/routes.ts), of the mood effect of the client's PetContext.tsx
    and of the facts about them that the specification states.  A second
    part covers the rest of the storage and of the routes, the requests
    that the client's two context providers send (PetContext.tsx,
    WorkoutContext.tsx) and the timer hook.

    Conventions of the embedding.
    - The columns declared [integer] in the schema are modelled as [Z].
      A JavaScript number is a double: the sums on the cumulative counters
      of a user and on the xp of a pet, which no schema bounds from above,
      are [js_add], the exact sum rounded to the nearest double, and a
      field that holds 2^1024 holds [Infinity].  The sums on ids and on
      health, hunger and happiness stay far below 2^53, where the addition
      of doubles is exact, and are written with [+].
    - An [async] method of [MemStorage] is a computation in the state monad
      over the store: [await m] is a monadic bind.  A request handler runs
      to completion before the next one starts (single process, no await
      on anything but the in-memory store).
    - [new Date()] reads the clock; each handler that reads it receives the
      reading as an argument [now].
    - A JavaScript [Map] iterates in insertion order and [Map.set] on a key
      that is present keeps the key's position; it is modelled as an
      association list with exactly that behaviour. *)

From Stdlib Require Import ZArith QArith Qround List String Bool Lia.
From Stdlib Require Import Sorted Permutation.
From Stdlib Require Import Ascii DecimalString DecimalZ.
From ExtLib Require Import Structures.Monad Structures.MonadState.
From ExtLib Require Import Data.Monads.StateMonad.
Import ListNotations.
Import MonadNotation.
Local Open Scope string_scope.
Local Open Scope monad_scope.
Local Open Scope Z_scope.

(** ** JavaScript values used by the handlers *)

(** A number that may be [NaN] (what the [Date] getters return). *)
Inductive Number : Type :=
| NaN
| Num (z : Z).

(** [a === b] on numbers: [NaN] is not equal to anything, itself included. *)
Definition strict_eq (a b : Number) : bool :=
  match a, b with
  | Num x, Num y => x =? y
  | _, _ => false
  end.

(** A [Date] in the server's local time zone: either the invalid date
    ([new Date("garbage")]) or a calendar day with the time elapsed since
    local midnight, in milliseconds.  [month] is zero-based as in
    JavaScript. *)
Inductive Date : Type :=
| InvalidDate
| LocalDate (fullYear month date msOfDay : Z).

Definition getFullYear (d : Date) : Number :=
  match d with InvalidDate => NaN | LocalDate y _ _ _ => Num y end.
Definition getMonth (d : Date) : Number :=
  match d with InvalidDate => NaN | LocalDate _ m _ _ => Num m end.
Definition getDate (d : Date) : Number :=
  match d with InvalidDate => NaN | LocalDate _ _ dd _ => Num dd end.

(** [Math.round]: the nearest integer, ties towards plus infinity. *)
Definition Math_round (q : Q) : Z := Qfloor (q + (1 # 2))%Q.

(** *** Sums of numbers that hold integers

    A number is an IEEE 754 double.  The doubles that hold an integer are
    the integers with at most 53 significant bits, below 2^1024 in size;
    [Infinity] is written as the integer 2^1024, which no double holds,
    and [-Infinity] as its opposite. *)
Definition Infinity : Z := 2 ^ 1024.

(** The double nearest to the integer [z], the one with the even mantissa
    when two are as near, before any overflow. *)
Definition round_to_double (z : Z) : Z :=
  let e := Z.log2 (Z.abs z) - 52 in
  if e <=? 0 then z
  else
    let u := 2 ^ e in
    let q := Z.abs z / u in
    let r := Z.abs z mod u in
    let m :=
      if 2 * r <? u then q
      else if u <? 2 * r then q + 1
      else if Z.even q then q else q + 1 in
    Z.sgn z * (m * u).

(** The integers that stand for a number. *)
Definition is_number (z : Z) : bool :=
  (Z.abs z <=? Infinity) && (round_to_double z =? z).

(** A rounded sum of 2^1024 or more in size is an infinity. *)
Definition overflow (z : Z) : Z :=
  if Infinity <=? z then Infinity
  else if z <=? - Infinity then - Infinity
  else z.

(** [a + b]: the exact sum, rounded to the nearest double.  An infinity
    stays what it is ([Infinity + -Infinity], which is [NaN], is left out:
    no sum below has operands of opposite signs).  On integers that stand
    for no number, which no JavaScript value ever is, the sum is taken as
    it is. *)
Definition js_add (a b : Z) : Z :=
  if is_number a && is_number b then
    if (a =? Infinity) || (b =? Infinity) then Infinity
    else if (a =? - Infinity) || (b =? - Infinity) then - Infinity
    else overflow (round_to_double (a + b))
  else a + b.
Arguments js_add : simpl never.

(** [a || b] on optional strings: [undefined] and the empty string are
    falsy. *)
Definition or_default (a : option string) (b : string) : string :=
  match a with
  | None => b
  | Some s => if String.eqb s "" then b else s
  end.

(** ** [Map<number, V>] *)

Module JSMap.
Section Defs.
Context {V : Type}.

Definition t := list (Z * V).

Definition empty : t := [].

Fixpoint get (k : Z) (m : t) : option V :=
    match m with
    | [] => None
    | (k', v) :: m' => if k' =? k then Some v else get k m'
    end.

  (** [set] overwrites in place when the key is present and appends at the
      end otherwise, so [values] stays in insertion order. *)
Fixpoint set (k : Z) (v : V) (m : t) : t :=
    match m with
    | [] => [(k, v)]
    | (k', v') :: m' =>
        if k' =? k then (k, v) :: m' else (k', v') :: set k v m'
    end.

Definition keys (m : t) : list Z := map fst m.
Definition values (m : t) : list V := map snd m.
End Defs.
Arguments t : clear implicits.
End JSMap.

(** ** The rows of shared/schema.ts *)

Module User.
Record t := mk {
    id : Z;
    username : string;
    password : string;
    streak : Z;
    caloriesBurned : Z;
    activeMinutes : Z;
    completedWorkouts : Z;
    createdAt : Date
  }.
End User.

Module InsertUser.
Record t := mk { username : string; password : string }.
End InsertUser.

Module Pet.
Record t := mk {
    id : Z;
    userId : Z;
    name : string;
    type : string;
    health : Z;
    hunger : Z;
    happiness : Z;
    level : Z;
    xp : Z;
    lastFed : Date;
    lastPlayed : Date;
    lastGroomed : Date
  }.
End Pet.

Module InsertPet.
Record t := mk { userId : Z; name : string; type : option string }.
End InsertPet.

(** [Partial<Pet>]: every field of [Pet] made optional; [None] is a key
    that the object does not have. *)
Module PartialPet.
Record t := mk {
    id : option Z;
    userId : option Z;
    name : option string;
    type : option string;
    health : option Z;
    hunger : option Z;
    happiness : option Z;
    level : option Z;
    xp : option Z;
    lastFed : option Date;
    lastPlayed : option Date;
    lastGroomed : option Date
  }.

  (** The empty object [{}]. *)
Definition nothing : t :=
    mk None None None None None None None None None None None None.
End PartialPet.

Module Workout.
Record t := mk {
    id : Z;
    name : string;
    description : string;
    duration : Z;
    calories : Z;
    difficulty : string;
    type : string
  }.
End Workout.

Module InsertWorkout.
Record t := mk {
    name : string;
    description : string;
    duration : Z;
    calories : Z;
    difficulty : string;
    type : string
  }.
End InsertWorkout.

Module UserWorkout.
Record t := mk {
    id : Z;
    userId : Z;
    workoutId : Z;
    completed : bool;
    scheduledFor : Date;
    completedAt : option Date
  }.
End UserWorkout.

Module InsertUserWorkout.
Record t := mk { userId : Z; workoutId : Z; scheduledFor : Date }.
End InsertUserWorkout.

Module Exercise.
Record t := mk {
    id : Z;
    workoutId : Z;
    name : string;
    description : string;
    duration : Z;
    reps : option Z;
    sets : option Z;
    order : Z
  }.
End Exercise.

Module InsertExercise.
Record t := mk {
    workoutId : Z;
    name : string;
    description : string;
    duration : Z;
    reps : option Z;
    sets : option Z;
    order : Z
  }.
End InsertExercise.

(** [UserWorkoutWithDetails] as [getUserWorkoutWithDetails] builds it: the
    assignment spread together with its workout template. *)
Module UserWorkoutWithDetails.
Record t := mk { base : UserWorkout.t; workout : Workout.t }.
End UserWorkoutWithDetails.

(** [UserWorkoutWithDetails] as [getUserWorkoutsByUserId] builds it: the
    template is asserted with [workout!] and may be [undefined]. *)
Module UserWorkoutListed.
Record t := mk { base : UserWorkout.t; workout : option Workout.t }.
End UserWorkoutListed.

(** ** The store: [class MemStorage] *)

Record MemStorage := mkMemStorage {
  users : JSMap.t User.t;
  pets : JSMap.t Pet.t;
  workouts : JSMap.t Workout.t;
  userWorkouts : JSMap.t UserWorkout.t;
  exercises : JSMap.t Exercise.t;
  userIdCounter : Z;
  petIdCounter : Z;
  workoutIdCounter : Z;
  userWorkoutIdCounter : Z;
  exerciseIdCounter : Z
}.

(** Assignments to the fields of [this]. *)
Definition set_users (f : JSMap.t User.t -> JSMap.t User.t) (s : MemStorage) :=
  mkMemStorage (f (users s)) (pets s) (workouts s) (userWorkouts s)
    (exercises s) (userIdCounter s) (petIdCounter s) (workoutIdCounter s)
    (userWorkoutIdCounter s) (exerciseIdCounter s).
Definition set_pets (f : JSMap.t Pet.t -> JSMap.t Pet.t) (s : MemStorage) :=
  mkMemStorage (users s) (f (pets s)) (workouts s) (userWorkouts s)
    (exercises s) (userIdCounter s) (petIdCounter s) (workoutIdCounter s)
    (userWorkoutIdCounter s) (exerciseIdCounter s).
Definition set_workouts (f : JSMap.t Workout.t -> JSMap.t Workout.t)
    (s : MemStorage) :=
  mkMemStorage (users s) (pets s) (f (workouts s)) (userWorkouts s)
    (exercises s) (userIdCounter s) (petIdCounter s) (workoutIdCounter s)
    (userWorkoutIdCounter s) (exerciseIdCounter s).
Definition set_userWorkouts
    (f : JSMap.t UserWorkout.t -> JSMap.t UserWorkout.t) (s : MemStorage) :=
  mkMemStorage (users s) (pets s) (workouts s) (f (userWorkouts s))
    (exercises s) (userIdCounter s) (petIdCounter s) (workoutIdCounter s)
    (userWorkoutIdCounter s) (exerciseIdCounter s).
Definition set_exercises (f : JSMap.t Exercise.t -> JSMap.t Exercise.t)
    (s : MemStorage) :=
  mkMemStorage (users s) (pets s) (workouts s) (userWorkouts s)
    (f (exercises s)) (userIdCounter s) (petIdCounter s) (workoutIdCounter s)
    (userWorkoutIdCounter s) (exerciseIdCounter s).

Definition set_userIdCounter (v : Z) (s : MemStorage) :=
  mkMemStorage (users s) (pets s) (workouts s) (userWorkouts s)
    (exercises s) v (petIdCounter s) (workoutIdCounter s)
    (userWorkoutIdCounter s) (exerciseIdCounter s).
Definition set_petIdCounter (v : Z) (s : MemStorage) :=
  mkMemStorage (users s) (pets s) (workouts s) (userWorkouts s)
    (exercises s) (userIdCounter s) v (workoutIdCounter s)
    (userWorkoutIdCounter s) (exerciseIdCounter s).
Definition set_workoutIdCounter (v : Z) (s : MemStorage) :=
  mkMemStorage (users s) (pets s) (workouts s) (userWorkouts s)
    (exercises s) (userIdCounter s) (petIdCounter s) v
    (userWorkoutIdCounter s) (exerciseIdCounter s).
Definition set_userWorkoutIdCounter (v : Z) (s : MemStorage) :=
  mkMemStorage (users s) (pets s) (workouts s) (userWorkouts s)
    (exercises s) (userIdCounter s) (petIdCounter s) (workoutIdCounter s)
    v (exerciseIdCounter s).
Definition set_exerciseIdCounter (v : Z) (s : MemStorage) :=
  mkMemStorage (users s) (pets s) (workouts s) (userWorkouts s)
    (exercises s) (userIdCounter s) (petIdCounter s) (workoutIdCounter s)
    (userWorkoutIdCounter s) v.

(** [this.xIdCounter++]: the old value is the result. *)
Definition next_userId : state MemStorage Z :=
  s <- get ;;
  put (set_userIdCounter (userIdCounter s + 1) s) ;;
  ret (userIdCounter s).
Definition next_petId : state MemStorage Z :=
  s <- get ;;
  put (set_petIdCounter (petIdCounter s + 1) s) ;;
  ret (petIdCounter s).
Definition next_workoutId : state MemStorage Z :=
  s <- get ;;
  put (set_workoutIdCounter (workoutIdCounter s + 1) s) ;;
  ret (workoutIdCounter s).
Definition next_userWorkoutId : state MemStorage Z :=
  s <- get ;;
  put (set_userWorkoutIdCounter (userWorkoutIdCounter s + 1) s) ;;
  ret (userWorkoutIdCounter s).
Definition next_exerciseId : state MemStorage Z :=
  s <- get ;;
  put (set_exerciseIdCounter (exerciseIdCounter s + 1) s) ;;
  ret (exerciseIdCounter s).

(** *** User methods *)

Definition getUser (id : Z) : state MemStorage (option User.t) :=
  s <- get ;; ret (JSMap.get id (users s)).

Definition getUserByUsername (username : string)
  : state MemStorage (option User.t) :=
  s <- get ;;
  ret (find (fun user => String.eqb (User.username user) username)
         (JSMap.values (users s))).

Definition createUser (insertUser : InsertUser.t) (now : Date)
  : state MemStorage User.t :=
  id <- next_userId ;;
  let user :=
    User.mk id (InsertUser.username insertUser)
      (InsertUser.password insertUser) 0 0 0 0 now in
  modify (set_users (JSMap.set id user)) ;;
  ret user.

Definition updateUserStreak (id streak : Z)
  : state MemStorage (option User.t) :=
  user <- getUser id ;;
  match user with
  | None => ret None
  | Some user =>
      let updatedUser :=
        User.mk (User.id user) (User.username user) (User.password user)
          streak (User.caloriesBurned user) (User.activeMinutes user)
          (User.completedWorkouts user) (User.createdAt user) in
      modify (set_users (JSMap.set id updatedUser)) ;;
      ret (Some updatedUser)
  end.

Definition updateUserStats (id caloriesBurned activeMinutes completedWorkouts : Z)
  : state MemStorage (option User.t) :=
  user <- getUser id ;;
  match user with
  | None => ret None
  | Some user =>
      let updatedUser :=
        User.mk (User.id user) (User.username user) (User.password user)
          (User.streak user)
          (js_add (User.caloriesBurned user) caloriesBurned)
          (js_add (User.activeMinutes user) activeMinutes)
          (js_add (User.completedWorkouts user) completedWorkouts)
          (User.createdAt user) in
      modify (set_users (JSMap.set id updatedUser)) ;;
      ret (Some updatedUser)
  end.

(** *** Pet methods *)

Definition getPet (id : Z) : state MemStorage (option Pet.t) :=
  s <- get ;; ret (JSMap.get id (pets s)).

Definition getPetByUserId (userId : Z) : state MemStorage (option Pet.t) :=
  s <- get ;;
  ret (find (fun pet => Pet.userId pet =? userId) (JSMap.values (pets s))).

Definition createPet (insertPet : InsertPet.t) (now : Date)
  : state MemStorage Pet.t :=
  id <- next_petId ;;
  let pet :=
    Pet.mk id (InsertPet.userId insertPet) (InsertPet.name insertPet)
      (or_default (InsertPet.type insertPet) "cat")
      100 100 100 1 0 now now now in
  modify (set_pets (JSMap.set id pet)) ;;
  ret pet.

(** [v] when the key is present in the spread object, the old value
    otherwise. *)
Definition override {A : Type} (old : A) (new : option A) : A :=
  match new with Some v => v | None => old end.

(** [{ ...pet, ...updates }] *)
Definition spread (pet : Pet.t) (updates : PartialPet.t) : Pet.t :=
  Pet.mk
    (override (Pet.id pet) (PartialPet.id updates))
    (override (Pet.userId pet) (PartialPet.userId updates))
    (override (Pet.name pet) (PartialPet.name updates))
    (override (Pet.type pet) (PartialPet.type updates))
    (override (Pet.health pet) (PartialPet.health updates))
    (override (Pet.hunger pet) (PartialPet.hunger updates))
    (override (Pet.happiness pet) (PartialPet.happiness updates))
    (override (Pet.level pet) (PartialPet.level updates))
    (override (Pet.xp pet) (PartialPet.xp updates))
    (override (Pet.lastFed pet) (PartialPet.lastFed updates))
    (override (Pet.lastPlayed pet) (PartialPet.lastPlayed updates))
    (override (Pet.lastGroomed pet) (PartialPet.lastGroomed updates)).

(** [p.health = v], [p.hunger = v], [p.happiness = v] *)
Definition assign_health (v : Z) (p : Pet.t) : Pet.t :=
  Pet.mk (Pet.id p) (Pet.userId p) (Pet.name p) (Pet.type p) v
    (Pet.hunger p) (Pet.happiness p) (Pet.level p) (Pet.xp p)
    (Pet.lastFed p) (Pet.lastPlayed p) (Pet.lastGroomed p).
Definition assign_hunger (v : Z) (p : Pet.t) : Pet.t :=
  Pet.mk (Pet.id p) (Pet.userId p) (Pet.name p) (Pet.type p) (Pet.health p)
    v (Pet.happiness p) (Pet.level p) (Pet.xp p)
    (Pet.lastFed p) (Pet.lastPlayed p) (Pet.lastGroomed p).
Definition assign_happiness (v : Z) (p : Pet.t) : Pet.t :=
  Pet.mk (Pet.id p) (Pet.userId p) (Pet.name p) (Pet.type p) (Pet.health p)
    (Pet.hunger p) v (Pet.level p) (Pet.xp p)
    (Pet.lastFed p) (Pet.lastPlayed p) (Pet.lastGroomed p).

(** The three statements under "Ensure values are within bounds". *)
Definition ensure_bounds (updatedPet : Pet.t) : Pet.t :=
  let updatedPet :=
    if Pet.health updatedPet >? 100 then assign_health 100 updatedPet
    else updatedPet in
  let updatedPet :=
    if Pet.hunger updatedPet >? 100 then assign_hunger 100 updatedPet
    else updatedPet in
  let updatedPet :=
    if Pet.happiness updatedPet >? 100 then assign_happiness 100 updatedPet
    else updatedPet in
  updatedPet.

Definition updatePet (id : Z) (updates : PartialPet.t)
  : state MemStorage (option Pet.t) :=
  pet <- getPet id ;;
  match pet with
  | None => ret None
  | Some pet =>
      let updatedPet := ensure_bounds (spread pet updates) in
      modify (set_pets (JSMap.set id updatedPet)) ;;
      ret (Some updatedPet)
  end.

(** *** Workout methods *)

Definition getWorkout (id : Z) : state MemStorage (option Workout.t) :=
  s <- get ;; ret (JSMap.get id (workouts s)).

Definition getWorkouts : state MemStorage (list Workout.t) :=
  s <- get ;; ret (JSMap.values (workouts s)).

Definition createWorkout (insertWorkout : InsertWorkout.t)
  : state MemStorage Workout.t :=
  id <- next_workoutId ;;
  let workout :=
    Workout.mk id (InsertWorkout.name insertWorkout)
      (InsertWorkout.description insertWorkout)
      (InsertWorkout.duration insertWorkout)
      (InsertWorkout.calories insertWorkout)
      (InsertWorkout.difficulty insertWorkout)
      (InsertWorkout.type insertWorkout) in
  modify (set_workouts (JSMap.set id workout)) ;;
  ret workout.

(** *** User workout methods *)

Definition getUserWorkout (id : Z) : state MemStorage (option UserWorkout.t) :=
  s <- get ;; ret (JSMap.get id (userWorkouts s)).

Definition getUserWorkoutsByUserId (userId : Z)
  : state MemStorage (list UserWorkoutListed.t) :=
  s <- get ;;
  let userWorkoutsList :=
    filter (fun uw => UserWorkout.userId uw =? userId)
      (JSMap.values (userWorkouts s)) in
  ret (map (fun uw =>
              UserWorkoutListed.mk uw
                (JSMap.get (UserWorkout.workoutId uw) (workouts s)))
         userWorkoutsList).

Definition getUserWorkoutWithDetails (id : Z)
  : state MemStorage (option UserWorkoutWithDetails.t) :=
  userWorkout <- getUserWorkout id ;;
  match userWorkout with
  | None => ret None
  | Some userWorkout =>
      workout <- getWorkout (UserWorkout.workoutId userWorkout) ;;
      match workout with
      | None => ret None
      | Some workout =>
          ret (Some (UserWorkoutWithDetails.mk userWorkout workout))
      end
  end.

Definition createUserWorkout (insertUserWorkout : InsertUserWorkout.t)
  : state MemStorage UserWorkout.t :=
  id <- next_userWorkoutId ;;
  let userWorkout :=
    UserWorkout.mk id (InsertUserWorkout.userId insertUserWorkout)
      (InsertUserWorkout.workoutId insertUserWorkout) false
      (InsertUserWorkout.scheduledFor insertUserWorkout) None in
  modify (set_userWorkouts (JSMap.set id userWorkout)) ;;
  ret userWorkout.

Definition completeUserWorkout (id : Z) (now : Date)
  : state MemStorage (option UserWorkout.t) :=
  userWorkout <- getUserWorkout id ;;
  match userWorkout with
  | None => ret None
  | Some userWorkout =>
      let completedUserWorkout :=
        UserWorkout.mk (UserWorkout.id userWorkout)
          (UserWorkout.userId userWorkout)
          (UserWorkout.workoutId userWorkout) true
          (UserWorkout.scheduledFor userWorkout) (Some now) in
      modify (set_userWorkouts (JSMap.set id completedUserWorkout)) ;;
      ret (Some completedUserWorkout)
  end.

(** *** Exercise methods *)

Definition createExercise (insertExercise : InsertExercise.t)
  : state MemStorage Exercise.t :=
  id <- next_exerciseId ;;
  let exercise :=
    Exercise.mk id (InsertExercise.workoutId insertExercise)
      (InsertExercise.name insertExercise)
      (InsertExercise.description insertExercise)
      (InsertExercise.duration insertExercise)
      (InsertExercise.reps insertExercise)
      (InsertExercise.sets insertExercise)
      (InsertExercise.order insertExercise) in
  modify (set_exercises (JSMap.set id exercise)) ;;
  ret exercise.

(** *** The sample data and the constructor *)

Definition initializeWorkouts : state MemStorage unit :=
  morningCardio <- createWorkout
    (InsertWorkout.mk "Morning Cardio" "Energizing cardio to start your day"
       20 120 "Moderate" "Cardio") ;;
  strengthTraining <- createWorkout
    (InsertWorkout.mk "Strength Training" "Build muscle and increase strength"
       25 110 "Hard" "Strength") ;;
  eveningYoga <- createWorkout
    (InsertWorkout.mk "Evening Yoga" "Gentle stretching to end your day"
       15 80 "Easy" "Yoga") ;;
  createExercise
    (InsertExercise.mk (Workout.id morningCardio) "Jumping Jacks"
       "Start with your feet together and arms at your sides, then jump up with your feet apart and hands overhead."
       60 None None 1) ;;
  createExercise
    (InsertExercise.mk (Workout.id morningCardio) "High Knees"
       "Run in place, lifting your knees as high as possible with each step."
       45 None None 2) ;;
  createExercise
    (InsertExercise.mk (Workout.id morningCardio) "Butt Kicks"
       "Run in place, kicking your heels up toward your buttocks with each step."
       45 None None 3) ;;
  createExercise
    (InsertExercise.mk (Workout.id strengthTraining) "Push-ups"
       "Start in a high plank position and lower your body until your chest nearly touches the floor, then push back up."
       0 (Some 10) (Some 3) 1) ;;
  createExercise
    (InsertExercise.mk (Workout.id strengthTraining) "Squats"
       "Stand with feet shoulder-width apart, then lower your body as if sitting in a chair, then stand back up."
       0 (Some 15) (Some 3) 2) ;;
  createExercise
    (InsertExercise.mk (Workout.id strengthTraining) "Planks"
       "Hold a push-up position with your body in a straight line from head to heels."
       30 None (Some 3) 3) ;;
  createExercise
    (InsertExercise.mk (Workout.id eveningYoga) "Downward Dog"
       "Stretch your entire body, focusing on your back and shoulders."
       45 None (Some 3) 1) ;;
  createExercise
    (InsertExercise.mk (Workout.id eveningYoga) "Child's Pose"
       "A resting pose that gently stretches your lower back and hips."
       30 None (Some 3) 2) ;;
  createExercise
    (InsertExercise.mk (Workout.id eveningYoga) "Cobra Pose"
       "Lie on your stomach and lift your chest while keeping your hips on the ground."
       30 None (Some 3) 3) ;;
  ret tt.

(** The fields as the constructor first sets them. *)
Definition blank : MemStorage :=
  mkMemStorage JSMap.empty JSMap.empty JSMap.empty JSMap.empty JSMap.empty
    1 1 1 1 1.

(** [new MemStorage()] once its promises have settled, which is before the
    first request is served.  The sample workouts, the default user and the
    default pet go to different maps and counters, so the order in which the
    pending continuations run does not show in the result.  [tUser] and
    [tPet] are the two clock readings. *)
Definition constructor (tUser tPet : Date) : state MemStorage unit :=
  put blank ;;
  initializeWorkouts ;;
  defaultUser <- createUser (InsertUser.mk "user" "password") tUser ;;
  createPet (InsertPet.mk (User.id defaultUser) "Buddy" (Some "cat")) tPet ;;
  ret tt.

Definition storage (tUser tPet : Date) : MemStorage :=
  execState (constructor tUser tPet) blank.

(** ** The request handlers: [registerRoutes] *)

(** A value found under a key of a parsed JSON request body, as far as the
    schemas below tell values apart.  [JOther] is any other JSON value:
    [null], a boolean, a number that is not an integer, an array or an
    object. *)
Inductive Json : Type :=
| JAbsent
| JInt (z : Z)
| JStr (s : string)
| JOther.

(** What a handler sends. *)
Inductive Body : Type :=
| OfUser (user : User.t)
| OfPet (pet : option Pet.t)
| OfUserWorkout (userWorkout : option UserWorkout.t)
| OfUserWorkoutListed (userWorkout : option UserWorkoutListed.t)
| Message (message : string)
| ZodErrors.

Record Response := mkResponse { status : Z; body : Body }.

(** [res.status(c).json(b)], and [res.json(b)] which answers 200. *)
Definition status_json (c : Z) (b : Body) : Response := mkResponse c b.
Definition json (b : Body) : Response := mkResponse 200 b.

(** *** The zod validators that the handlers build *)

(** [z.number().int()] followed by range checks [ok]. *)
Definition z_int (ok : Z -> bool) (j : Json) : option Z :=
  match j with
  | JInt z => if ok z then Some z else None
  | _ => None
  end.

(** [z.enum(values)] *)
Definition z_enum (values : list string) (j : Json) : option string :=
  match j with
  | JStr s => if existsb (String.eqb s) values then Some s else None
  | _ => None
  end.

(** [z.date()]: the value must be a [Date] instance, which nothing in a
    JSON body is. *)
Definition z_date (j : Json) : option Date := None.

(** [.optional()]: a missing key is accepted and stays missing. *)
Definition optional {A : Type} (p : Json -> option A) (j : Json)
  : option (option A) :=
  match j with
  | JAbsent => Some None
  | _ => option_map Some (p j)
  end.

Definition nonnegative (z : Z) : bool := 0 <=? z.
Definition positive (z : Z) : bool := 0 <? z.
Definition min_max (lo hi z : Z) : bool := (lo <=? z) && (z <=? hi).

(** The keys that [updateSchema] of [PATCH /api/pets/:id] looks at; the
    parse drops every other key of the body. *)
Module PatchBody.
Record t := mk {
  health : Json;
  hunger : Json;
  happiness : Json;
  xp : Json;
  level : Json;
  type : Json;
  lastFed : Json;
  lastPlayed : Json;
  lastGroomed : Json
}.

(** The body [{}]. *)
Definition nothing : t :=
  mk JAbsent JAbsent JAbsent JAbsent JAbsent JAbsent JAbsent JAbsent JAbsent.
End PatchBody.

(** [updateSchema.parse(req.body)]; [None] is a thrown [ZodError]. *)
Definition updateSchema_parse (b : PatchBody.t) : option PartialPet.t :=
  match
    optional (z_int (min_max 0 100)) (PatchBody.health b),
    optional (z_int (min_max 0 100)) (PatchBody.hunger b),
    optional (z_int (min_max 0 100)) (PatchBody.happiness b),
    optional (z_int nonnegative) (PatchBody.xp b),
    optional (z_int positive) (PatchBody.level b),
    optional (z_enum ["cat"; "dog"; "rabbit"; "fox"; "hamster"])
      (PatchBody.type b),
    optional z_date (PatchBody.lastFed b),
    optional z_date (PatchBody.lastPlayed b),
    optional z_date (PatchBody.lastGroomed b)
  with
  | Some health, Some hunger, Some happiness, Some xp, Some level, Some type,
    Some lastFed, Some lastPlayed, Some lastGroomed =>
      Some (PartialPet.mk None None None type health hunger happiness level
              xp lastFed lastPlayed lastGroomed)
  | _, _, _, _, _, _, _, _, _ => None
  end.

Module StatsBody.
Record t := mk {
  caloriesBurned : Json;
  activeMinutes : Json;
  completedWorkouts : Json
}.
End StatsBody.

(** [statsSchema.parse(req.body)] *)
Definition statsSchema_parse (b : StatsBody.t) : option (Z * Z * Z) :=
  match
    z_int nonnegative (StatsBody.caloriesBurned b),
    z_int nonnegative (StatsBody.activeMinutes b),
    z_int nonnegative (StatsBody.completedWorkouts b)
  with
  | Some caloriesBurned, Some activeMinutes, Some completedWorkouts =>
      Some (caloriesBurned, activeMinutes, completedWorkouts)
  | _, _, _ => None
  end.

(** The body of [POST /api/users/:userId/workouts].  [scheduledFor] is
    [None] when the key does not hold a string, and [Some d] when it holds
    a string [str], [d] being [new Date(str)] (the invalid date when [str]
    is not a date). *)
Module ScheduleBody.
Record t := mk {
  workoutId : Json;
  scheduledFor : option Date
}.
End ScheduleBody.

(** [schema.parse(req.body)] of the scheduling handler. *)
Definition schema_parse (b : ScheduleBody.t) : option (Z * Date) :=
  match z_int positive (ScheduleBody.workoutId b), ScheduleBody.scheduledFor b
  with
  | Some workoutId, Some scheduledFor => Some (workoutId, scheduledFor)
  | _, _ => None
  end.

(** *** The handlers

    The path parameter of each handler is the result of [parseInt] on it.
    The [catch] clauses answer 400 with the schema violations for a
    [ZodError]; nothing else in the bodies below throws, so the 500 branch
    is never taken. *)

(** [POST /api/users]; [validatedUser] is the outcome of
    [insertUserSchema.parse(req.body)], [None] for a [ZodError]. *)
Definition post_users (validatedUser : option InsertUser.t) (now : Date)
  : state MemStorage Response :=
  match validatedUser with
  | None => ret (status_json 400 ZodErrors)
  | Some validatedUser =>
      existingUser <- getUserByUsername (InsertUser.username validatedUser) ;;
      match existingUser with
      | Some _ => ret (status_json 409 (Message "Username already exists"))
      | None =>
          user <- createUser validatedUser now ;;
          ret (status_json 201 (OfUser user))
      end
  end.

(** [POST /api/users/:id/stats] *)
Definition post_users_stats (userId : Number) (b : StatsBody.t)
  : state MemStorage Response :=
  match userId with
  | NaN => ret (status_json 400 (Message "Invalid user ID"))
  | Num userId =>
      match statsSchema_parse b with
      | None => ret (status_json 400 ZodErrors)
      | Some (caloriesBurned, activeMinutes, completedWorkouts) =>
          updatedUser <- updateUserStats userId caloriesBurned activeMinutes
                           completedWorkouts ;;
          match updatedUser with
          | None => ret (status_json 404 (Message "User not found"))
          | Some updatedUser => ret (json (OfUser updatedUser))
          end
      end
  end.

(** [POST /api/pets]; [validatedPet] is the outcome of
    [insertPetSchema.parse(req.body)]. *)
Definition post_pets (validatedPet : option InsertPet.t) (now : Date)
  : state MemStorage Response :=
  match validatedPet with
  | None => ret (status_json 400 ZodErrors)
  | Some validatedPet =>
      existingPet <- getPetByUserId (InsertPet.userId validatedPet) ;;
      match existingPet with
      | Some _ => ret (status_json 409 (Message "User already has a pet"))
      | None =>
          pet <- createPet validatedPet now ;;
          ret (status_json 201 (OfPet (Some pet)))
      end
  end.

(** [PATCH /api/pets/:id] *)
Definition patch_pets (petId : Number) (b : PatchBody.t)
  : state MemStorage Response :=
  match petId with
  | NaN => ret (status_json 400 (Message "Invalid pet ID"))
  | Num petId =>
      match updateSchema_parse b with
      | None => ret (status_json 400 ZodErrors)
      | Some updates =>
          updatedPet <- updatePet petId updates ;;
          match updatedPet with
          | None => ret (status_json 404 (Message "Pet not found"))
          | Some updatedPet => ret (json (OfPet (Some updatedPet)))
          end
      end
  end.

(** The object that the feed handler passes to [updatePet]:
    [{ hunger: Math.min(pet.hunger + 20, 100), lastFed: now }]. *)
Definition feed_updates (pet : Pet.t) (now : Date) : PartialPet.t :=
  PartialPet.mk None None None None
    None (Some (Z.min (Pet.hunger pet + 20) 100)) None
    None None (Some now) None None.

(** [POST /api/pets/:id/feed] *)
Definition post_pets_feed (petId : Number) (now : Date)
  : state MemStorage Response :=
  match petId with
  | NaN => ret (status_json 400 (Message "Invalid pet ID"))
  | Num petId =>
      pet <- getPet petId ;;
      match pet with
      | None => ret (status_json 404 (Message "Pet not found"))
      | Some pet =>
          updatedPet <- updatePet petId (feed_updates pet now) ;;
          ret (json (OfPet updatedPet))
      end
  end.

(** [{ happiness: Math.min(pet.happiness + 15, 100),
       hunger: Math.max(pet.hunger - 5, 0), lastPlayed: now }] *)
Definition play_updates (pet : Pet.t) (now : Date) : PartialPet.t :=
  PartialPet.mk None None None None
    None (Some (Z.max (Pet.hunger pet - 5) 0))
    (Some (Z.min (Pet.happiness pet + 15) 100))
    None None None (Some now) None.

(** [POST /api/pets/:id/play] *)
Definition post_pets_play (petId : Number) (now : Date)
  : state MemStorage Response :=
  match petId with
  | NaN => ret (status_json 400 (Message "Invalid pet ID"))
  | Num petId =>
      pet <- getPet petId ;;
      match pet with
      | None => ret (status_json 404 (Message "Pet not found"))
      | Some pet =>
          updatedPet <- updatePet petId (play_updates pet now) ;;
          ret (json (OfPet updatedPet))
      end
  end.

(** [{ health: Math.min(pet.health + 10, 100), lastGroomed: now }] *)
Definition groom_updates (pet : Pet.t) (now : Date) : PartialPet.t :=
  PartialPet.mk None None None None
    (Some (Z.min (Pet.health pet + 10) 100)) None None
    None None None None (Some now).

(** [POST /api/pets/:id/groom] *)
Definition post_pets_groom (petId : Number) (now : Date)
  : state MemStorage Response :=
  match petId with
  | NaN => ret (status_json 400 (Message "Invalid pet ID"))
  | Num petId =>
      pet <- getPet petId ;;
      match pet with
      | None => ret (status_json 404 (Message "Pet not found"))
      | Some pet =>
          updatedPet <- updatePet petId (groom_updates pet now) ;;
          ret (json (OfPet updatedPet))
      end
  end.

(** The callback of [existingWorkouts.some]: same template and same local
    calendar day as the requested one. *)
Definition same_workout_same_day (workoutId : Z) (scheduledDate : Date)
    (uw : UserWorkoutListed.t) : bool :=
  let existingDate := UserWorkout.scheduledFor (UserWorkoutListed.base uw) in
  (UserWorkout.workoutId (UserWorkoutListed.base uw) =? workoutId)
  && strict_eq (getDate existingDate) (getDate scheduledDate)
  && strict_eq (getMonth existingDate) (getMonth scheduledDate)
  && strict_eq (getFullYear existingDate) (getFullYear scheduledDate).

(** [POST /api/users/:userId/workouts] *)
Definition post_users_workouts (userId : Number) (b : ScheduleBody.t)
  : state MemStorage Response :=
  match userId with
  | NaN => ret (status_json 400 (Message "Invalid user ID"))
  | Num userId =>
      match schema_parse b with
      | None => ret (status_json 400 ZodErrors)
      | Some (workoutId, scheduledFor) =>
          workout <- getWorkout workoutId ;;
          match workout with
          | None => ret (status_json 404 (Message "Workout not found"))
          | Some _ =>
              existingWorkouts <- getUserWorkoutsByUserId userId ;;
              let scheduledDate := scheduledFor in
              let isDuplicate :=
                existsb (same_workout_same_day workoutId scheduledDate)
                  existingWorkouts in
              if isDuplicate then
                let existingWorkout :=
                  find (fun uw =>
                          UserWorkout.workoutId (UserWorkoutListed.base uw)
                          =? workoutId)
                    existingWorkouts in
                ret (status_json 200 (OfUserWorkoutListed existingWorkout))
              else
                userWorkout <- createUserWorkout
                  (InsertUserWorkout.mk userId workoutId scheduledFor) ;;
                ret (status_json 201 (OfUserWorkout (Some userWorkout)))
          end
      end
  end.

(** [Math.round(workout.calories / 5)].  For whole calories of at most 2^47
    in size, those of the three templates among them, the double
    [calories / 5] rounds as the exact quotient does. *)
Definition xpGain (calories : Z) : Z :=
  Math_round (inject_Z calories / inject_Z 5)%Q.

(** The object that the completion handler passes to [updatePet]:
    [{ xp: pet.xp + xpGain, happiness: Math.min(pet.happiness + 10, 100),
       health: Math.min(pet.health + 5, 100) }]. *)
Definition workout_updates (pet : Pet.t) (workout : Workout.t)
  : PartialPet.t :=
  PartialPet.mk None None None None
    (Some (Z.min (Pet.health pet + 5) 100)) None
    (Some (Z.min (Pet.happiness pet + 10) 100))
    None (Some (js_add (Pet.xp pet) (xpGain (Workout.calories workout))))
    None None None.

(** [POST /api/user-workouts/:id/complete] *)
Definition post_user_workouts_complete (userWorkoutId : Number) (now : Date)
  : state MemStorage Response :=
  match userWorkoutId with
  | NaN => ret (status_json 400 (Message "Invalid user workout ID"))
  | Num userWorkoutId =>
      userWorkoutWithDetails <- getUserWorkoutWithDetails userWorkoutId ;;
      match userWorkoutWithDetails with
      | None => ret (status_json 404 (Message "User workout not found"))
      | Some userWorkoutWithDetails =>
          let uw := UserWorkoutWithDetails.base userWorkoutWithDetails in
          if UserWorkout.completed uw then
            ret (status_json 400 (Message "Workout already completed"))
          else
            completedUserWorkout <- completeUserWorkout userWorkoutId now ;;
            let workout :=
              UserWorkoutWithDetails.workout userWorkoutWithDetails in
            updateUserStats (UserWorkout.userId uw)
              (Workout.calories workout) (Workout.duration workout) 1 ;;
            pet <- getPetByUserId (UserWorkout.userId uw) ;;
            match pet with
            | Some pet =>
                updatePet (Pet.id pet) (workout_updates pet workout) ;;
                ret (json (OfUserWorkout completedUserWorkout))
            | None => ret (json (OfUserWorkout completedUserWorkout))
            end
      end
  end.

(** *** The server as a transition system

    The requests that can change the store; the [GET] routes only read it.
    The store is private to the server, so the states that exist are the one
    the constructor builds and those that a request leads to. *)
Inductive Request : Type :=
| PostUsers (validatedUser : option InsertUser.t) (now : Date)
| PostUsersStats (userId : Number) (b : StatsBody.t)
| PostPets (validatedPet : option InsertPet.t) (now : Date)
| PatchPets (petId : Number) (b : PatchBody.t)
| PostPetsFeed (petId : Number) (now : Date)
| PostPetsPlay (petId : Number) (now : Date)
| PostPetsGroom (petId : Number) (now : Date)
| PostUsersWorkouts (userId : Number) (b : ScheduleBody.t)
| PostUserWorkoutsComplete (userWorkoutId : Number) (now : Date).

Definition handle (req : Request) : state MemStorage Response :=
  match req with
  | PostUsers validatedUser now => post_users validatedUser now
  | PostUsersStats userId b => post_users_stats userId b
  | PostPets validatedPet now => post_pets validatedPet now
  | PatchPets petId b => patch_pets petId b
  | PostPetsFeed petId now => post_pets_feed petId now
  | PostPetsPlay petId now => post_pets_play petId now
  | PostPetsGroom petId now => post_pets_groom petId now
  | PostUsersWorkouts userId b => post_users_workouts userId b
  | PostUserWorkoutsComplete userWorkoutId now =>
      post_user_workouts_complete userWorkoutId now
  end.

Inductive reachable : MemStorage -> Prop :=
| reachable_boot (tUser tPet : Date) : reachable (storage tUser tPet)
| reachable_request (s : MemStorage) (req : Request) :
    reachable s -> reachable (execState (handle req) s).

(** The store after a list of requests, oldest first. *)
Fixpoint serve (reqs : list Request) (s : MemStorage) : MemStorage :=
  match reqs with
  | [] => s
  | req :: reqs' => serve reqs' (execState (handle req) s)
  end.

(** ** The mood effect of the pet provider (client/src/context/PetContext.tsx) *)

Module MessageKey.
Inductive t : Type :=
| default | hungry | unhappy | unhealthy | happy
| fed | played | groomed | workout.
End MessageKey.

Definition petMessages (k : MessageKey.t) : string :=
  match k with
  | MessageKey.default => "Let's crush today's workout! I believe in you!"
  | MessageKey.hungry => "I'm getting a bit hungry. Could you feed me?"
  | MessageKey.unhappy => "I'm feeling a bit down today. Want to play?"
  | MessageKey.unhealthy => "I'm not feeling well. Can you help me?"
  | MessageKey.happy => "I feel amazing today! Let's have a great workout!"
  | MessageKey.fed => "Yum! Thank you for the food!"
  | MessageKey.played => "This is so fun! I love playing with you!"
  | MessageKey.groomed => "I feel refreshed and clean now!"
  | MessageKey.workout => "You're doing great! Keep going!"
  end.

(** The key that the effect "Set message based on pet status" selects. *)
Definition mood (pet : Pet.t) : MessageKey.t :=
  if Pet.hunger pet <? 30 then MessageKey.hungry
  else if Pet.happiness pet <? 30 then MessageKey.unhappy
  else if Pet.health pet <? 30 then MessageKey.unhealthy
  else if (Pet.happiness pet >? 80) && (Pet.health pet >? 80)
       then MessageKey.happy
  else MessageKey.default.

(** The effect itself: the message state after it has run; without a pet
    the message is left as it is. *)
Definition mood_effect (pet : option Pet.t) (message : string) : string :=
  match pet with
  | None => message
  | Some pet => petMessages (mood pet)
  end.

(** ** Notions used in the statements *)

(** The user that [updateUserStats] writes. *)
Definition add_stats (user : User.t) (caloriesBurned activeMinutes
    completedWorkouts : Z) : User.t :=
  User.mk (User.id user) (User.username user) (User.password user)
    (User.streak user)
    (js_add (User.caloriesBurned user) caloriesBurned)
    (js_add (User.activeMinutes user) activeMinutes)
    (js_add (User.completedWorkouts user) completedWorkouts)
    (User.createdAt user).

(** The assignment that [completeUserWorkout] writes. *)
Definition mark_completed (uw : UserWorkout.t) (now : Date) : UserWorkout.t :=
  UserWorkout.mk (UserWorkout.id uw) (UserWorkout.userId uw)
    (UserWorkout.workoutId uw) true (UserWorkout.scheduledFor uw) (Some now).

(** The three bounded attributes of a pet. *)
Definition in_bounds (p : Pet.t) : Prop :=
  0 <= Pet.health p <= 100
  /\ 0 <= Pet.hunger p <= 100
  /\ 0 <= Pet.happiness p <= 100.

(** The three cumulative counters of a user. *)
Definition counters (u : User.t) : Z * Z * Z :=
  (User.caloriesBurned u, User.activeMinutes u, User.completedWorkouts u).

(** A clock reading and the store right after start-up, for the examples. *)
Definition noon : Date := LocalDate 2025 0 15 43200000.
Definition booted : MemStorage := storage noon noon.

(** What holds of every store that the server can be in (see
    [reachable_consistent]): a pet is filed under its own id with its
    bounded attributes in range, the workout templates are the sample ones,
    and an assignment is filed under its own id, below the id counter, for
    a template that exists. *)
Record consistent (s : MemStorage) : Prop := {
  pets_keys : NoDup (JSMap.keys (pets s));
  pets_rows : forall k p, In (k, p) (pets s) -> Pet.id p = k /\ in_bounds p;
  workouts_fixed : workouts s = workouts (execState initializeWorkouts blank);
  userWorkouts_rows : forall k uw,
    In (k, uw) (userWorkouts s) ->
    UserWorkout.id uw = k
    /\ k < userWorkoutIdCounter s
    /\ JSMap.get (UserWorkout.workoutId uw) (workouts s) <> None
}.

(** An update that leaves the id alone and supplies no negative bounded
    attribute. *)
Definition tame (updates : PartialPet.t) : Prop :=
  PartialPet.id updates = None
  /\ (forall v, PartialPet.health updates = Some v -> 0 <= v)
  /\ (forall v, PartialPet.hunger updates = Some v -> 0 <= v)
  /\ (forall v, PartialPet.happiness updates = Some v -> 0 <= v).

(** The scheduling requests of the example of C2: the default user asks
    for the strength training (template 2) at the given date. *)
Definition ask_strength (scheduledFor : Date) : ScheduleBody.t :=
  ScheduleBody.mk (JInt 2) (Some scheduledFor).
Definition jan15_morning : Date := LocalDate 2025 0 15 32400000.
Definition jan16_morning : Date := LocalDate 2025 0 16 32400000.
Definition jan16_evening : Date := LocalDate 2025 0 16 64800000.

(** ** The rest of the storage and of the routes *)

(** [array.sort((a, b) => key(a) - key(b))].  [Array.prototype.sort] is
    stable and, the comparator being a consistent ordering, leaves the
    elements in non-decreasing order of [key]; there is one arrangement
    with both properties, and insertion from the right computes it. *)
Fixpoint sort_insert {A : Type} (key : A -> Z) (x : A) (l : list A) : list A :=
  match l with
  | [] => [x]
  | y :: l' => if key x <=? key y then x :: l else y :: sort_insert key x l'
  end.

Fixpoint sort_by {A : Type} (key : A -> Z) (l : list A) : list A :=
  match l with
  | [] => []
  | x :: l' => sort_insert key x (sort_by key l')
  end.

(** [WorkoutWithExercises]: the template spread together with its
    exercises. *)
Module WorkoutWithExercises.
Record t := mk { base : Workout.t; exercises : list Exercise.t }.
End WorkoutWithExercises.

Definition getExercisesByWorkoutId (workoutId : Z)
  : state MemStorage (list Exercise.t) :=
  s <- get ;;
  ret (sort_by Exercise.order
         (filter (fun exercise => Exercise.workoutId exercise =? workoutId)
            (JSMap.values (exercises s)))).

Definition getWorkoutWithExercises (workoutId : Z)
  : state MemStorage (option WorkoutWithExercises.t) :=
  workout <- getWorkout workoutId ;;
  match workout with
  | None => ret None
  | Some workout =>
      exercises <- getExercisesByWorkoutId workoutId ;;
      ret (Some (WorkoutWithExercises.mk workout exercises))
  end.

(** What the [GET] handlers send. *)
Inductive Fetched : Type :=
| FetchedUser (user : User.t)
| FetchedPet (pet : Pet.t)
| FetchedWorkouts (workouts : list Workout.t)
| FetchedWorkout (workout : Workout.t)
| FetchedWorkoutWithExercises (workout : WorkoutWithExercises.t)
| FetchedUserWorkouts (userWorkouts : list UserWorkoutListed.t)
| FetchedMessage (message : string).

(** [GET /api/users/:id] *)
Definition get_users (userId : Number) : state MemStorage (Z * Fetched) :=
  match userId with
  | NaN => ret (400, FetchedMessage "Invalid user ID")
  | Num userId =>
      user <- getUser userId ;;
      match user with
      | None => ret (404, FetchedMessage "User not found")
      | Some user => ret (200, FetchedUser user)
      end
  end.

(** [GET /api/users/:userId/pet] *)
Definition get_users_pet (userId : Number) : state MemStorage (Z * Fetched) :=
  match userId with
  | NaN => ret (400, FetchedMessage "Invalid user ID")
  | Num userId =>
      pet <- getPetByUserId userId ;;
      match pet with
      | None => ret (404, FetchedMessage "Pet not found")
      | Some pet => ret (200, FetchedPet pet)
      end
  end.

(** [GET /api/workouts] *)
Definition get_workouts : state MemStorage (Z * Fetched) :=
  workouts <- getWorkouts ;;
  ret (200, FetchedWorkouts workouts).

(** [GET /api/workouts/:id] *)
Definition get_workouts_id (workoutId : Number)
  : state MemStorage (Z * Fetched) :=
  match workoutId with
  | NaN => ret (400, FetchedMessage "Invalid workout ID")
  | Num workoutId =>
      workout <- getWorkout workoutId ;;
      match workout with
      | None => ret (404, FetchedMessage "Workout not found")
      | Some workout => ret (200, FetchedWorkout workout)
      end
  end.

(** [GET /api/workouts/:id/exercises] *)
Definition get_workouts_exercises (workoutId : Number)
  : state MemStorage (Z * Fetched) :=
  match workoutId with
  | NaN => ret (400, FetchedMessage "Invalid workout ID")
  | Num workoutId =>
      workoutWithExercises <- getWorkoutWithExercises workoutId ;;
      match workoutWithExercises with
      | None => ret (404, FetchedMessage "Workout not found")
      | Some workoutWithExercises =>
          ret (200, FetchedWorkoutWithExercises workoutWithExercises)
      end
  end.

(** [GET /api/users/:userId/workouts] *)
Definition get_users_workouts (userId : Number)
  : state MemStorage (Z * Fetched) :=
  match userId with
  | NaN => ret (400, FetchedMessage "Invalid user ID")
  | Num userId =>
      userWorkouts <- getUserWorkoutsByUserId userId ;;
      ret (200, FetchedUserWorkouts userWorkouts)
  end.

(** ** The writes that the handlers perform

    A handler changes the store through the mutating methods of the storage
    only, and calls each of them behind a guard.  [write] lists these
    guarded calls; a request amounts to a few of them in a row
    ([handle_writes]).  The flag tells whether the write is that of
    [PATCH /api/pets/:id]. *)

(** The objects that the handlers pass to [updatePet] for the stored pet
    [pet]. *)
Inductive pet_update (pet : Pet.t) : bool -> PartialPet.t -> Prop :=
| by_feed (now : Date) : pet_update pet false (feed_updates pet now)
| by_play (now : Date) : pet_update pet false (play_updates pet now)
| by_groom (now : Date) : pet_update pet false (groom_updates pet now)
| by_workout (workout : Workout.t) :
    0 <= Workout.calories workout ->
    pet_update pet false (workout_updates pet workout)
| by_patch (b : PatchBody.t) (updates : PartialPet.t) :
    updateSchema_parse b = Some updates -> pet_update pet true updates.

Inductive write (patch : bool) : MemStorage -> MemStorage -> Prop :=
| write_user s insertUser now :
    evalState (getUserByUsername (InsertUser.username insertUser)) s = None ->
    write patch s (execState (createUser insertUser now) s)
| write_stats s id c a w user :
    evalState (getUser id) s = Some user ->
    0 <= c -> 0 <= a -> 0 <= w ->
    write patch s (execState (updateUserStats id c a w) s)
| write_new_pet s insertPet now :
    evalState (getPetByUserId (InsertPet.userId insertPet)) s = None ->
    write patch s (execState (createPet insertPet now) s)
| write_pet s id pet updates :
    evalState (getPet id) s = Some pet ->
    pet_update pet patch updates ->
    write patch s (execState (updatePet id updates) s)
| write_schedule s userId workoutId scheduledFor :
    evalState (getWorkout workoutId) s <> None ->
    existsb (same_workout_same_day workoutId scheduledFor)
      (evalState (getUserWorkoutsByUserId userId) s) = false ->
    write patch s
      (execState
         (createUserWorkout
            (InsertUserWorkout.mk userId workoutId scheduledFor)) s)
| write_complete s id uw now :
    evalState (getUserWorkout id) s = Some uw ->
    UserWorkout.completed uw = false ->
    write patch s (execState (completeUserWorkout id now) s).

(** Several writes in a row. *)
Inductive writes (patch : bool) : MemStorage -> MemStorage -> Prop :=
| writes_none s : writes patch s s
| writes_more s s' s'' :
    write patch s s' -> writes patch s' s'' -> writes patch s s''.

Definition is_patch (req : Request) : bool :=
  match req with
  | PatchPets _ _ => true
  | _ => false
  end.

(** The stores between two writes: those of [reachable] and the ones that
    a handler passes through. *)
Inductive attainable : MemStorage -> Prop :=
| attainable_boot (tUser tPet : Date) : attainable (storage tUser tPet)
| attainable_write (patch : bool) (s s' : MemStorage) :
    attainable s -> write patch s s' -> attainable s'.

(** The ids [1, 2, ..., counter - 1], in this order. *)
Definition ids_below (counter : Z) : list Z :=
  map Z.of_nat (seq 1 (Z.to_nat (counter - 1))).

(** Two dates on the same local calendar day; never so for an invalid
    date. *)
Definition same_calendar_day (a b : Date) : bool :=
  strict_eq (getDate a) (getDate b)
  && strict_eq (getMonth a) (getMonth b)
  && strict_eq (getFullYear a) (getFullYear b).

(** Every map holds the ids [1 .. counter - 1], in the order of creation. *)
Definition ids_in_order (s : MemStorage) : Prop :=
  (JSMap.keys (users s) = ids_below (userIdCounter s)
   /\ 1 <= userIdCounter s)
  /\ (JSMap.keys (pets s) = ids_below (petIdCounter s)
      /\ 1 <= petIdCounter s)
  /\ (JSMap.keys (workouts s) = ids_below (workoutIdCounter s)
      /\ 1 <= workoutIdCounter s)
  /\ (JSMap.keys (userWorkouts s) = ids_below (userWorkoutIdCounter s)
      /\ 1 <= userWorkoutIdCounter s)
  /\ (JSMap.keys (exercises s) = ids_below (exerciseIdCounter s)
      /\ 1 <= exerciseIdCounter s).

(** The user rows: filed under their own id, with a streak of 0 and
    cumulative counters that are not negative; and no username twice. *)
Definition users_in_order (s : MemStorage) : Prop :=
  (forall k u,
      In (k, u) (users s) ->
      User.id u = k /\ User.streak u = 0
      /\ 0 <= User.caloriesBurned u /\ 0 <= User.activeMinutes u
      /\ 0 <= User.completedWorkouts u)
  /\ NoDup (map User.username (JSMap.values (users s))).

(** A later store keeps every user of an earlier one, with the same id,
    username, password, streak and creation time and with counters that
    are not lower. *)
Definition users_grow (s s' : MemStorage) : Prop :=
  forall id u,
    JSMap.get id (users s) = Some u ->
    exists u',
      JSMap.get id (users s') = Some u'
      /\ User.id u' = User.id u
      /\ User.username u' = User.username u
      /\ User.password u' = User.password u
      /\ User.streak u' = User.streak u
      /\ User.createdAt u' = User.createdAt u
      /\ User.caloriesBurned u <= User.caloriesBurned u'
      /\ User.activeMinutes u <= User.activeMinutes u'
      /\ User.completedWorkouts u <= User.completedWorkouts u'.

(** The pet rows: a level of at least 1, an xp that is not negative, and
    no owner twice. *)
Definition pets_in_order (s : MemStorage) : Prop :=
  (forall k p, In (k, p) (pets s) -> 1 <= Pet.level p /\ 0 <= Pet.xp p)
  /\ NoDup (map Pet.userId (JSMap.values (pets s))).

(** A later store keeps every pet of an earlier one, with the same id,
    owner and name; [strict] adds the same level and species and an xp
    that is not lower. *)
Definition pets_stay (strict : bool) (s s' : MemStorage) : Prop :=
  forall id p,
    JSMap.get id (pets s) = Some p ->
    exists p',
      JSMap.get id (pets s') = Some p'
      /\ Pet.id p' = Pet.id p
      /\ Pet.userId p' = Pet.userId p
      /\ Pet.name p' = Pet.name p
      /\ (strict = true ->
          Pet.level p' = Pet.level p
          /\ Pet.type p' = Pet.type p
          /\ Pet.xp p <= Pet.xp p').

(** The assignment rows: the completed flag is set exactly when there is a
    completion time, and a user has no two assignments of one template on
    the same calendar day. *)
Definition assignments_in_order (s : MemStorage) : Prop :=
  (forall k uw,
      In (k, uw) (userWorkouts s) ->
      (UserWorkout.completed uw = true <-> UserWorkout.completedAt uw <> None))
  /\ (forall k1 k2 uw1 uw2,
        In (k1, uw1) (userWorkouts s) -> In (k2, uw2) (userWorkouts s) ->
        k1 <> k2 ->
        UserWorkout.userId uw1 = UserWorkout.userId uw2 ->
        UserWorkout.workoutId uw1 = UserWorkout.workoutId uw2 ->
        same_calendar_day (UserWorkout.scheduledFor uw1)
          (UserWorkout.scheduledFor uw2) = false).

(** A later store keeps every assignment of an earlier one, with the same
    id, user, template and date, and as it was when it was completed
    already. *)
Definition assignments_stay (s s' : MemStorage) : Prop :=
  forall id uw,
    JSMap.get id (userWorkouts s) = Some uw ->
    exists uw',
      JSMap.get id (userWorkouts s') = Some uw'
      /\ UserWorkout.id uw' = UserWorkout.id uw
      /\ UserWorkout.userId uw' = UserWorkout.userId uw
      /\ UserWorkout.workoutId uw' = UserWorkout.workoutId uw
      /\ UserWorkout.scheduledFor uw' = UserWorkout.scheduledFor uw
      /\ (UserWorkout.completed uw = true -> uw' = uw).

(** A key that is missing or holds an integer from [lo] up to [hi] (no
    upper limit for [None]). *)
Definition absent_or_within (lo : Z) (hi : option Z) (j : Json) : Prop :=
  j = JAbsent
  \/ exists z,
      j = JInt z /\ lo <= z
      /\ match hi with Some hi => z <= hi | None => True end.

(** The value of an optional integer key. *)
Definition supplied (j : Json) : option Z :=
  match j with JInt z => Some z | _ => None end.

(** The bodies that [PATCH /api/pets/:id] accepts. *)
Definition accepted_body (b : PatchBody.t) : Prop :=
  absent_or_within 0 (Some 100) (PatchBody.health b)
  /\ absent_or_within 0 (Some 100) (PatchBody.hunger b)
  /\ absent_or_within 0 (Some 100) (PatchBody.happiness b)
  /\ absent_or_within 0 None (PatchBody.xp b)
  /\ absent_or_within 1 None (PatchBody.level b)
  /\ (PatchBody.type b = JAbsent
      \/ exists species,
          PatchBody.type b = JStr species
          /\ In species ["cat"; "dog"; "rabbit"; "fox"; "hamster"])
  /\ PatchBody.lastFed b = JAbsent
  /\ PatchBody.lastPlayed b = JAbsent
  /\ PatchBody.lastGroomed b = JAbsent.

(** The value of an optional text key. *)
Definition supplied_text (j : Json) : option string :=
  match j with JStr str => Some str | _ => None end.

(** ** The client: what the two context providers send

    [apiRequest] (client/src/lib/queryClient.ts) is not among the sources.
    It sends the request and hands back the response, or throws for some
    responses; [throws] tells for which statuses it does.  What is proved
    below needs only that it does not throw for a 200. *)

(** A promise that has settled. *)
Inductive Settled (A : Type) : Type :=
| Fulfilled (a : A)
| Rejected.
Arguments Fulfilled {A} a.
Arguments Rejected {A}.

(** [PetType] *)
Module PetType.
Inductive t : Type := cat | dog | rabbit | fox | hamster.

Definition name (type : t) : string :=
  match type with
  | cat => "cat"
  | dog => "dog"
  | rabbit => "rabbit"
  | fox => "fox"
  | hamster => "hamster"
  end.
End PetType.

(** The state of the workout provider that [completeWorkout] reads and
    sets. *)
Module Provider.
Record t := mk {
  isWorkoutTimerOpen : bool;
  isWorkoutCompletedOpen : bool;
  currentWorkout : option WorkoutWithExercises.t;
  completedWorkout : option UserWorkoutListed.t;
  xpGained : Z
}.
End Provider.

Section Client.
Variable throws : Z -> bool.

Definition apiRequest (request : state MemStorage Response)
  : state MemStorage (Settled Response) :=
  res <- request ;;
  if throws (status res) then ret Rejected else ret (Fulfilled res).

(** *** client/src/context/PetContext.tsx *)

(** A number that holds an integer, as the server finds it in the body:
    [JSON.stringify] writes an infinity as [null]. *)
Definition JSON_number (z : Z) : Json :=
  if Infinity <=? Z.abs z then JOther else JInt z.

(** The body that [updatePetAfterWorkoutMutation] sends.  [calories] is a
    whole number of at most 2^47 in size, for which the double
    [calories / 5] rounds as the exact quotient does. *)
Definition updatePetAfterWorkout_body (pet : Pet.t) (calories : Z)
  : PatchBody.t :=
  PatchBody.mk
    (JInt (Z.min (Pet.health pet + 5) 100))
    JAbsent
    (JInt (Z.min (Pet.happiness pet + 10) 100))
    (JSON_number (js_add (Pet.xp pet) (xpGain calories)))
    JAbsent JAbsent JAbsent JAbsent JAbsent.

(** The [mutationFn] of [updatePetAfterWorkoutMutation]; [pet] is the
    provider's copy of the pet. *)
Definition updatePetAfterWorkout (pet : option Pet.t) (calories : Z)
  : state MemStorage (Settled (option (Body * Z))) :=
  match pet with
  | None => ret (Fulfilled None)
  | Some pet =>
      let xpGain := xpGain calories in
      res <- apiRequest
               (patch_pets (Num (Pet.id pet))
                  (updatePetAfterWorkout_body pet calories)) ;;
      match res with
      | Rejected => ret Rejected
      | Fulfilled res => ret (Fulfilled (Some (body res, xpGain)))
      end
  end.

(** The [mutationFn] of [changePetTypeMutation]. *)
Definition changePetType (pet : option Pet.t) (type : PetType.t)
  : state MemStorage (Settled (option Body)) :=
  match pet with
  | None => ret (Fulfilled None)
  | Some pet =>
      res <- apiRequest
               (patch_pets (Num (Pet.id pet))
                  (PatchBody.mk JAbsent JAbsent JAbsent JAbsent JAbsent
                     (JStr (PetType.name type)) JAbsent JAbsent JAbsent)) ;;
      match res with
      | Rejected => ret Rejected
      | Fulfilled res => ret (Fulfilled (Some (body res)))
      end
  end.

(** *** client/src/context/WorkoutContext.tsx *)

Definition USER_ID : Z := 1.

Definition closeWorkoutTimer (ui : Provider.t) : Provider.t :=
  Provider.mk false (Provider.isWorkoutCompletedOpen ui) None
    (Provider.completedWorkout ui) (Provider.xpGained ui).

(** The body that [completeWorkout] posts to the stats route. *)
Definition completeWorkout_stats (currentWorkout : WorkoutWithExercises.t)
  : StatsBody.t :=
  let workout := WorkoutWithExercises.base currentWorkout in
  StatsBody.mk
    (JInt (Workout.calories workout))
    (JInt (Math_round (inject_Z (Workout.duration workout) / inject_Z 60)%Q))
    (JInt 1).

(** [completeWorkout]; [userWorkouts] is the provider's copy of the user's
    assignments and [now] the reading of the server's clock when the
    completion arrives.  A thrown error ends in the [catch] clause, which
    closes the timer. *)
Definition completeWorkout (ui : Provider.t)
    (userWorkouts : list UserWorkoutListed.t) (now : Date)
  : state MemStorage Provider.t :=
  match Provider.currentWorkout ui with
  | None => ret ui
  | Some currentWorkout =>
      let userWorkout :=
        find (fun uw =>
                UserWorkout.workoutId (UserWorkoutListed.base uw)
                =? Workout.id (WorkoutWithExercises.base currentWorkout))
          userWorkouts in
      match userWorkout with
      | None => ret (closeWorkoutTimer ui)
      | Some userWorkout =>
          if negb (UserWorkout.completed (UserWorkoutListed.base userWorkout))
          then
            completed <- apiRequest
              (post_user_workouts_complete
                 (Num (UserWorkout.id (UserWorkoutListed.base userWorkout)))
                 now) ;;
            match completed with
            | Rejected => ret (closeWorkoutTimer ui)
            | Fulfilled _ =>
                let xpGain :=
                  xpGain
                    (Workout.calories
                       (WorkoutWithExercises.base currentWorkout)) in
                let ui :=
                  Provider.mk (Provider.isWorkoutTimerOpen ui)
                    (Provider.isWorkoutCompletedOpen ui)
                    (Provider.currentWorkout ui)
                    (Provider.completedWorkout ui) xpGain in
                posted <- apiRequest
                  (post_users_stats (Num USER_ID)
                     (completeWorkout_stats currentWorkout)) ;;
                match posted with
                | Rejected => ret (closeWorkoutTimer ui)
                | Fulfilled _ =>
                    ret (Provider.mk false true (Provider.currentWorkout ui)
                           (Some userWorkout) (Provider.xpGained ui))
                end
            end
          else
            ret (Provider.mk false true (Provider.currentWorkout ui)
                   (Provider.completedWorkout ui) (Provider.xpGained ui))
      end
  end.

End Client.

(** ** The timer hook: [useTimer]

    Times are whole seconds. *)

(** [n.toString()] for an integer [n] (of a size below 10^21, where
    JavaScript still writes all the digits). *)
Definition toString (n : Z) : string := NilZero.string_of_int (Z.to_int n).

(** [str.padStart(targetLength, padString)] for a [padString] of one
    character. *)
Definition padStart (targetLength : nat) (padString : ascii) (str : string)
  : string :=
  string_of_list_ascii (repeat padString (targetLength - String.length str))
  ++ str.

(** [formatTime] *)
Definition formatTime (seconds : Z) : string :=
  let mins := seconds / 60 in
  let secs := Z.rem seconds 60 in
  padStart 2 "0" (toString mins) ++ ":" ++ padStart 2 "0" (toString secs).

(** The updater that the interval passes to [setTimeLeft]: the new time
    left, and whether it stops the interval and calls [onComplete]. *)
Definition tick (timeLeft : Z) : Z * bool :=
  if timeLeft <=? 1 then (0, true) else (timeLeft - 1, false).

(** The time left after [n] firings of the interval. *)
Fixpoint ticks (n : nat) (timeLeft : Z) : Z :=
  match n with
  | O => timeLeft
  | S n => ticks n (fst (tick timeLeft))
  end.

(** What a string of digits stands for; no value for any other string. *)
Definition digits_value (str : string) : option Z :=
  option_map Z.of_uint (NilEmpty.uint_of_string str).

(** The requests of [initializeWorkoutsMutation], one for each template of
    [workouts], which is what [GET /api/workouts] has sent, or a
    rearrangement of it when the requests overtake one another.  [today]
    is the server's reading of [today.toISOString()]. *)
Definition initializeWorkoutsMutation (workouts : list Workout.t)
    (today : Date) : list Request :=
  map (fun workout =>
         PostUsersWorkouts (Num USER_ID)
           (ScheduleBody.mk (JInt (Workout.id workout)) (Some today)))
    workouts.

(** The assignment of template [workout] that a scheduling for user 1 files
    under the id [id], as the listing shows it. *)
Definition scheduled_today (today : Date) (id : Z) (workout : Workout.t)
  : UserWorkoutListed.t :=
  UserWorkoutListed.mk
    (UserWorkout.mk id USER_ID (Workout.id workout) false today None)
    (Some workout).

(** * Facts *)

(** ** Sums of doubles that hold integers *)

Section Rounding.

(** Below 2^53 every integer is a double. *)
Lemma round_small z : Z.abs z < 2 ^ 53 -> round_to_double z = z.
Proof.
  intros H. unfold round_to_double.
  destruct (Z.leb_spec (Z.log2 (Z.abs z) - 52) 0) as [_|L]; [reflexivity|].
  exfalso. assert (0 < Z.abs z) by (destruct (Z.abs z) eqn:E; cbn in L; lia).
  pose proof (Z.log2_spec (Z.abs z) ltac:(lia)) as [Lo _].
  assert (2 ^ 53 <= 2 ^ Z.log2 (Z.abs z)) by (apply Z.pow_le_mono_r; lia).
  lia.
Qed.

(** The shape of the rounding of a number of at least 2^53. *)
Lemma round_large z :
  2 ^ 53 <= z ->
  let e := Z.log2 z - 52 in
  let u := 2 ^ e in
  0 < e /\ 2 ^ 52 * u <= z < 2 ^ 53 * u
  /\ exists m, round_to_double z = m * u
       /\ 2 * z - u <= 2 * (m * u) <= 2 * z + u
       /\ 2 ^ 52 <= m <= 2 ^ 53
       /\ (2 * (m * u) = 2 * z - u -> Z.even m = true)
       /\ (2 * (m * u) = 2 * z + u -> Z.even m = true).
Proof.
  intros H e u.
  assert (P53 : 0 < 2 ^ 53) by (apply Z.pow_pos_nonneg; lia).
  assert (Hz : 0 < z) by lia.
  pose proof (Z.log2_spec z Hz) as [Lo Hi].
  assert (L53 : 53 <= Z.log2 z).
  { apply Z.log2_le_pow2; lia. }
  assert (He : 0 < e) by (unfold e; lia).
  assert (Hu : 0 < u) by (apply Z.pow_pos_nonneg; lia).
  assert (E1 : 2 ^ Z.log2 z = 2 ^ 52 * u).
  { unfold u, e. rewrite <- Z.pow_add_r by lia. f_equal. lia. }
  assert (E2 : 2 ^ (Z.log2 z + 1) = 2 ^ 53 * u).
  { unfold u, e. rewrite <- Z.pow_add_r by lia. f_equal. lia. }
  rewrite Z.add_1_r in E2. rewrite E1 in Lo. rewrite E2 in Hi.
  split; [exact He|]. split; [lia|].
  unfold round_to_double. rewrite (Z.abs_eq z) by lia. fold e.
  destruct (Z.leb_spec e 0) as [?|_]; [lia|]. fold u.
  rewrite (Z.sgn_pos z) by lia. rewrite Z.mul_1_l.
  pose proof (Z.div_mod z u ltac:(lia)) as D.
  pose proof (Z.mod_pos_bound z u Hu) as B.
  set (q := z / u) in *. set (r := z mod u) in *.
  assert (Q1 : 2 ^ 52 <= q) by (apply Z.div_le_lower_bound; lia).
  assert (Q2 : q < 2 ^ 53) by (apply Z.div_lt_upper_bound; lia).
  destruct (Z.ltb_spec (2 * r) u).
  - exists q. split; [reflexivity|]. repeat split; try nia.
  - destruct (Z.ltb_spec u (2 * r)).
    + exists (q + 1). split; [reflexivity|]. repeat split; try nia.
    + destruct (Z.even q) eqn:Ev.
      * exists q. split; [reflexivity|]. repeat split; try nia; auto.
      * exists (q + 1). split; [reflexivity|].
        assert (Z.even (q + 1) = true).
        { rewrite Z.even_add, Ev. reflexivity. }
        repeat split; try nia; auto.
Qed.

(** Up to 2^53 in size the sum of two integers is exact. *)
Lemma round_exact z : Z.abs z <= 2 ^ 53 -> round_to_double z = z.
Proof.
  intros H. destruct (Z.eq_dec (Z.abs z) (2 ^ 53)) as [E|N];
    [|apply round_small; lia].
  destruct (Z.abs_spec z) as [[Hz A]|[Hz A]]; rewrite A in E.
  - subst z. vm_compute. reflexivity.
  - assert (z = - 2 ^ 53) by lia. subst z. vm_compute. reflexivity.
Qed.

Lemma round_nonneg z : 0 <= z -> 0 <= round_to_double z.
Proof.
  intros H. destruct (Z_lt_le_dec z (2 ^ 53)) as [S|L].
  - rewrite round_small; [exact H|]. rewrite Z.abs_eq; lia.
  - destruct (round_large z L) as (He & Hb & m & -> & _ & Hm & _).
    assert (0 < 2 ^ (Z.log2 z - 52)) by (apply Z.pow_pos_nonneg; lia).
    assert (0 < 2 ^ 52) by (apply Z.pow_pos_nonneg; lia).
    nia.
Qed.

(** Rounding keeps the order. *)
Lemma round_mono x y :
  0 <= x <= y -> round_to_double x <= round_to_double y.
Proof.
  intros [Hx Hxy].
  destruct (Z_lt_le_dec y (2 ^ 53)) as [Sy|Ly].
  - rewrite !round_small by (rewrite Z.abs_eq; lia). exact Hxy.
  - destruct (round_large y Ly)
      as (Hey & Hby & my & -> & Ny & Hmy & Ey1 & _).
    set (uy := 2 ^ (Z.log2 y - 52)) in *.
    assert (Huy : 2 <= uy).
    { change 2 with (2 ^ 1) at 1. apply Z.pow_le_mono_r; lia. }
    assert (Gy : 2 ^ 52 * uy <= my * uy).
    { apply Z.mul_le_mono_nonneg_r; lia. }
    destruct (Z_lt_le_dec x (2 ^ 53)) as [Sx|Lx].
    + rewrite round_small by (rewrite Z.abs_eq; lia).
      assert (2 ^ 52 * 2 <= 2 ^ 52 * uy)
        by (apply Z.mul_le_mono_nonneg_l; lia).
      lia.
    + destruct (round_large x Lx)
        as (Hex & Hbx & mx & -> & Nx & Hmx & _ & Ex2).
      set (ux := 2 ^ (Z.log2 x - 52)) in *.
      assert (Hux : 0 < ux) by (apply Z.pow_pos_nonneg; lia).
      assert (Lxy : Z.log2 x <= Z.log2 y) by (apply Z.log2_le_mono; lia).
      destruct (Z.eq_dec (Z.log2 x) (Z.log2 y)) as [El|Nl].
      * assert (E : ux = uy) by (unfold ux, uy; now rewrite El).
        rewrite E in *. clear E.
        destruct (Z_le_gt_dec mx my) as [?|G];
          [apply Z.mul_le_mono_nonneg_r; lia|]. exfalso.
        assert (G1 : (my + 1) * uy <= mx * uy)
          by (apply Z.mul_le_mono_nonneg_r; lia).
        rewrite Z.mul_add_distr_r, Z.mul_1_l in G1.
        assert (T1 : 2 * (mx * uy) = 2 * x + uy) by lia.
        assert (T2 : 2 * (my * uy) = 2 * y - uy) by lia.
        assert (T3 : mx * uy = (my + 1) * uy)
          by (rewrite Z.mul_add_distr_r, Z.mul_1_l; lia).
        apply Z.mul_reg_r in T3; [|lia]. subst mx.
        apply Ex2 in T1. apply Ey1 in T2.
        rewrite Z.even_add, T2 in T1. discriminate.
      * assert (U : 2 * ux <= uy).
        { unfold ux, uy.
          replace (Z.log2 y - 52) with (1 + (Z.log2 y - 53)) by lia.
          rewrite Z.pow_add_r by lia. change (2 ^ 1) with 2.
          apply Z.mul_le_mono_nonneg_l; [lia|].
          apply Z.pow_le_mono_r; lia. }
        assert (A1 : mx * ux <= 2 ^ 53 * ux)
          by (apply Z.mul_le_mono_nonneg_r; lia).
        assert (A2 : 2 ^ 52 * (2 * ux) <= 2 ^ 52 * uy)
          by (apply Z.mul_le_mono_nonneg_l; lia).
        assert (A3 : 2 ^ 53 * ux = 2 ^ 52 * (2 * ux)).
        { change (2 ^ 53) with (2 ^ 52 * 2). ring. }
        lia.
Qed.

Lemma Infinity_above : 2 ^ 53 < Infinity.
Proof. vm_compute. reflexivity. Qed.

Lemma js_add_exact a b :
  0 <= a -> 0 <= b -> a + b <= 2 ^ 53 -> js_add a b = a + b.
Proof.
  intros Ha Hb H. pose proof Infinity_above. unfold js_add.
  destruct (is_number a && is_number b); [|reflexivity].
  destruct (Z.eqb_spec a Infinity); [lia|].
  destruct (Z.eqb_spec b Infinity); [lia|].
  destruct (Z.eqb_spec a (- Infinity)); [lia|].
  destruct (Z.eqb_spec b (- Infinity)); [lia|]. cbn [orb].
  rewrite round_exact by (rewrite Z.abs_eq; lia). unfold overflow.
  destruct (Z.leb_spec Infinity (a + b)); [lia|].
  destruct (Z.leb_spec (a + b) (- Infinity)); [lia|]. reflexivity.
Qed.

(** Adding a number that is not negative to a counter never lowers
    it. *)
Lemma js_add_grows a b : 0 <= a -> 0 <= b -> a <= js_add a b.
Proof.
  intros Ha Hb. pose proof Infinity_above. unfold js_add.
  destruct (is_number a) eqn:Na; cbn [andb]; [|lia].
  destruct (is_number b) eqn:Nb; [|lia].
  unfold is_number in Na. apply andb_prop in Na. destruct Na as [Ia Ra].
  apply Z.leb_le in Ia. apply Z.eqb_eq in Ra. rewrite Z.abs_eq in Ia by lia.
  destruct (Z.eqb_spec a Infinity); [cbn [orb]; lia|].
  destruct (Z.eqb_spec b Infinity); [cbn [orb]; lia|].
  destruct (Z.eqb_spec a (- Infinity)); [lia|].
  destruct (Z.eqb_spec b (- Infinity)); [lia|]. cbn [orb].
  pose proof (round_mono a (a + b) ltac:(lia)) as M. rewrite Ra in M.
  unfold overflow.
  destruct (Z.leb_spec Infinity (round_to_double (a + b))); [lia|].
  destruct (Z.leb_spec (round_to_double (a + b)) (- Infinity)); lia.
Qed.

Lemma js_add_nonneg a b : 0 <= a -> 0 <= b -> 0 <= js_add a b.
Proof. intros Ha Hb. pose proof (js_add_grows a b Ha Hb). lia. Qed.

(** Sums as JavaScript prints them: [9007199254740992 + 1] is
    [9007199254740992], [9007199254740992 + 3] is [9007199254740996],
    [-9007199254740992 - 1] is [-9007199254740992], and
    [Number.MAX_VALUE + Number.MAX_VALUE] is [Infinity]. *)
Lemma js_add_examples :
  js_add 9007199254740992 1 = 9007199254740992
  /\ js_add 9007199254740992 3 = 9007199254740996
  /\ js_add (-9007199254740992) (-1) = -9007199254740992
  /\ js_add (2 ^ 1024 - 2 ^ 971) (2 ^ 1024 - 2 ^ 971) = Infinity
  /\ js_add Infinity 1 = Infinity.
Proof. repeat split; vm_compute; reflexivity. Qed.

End Rounding.

(** ** Maps *)

Module JSMapFacts.
Section Facts.
Context {V : Type}.
Implicit Types (m : JSMap.t V) (k : Z) (v : V).

Lemma get_set_same k v m : JSMap.get k (JSMap.set k v m) = Some v.
Proof.
  induction m as [|[k' v'] m IH]; simpl.
  - now rewrite Z.eqb_refl.
  - destruct (k' =? k) eqn:E; simpl.
    + now rewrite Z.eqb_refl.
    + now rewrite E.
Qed.

Lemma get_set_other k k' v m :
  k' <> k -> JSMap.get k' (JSMap.set k v m) = JSMap.get k' m.
Proof.
  intros Hne. induction m as [|[k0 v0] m IH]; simpl.
  - destruct (k =? k') eqn:E; [apply Z.eqb_eq in E; congruence | reflexivity].
  - destruct (k0 =? k) eqn:E; simpl.
    + apply Z.eqb_eq in E. subst k0.
      destruct (k =? k') eqn:E'; [apply Z.eqb_eq in E'; congruence|].
      reflexivity.
    + now rewrite IH.
Qed.

Lemma get_In k v m : JSMap.get k m = Some v -> In (k, v) m.
Proof.
  induction m as [|[k' v'] m IH]; simpl; [discriminate|].
  destruct (k' =? k) eqn:E.
  - apply Z.eqb_eq in E. intros [= ->]. left. now subst.
  - auto.
Qed.

Lemma get_None_keys k m : JSMap.get k m = None -> ~ In k (JSMap.keys m).
Proof.
  induction m as [|[k' v'] m IH]; simpl; [tauto|].
  destruct (k' =? k) eqn:E; [discriminate|].
  apply Z.eqb_neq in E. intros H [?|?]; [congruence | now apply IH].
Qed.

Lemma In_get k v m : NoDup (JSMap.keys m) -> In (k, v) m -> JSMap.get k m = Some v.
Proof.
  induction m as [|[k' v'] m IH]; simpl; [tauto|].
  intros Hnd [Heq | Hin].
  - injection Heq as -> ->. now rewrite Z.eqb_refl.
  - inversion Hnd as [|? ? Hk' Hnd']; subst.
    destruct (k' =? k) eqn:E.
    + apply Z.eqb_eq in E. subst k'. exfalso. apply Hk'.
      change (In (fst (k, v)) (map fst m)). now apply in_map.
    + auto.
Qed.

(** An entry of the map after [set] is the new one or an old one. *)
Lemma In_set k v k' v' m :
  In (k', v') (JSMap.set k v m) -> (k', v') = (k, v) \/ In (k', v') m.
Proof.
  induction m as [|[k0 v0] m IH]; simpl.
  - intros [H|[]]. now left.
  - destruct (k0 =? k); simpl.
    + intros [H|H]; [now left | right; now right].
    + intros [H|H]; [right; now left|].
      destruct (IH H); [now left | right; now right].
Qed.

Lemma keys_set_present k v v0 m :
  JSMap.get k m = Some v0 -> JSMap.keys (JSMap.set k v m) = JSMap.keys m.
Proof.
  unfold JSMap.keys.
  induction m as [|[k' v'] m IH]; simpl; [discriminate|].
  destruct (k' =? k) eqn:E; simpl.
  - apply Z.eqb_eq in E. now subst.
  - intros H. now rewrite IH.
Qed.

Lemma keys_set_absent k v m :
  JSMap.get k m = None -> JSMap.keys (JSMap.set k v m) = (JSMap.keys m ++ [k])%list.
Proof.
  unfold JSMap.keys.
  induction m as [|[k' v'] m IH]; simpl; [reflexivity|].
  destruct (k' =? k) eqn:E; simpl; [discriminate|].
  intros H. now rewrite IH.
Qed.

Lemma NoDup_keys_set k v m :
  NoDup (JSMap.keys m) -> NoDup (JSMap.keys (JSMap.set k v m)).
Proof.
  intros Hnd. destruct (JSMap.get k m) as [v0|] eqn:G.
  - now rewrite (keys_set_present _ _ _ _ G).
  - rewrite (keys_set_absent _ _ _ G).
    apply NoDup_app; [assumption | repeat constructor; simpl; tauto |].
    intros x Hx [<-|[]]. now apply (get_None_keys _ _ G).
Qed.

(** A value listed by [values] sits under some key. *)
Lemma In_values v m : In v (JSMap.values m) -> exists k, In (k, v) m.
Proof.
  unfold JSMap.values. rewrite in_map_iff.
  intros [[k v'] [<- H]]. now exists k.
Qed.

Lemma values_In k v m : In (k, v) m -> In v (JSMap.values m).
Proof.
  intros H. unfold JSMap.values. change v with (snd (k, v)). now apply in_map.
Qed.

End Facts.
End JSMapFacts.

(** ** Running the storage methods

    Each method is characterised by the value it returns and the store it
    leaves; the handlers are then unfolded one [await] at a time. *)

Section Run.
Implicit Types (s : MemStorage).

Lemma run_ret {A} (a : A) s : runState (ret a) s = (a, s).
Proof. reflexivity. Qed.

Lemma run_bind {A B} (c : state MemStorage A) (f : A -> state MemStorage B) s :
  runState (bind c f) s
  = runState (f (fst (runState c s))) (snd (runState c s)).
Proof. cbn. now destruct (runState c s). Qed.

Lemma run_getUser id s : runState (getUser id) s = (JSMap.get id (users s), s).
Proof. reflexivity. Qed.

Lemma run_getPet id s : runState (getPet id) s = (JSMap.get id (pets s), s).
Proof. reflexivity. Qed.

Lemma run_getWorkout id s :
  runState (getWorkout id) s = (JSMap.get id (workouts s), s).
Proof. reflexivity. Qed.

Lemma run_getUserWorkout id s :
  runState (getUserWorkout id) s = (JSMap.get id (userWorkouts s), s).
Proof. reflexivity. Qed.

Lemma run_getUserByUsername name s :
  runState (getUserByUsername name) s
  = (find (fun user => String.eqb (User.username user) name)
       (JSMap.values (users s)), s).
Proof. reflexivity. Qed.

Lemma run_getPetByUserId userId s :
  runState (getPetByUserId userId) s
  = (find (fun pet => Pet.userId pet =? userId) (JSMap.values (pets s)), s).
Proof. reflexivity. Qed.

Lemma run_getUserWorkoutsByUserId userId s :
  runState (getUserWorkoutsByUserId userId) s
  = (map (fun uw =>
            UserWorkoutListed.mk uw
              (JSMap.get (UserWorkout.workoutId uw) (workouts s)))
       (filter (fun uw => UserWorkout.userId uw =? userId)
          (JSMap.values (userWorkouts s))), s).
Proof. reflexivity. Qed.

Lemma run_getUserWorkoutWithDetails id s :
  runState (getUserWorkoutWithDetails id) s
  = (match JSMap.get id (userWorkouts s) with
     | None => None
     | Some userWorkout =>
         match JSMap.get (UserWorkout.workoutId userWorkout) (workouts s) with
         | None => None
         | Some workout =>
             Some (UserWorkoutWithDetails.mk userWorkout workout)
         end
     end, s).
Proof.
  unfold getUserWorkoutWithDetails. rewrite run_bind, run_getUserWorkout.
  cbn [fst snd]. destruct (JSMap.get id (userWorkouts s)); [|reflexivity].
  rewrite run_bind, run_getWorkout. cbn [fst snd].
  now destruct (JSMap.get _ (workouts s)).
Qed.

Lemma run_updateUserStats id c a w s :
  runState (updateUserStats id c a w) s
  = match JSMap.get id (users s) with
    | None => (None, s)
    | Some user =>
        (Some (add_stats user c a w),
         set_users (JSMap.set id (add_stats user c a w)) s)
    end.
Proof.
  unfold updateUserStats. rewrite run_bind, run_getUser. cbn [fst snd].
  now destruct (JSMap.get id (users s)).
Qed.

Lemma run_updatePet id updates s :
  runState (updatePet id updates) s
  = match JSMap.get id (pets s) with
    | None => (None, s)
    | Some pet =>
        (Some (ensure_bounds (spread pet updates)),
         set_pets (JSMap.set id (ensure_bounds (spread pet updates))) s)
    end.
Proof.
  unfold updatePet. rewrite run_bind, run_getPet. cbn [fst snd].
  now destruct (JSMap.get id (pets s)).
Qed.

Lemma run_completeUserWorkout id now s :
  runState (completeUserWorkout id now) s
  = match JSMap.get id (userWorkouts s) with
    | None => (None, s)
    | Some uw =>
        (Some (mark_completed uw now),
         set_userWorkouts (JSMap.set id (mark_completed uw now)) s)
    end.
Proof.
  unfold completeUserWorkout. rewrite run_bind, run_getUserWorkout.
  cbn [fst snd]. now destruct (JSMap.get id (userWorkouts s)).
Qed.

End Run.

Create Rewrite HintDb run.
#[local] Hint Rewrite @run_ret @run_bind run_getUser run_getPet run_getWorkout
  run_getUserWorkout run_getUserByUsername run_getPetByUserId
  run_getUserWorkoutsByUserId run_getUserWorkoutWithDetails
  run_updateUserStats run_updatePet run_completeUserWorkout : run.

(** One [await] after the other. *)
Ltac run := repeat progress (autorewrite with run; cbn [fst snd]).

(** ** The clamp of [updatePet] *)

Section EnsureBounds.
Variable p : Pet.t.

Lemma ensure_bounds_health :
  Pet.health (ensure_bounds p) = Z.min (Pet.health p) 100.
Proof.
  unfold ensure_bounds.
  destruct (Z.gtb_spec (Pet.health p) 100);
    repeat match goal with |- context [if ?b then _ else _] => destruct b end;
    cbn; lia.
Qed.

Lemma ensure_bounds_hunger :
  Pet.hunger (ensure_bounds p) = Z.min (Pet.hunger p) 100.
Proof.
  unfold ensure_bounds.
  destruct (Pet.health p >? 100); cbn;
    destruct (Z.gtb_spec (Pet.hunger p) 100); cbn;
    repeat match goal with |- context [if ?b then _ else _] => destruct b end;
    cbn; lia.
Qed.

Lemma ensure_bounds_happiness :
  Pet.happiness (ensure_bounds p) = Z.min (Pet.happiness p) 100.
Proof.
  unfold ensure_bounds.
  destruct (Pet.health p >? 100); cbn;
    destruct (Pet.hunger p >? 100); cbn;
    destruct (Z.gtb_spec (Pet.happiness p) 100); cbn; lia.
Qed.

(** The clamp touches nothing but the three bounded attributes. *)
Lemma ensure_bounds_others :
  Pet.id (ensure_bounds p) = Pet.id p
  /\ Pet.userId (ensure_bounds p) = Pet.userId p
  /\ Pet.name (ensure_bounds p) = Pet.name p
  /\ Pet.type (ensure_bounds p) = Pet.type p
  /\ Pet.level (ensure_bounds p) = Pet.level p
  /\ Pet.xp (ensure_bounds p) = Pet.xp p
  /\ Pet.lastFed (ensure_bounds p) = Pet.lastFed p
  /\ Pet.lastPlayed (ensure_bounds p) = Pet.lastPlayed p
  /\ Pet.lastGroomed (ensure_bounds p) = Pet.lastGroomed p.
Proof.
  unfold ensure_bounds.
  destruct (Pet.health p >? 100); cbn;
    destruct (Pet.hunger p >? 100); cbn;
    match goal with |- context [if ?b then _ else _] => destruct b end;
    cbn; repeat split; reflexivity.
Qed.

(** Below the caps the clamp is the identity. *)
Lemma ensure_bounds_capped :
  Pet.health p <= 100 -> Pet.hunger p <= 100 -> Pet.happiness p <= 100 ->
  ensure_bounds p = p.
Proof.
  intros H1 H2 H3. unfold ensure_bounds.
  destruct (Z.gtb_spec (Pet.health p) 100); [lia|].
  destruct (Z.gtb_spec (Pet.hunger p) 100); [lia|].
  destruct (Z.gtb_spec (Pet.happiness p) 100); [lia|].
  reflexivity.
Qed.

End EnsureBounds.

(** ** The stores that the server can be in *)

Ltac fields :=
  cbn [users pets workouts userWorkouts exercises userIdCounter petIdCounter
       workoutIdCounter userWorkoutIdCounter exerciseIdCounter
       set_users set_pets set_workouts set_userWorkouts set_exercises
       set_userIdCounter set_petIdCounter set_workoutIdCounter
       set_userWorkoutIdCounter set_exerciseIdCounter] in *.

Section Consistency.
Implicit Types (s : MemStorage).

(** The rows of the store right after start-up. *)
Lemma storage_pets tUser tPet :
  pets (storage tUser tPet)
  = [(1, Pet.mk 1 1 "Buddy" "cat" 100 100 100 1 0 tPet tPet tPet)].
Proof. vm_compute. reflexivity. Qed.

Lemma storage_users tUser tPet :
  users (storage tUser tPet)
  = [(1, User.mk 1 "user" "password" 0 0 0 0 tUser)].
Proof. vm_compute. reflexivity. Qed.

Lemma storage_workouts tUser tPet :
  workouts (storage tUser tPet)
  = workouts (execState initializeWorkouts blank).
Proof. vm_compute. reflexivity. Qed.

Lemma storage_userWorkouts tUser tPet :
  userWorkouts (storage tUser tPet) = []
  /\ userWorkoutIdCounter (storage tUser tPet) = 1.
Proof. vm_compute. split; reflexivity. Qed.

Lemma consistent_storage tUser tPet : consistent (storage tUser tPet).
Proof.
  split.
  - rewrite storage_pets. apply NoDup_cons; [intros [] | apply NoDup_nil].
  - rewrite storage_pets. intros k p [[= <- <-]|[]].
    unfold in_bounds. cbn [Pet.id Pet.health Pet.hunger Pet.happiness]. lia.
  - apply storage_workouts.
  - rewrite (proj1 (storage_userWorkouts _ _)). intros k uw [].
Qed.

Lemma consistent_set_users f s : consistent s -> consistent (set_users f s).
Proof. intros [H1 H2 H3 H4]. split; fields; assumption. Qed.

Lemma consistent_set_userIdCounter v s :
  consistent s -> consistent (set_userIdCounter v s).
Proof. intros [H1 H2 H3 H4]. split; fields; assumption. Qed.

Lemma consistent_set_petIdCounter v s :
  consistent s -> consistent (set_petIdCounter v s).
Proof. intros [H1 H2 H3 H4]. split; fields; assumption. Qed.

Lemma consistent_set_pets k p s :
  consistent s -> Pet.id p = k -> in_bounds p ->
  consistent (set_pets (JSMap.set k p) s).
Proof.
  intros [H1 H2 H3 H4] Hid Hb. split; fields; try assumption.
  - now apply JSMapFacts.NoDup_keys_set.
  - intros k' p' H. apply JSMapFacts.In_set in H.
    destruct H as [[= -> ->]|H]; [now split | now apply H2].
Qed.

Lemma consistent_completed id uw now s :
  consistent s -> JSMap.get id (userWorkouts s) = Some uw ->
  consistent (set_userWorkouts (JSMap.set id (mark_completed uw now)) s).
Proof.
  intros [H1 H2 H3 H4] G. split; fields; try assumption.
  intros k' uw' H. apply JSMapFacts.In_set in H.
  destruct H as [[= -> ->]|H]; [|now apply H4].
  apply JSMapFacts.get_In in G. apply H4 in G. exact G.
Qed.

Lemma consistent_scheduled userId workoutId scheduledFor s :
  consistent s -> JSMap.get workoutId (workouts s) <> None ->
  consistent
    (set_userWorkouts
       (JSMap.set (userWorkoutIdCounter s)
          (UserWorkout.mk (userWorkoutIdCounter s) userId workoutId false
             scheduledFor None))
       (set_userWorkoutIdCounter (userWorkoutIdCounter s + 1) s)).
Proof.
  intros [H1 H2 H3 H4] G. split; fields; try assumption.
  intros k' uw' H. apply JSMapFacts.In_set in H.
  destruct H as [[= -> ->]|H].
  - cbn. repeat split; [lia | assumption].
  - destruct (H4 _ _ H) as (? & ? & ?). repeat split; [assumption | lia | assumption].
Qed.

Lemma spread_tame_in_bounds pet updates :
  in_bounds pet -> tame updates ->
  in_bounds (ensure_bounds (spread pet updates))
  /\ Pet.id (ensure_bounds (spread pet updates)) = Pet.id pet.
Proof.
  intros (Hh & Hu & Ha) (Hid & Th & Tu & Ta). unfold in_bounds.
  rewrite ensure_bounds_health, ensure_bounds_hunger, ensure_bounds_happiness.
  rewrite (proj1 (ensure_bounds_others _)).
  cbn [spread Pet.health Pet.hunger Pet.happiness Pet.id].
  rewrite Hid.
  destruct (PartialPet.health updates) as [h|];
    [specialize (Th h eq_refl)|clear Th];
  destruct (PartialPet.hunger updates) as [u|];
    [specialize (Tu u eq_refl)|clear Tu|specialize (Tu u eq_refl)|clear Tu];
  (destruct (PartialPet.happiness updates) as [a|];
    [specialize (Ta a eq_refl)|clear Ta]);
  cbn [override]; repeat split; lia.
Qed.

Lemma consistent_updatePet id updates s :
  consistent s -> tame updates ->
  consistent (execState (updatePet id updates) s).
Proof.
  intros C T. unfold execState. rewrite run_updatePet.
  destruct (JSMap.get id (pets s)) as [pet|] eqn:G; cbn [snd]; [|assumption].
  apply JSMapFacts.get_In in G. destruct (pets_rows s C _ _ G) as [Hid Hb].
  destruct (spread_tame_in_bounds pet updates Hb T) as [Hb' Hid'].
  apply consistent_set_pets; [assumption | congruence | assumption].
Qed.

End Consistency.

(** ** Running the handlers *)

Section RunHandlers.
Implicit Types (s : MemStorage).

Lemma run_createUser insertUser now s :
  runState (createUser insertUser now) s
  = (User.mk (userIdCounter s) (InsertUser.username insertUser)
       (InsertUser.password insertUser) 0 0 0 0 now,
     set_users
       (JSMap.set (userIdCounter s)
          (User.mk (userIdCounter s) (InsertUser.username insertUser)
             (InsertUser.password insertUser) 0 0 0 0 now))
       (set_userIdCounter (userIdCounter s + 1) s)).
Proof. reflexivity. Qed.

Lemma run_createPet insertPet now s :
  runState (createPet insertPet now) s
  = (Pet.mk (petIdCounter s) (InsertPet.userId insertPet)
       (InsertPet.name insertPet)
       (or_default (InsertPet.type insertPet) "cat")
       100 100 100 1 0 now now now,
     set_pets
       (JSMap.set (petIdCounter s)
          (Pet.mk (petIdCounter s) (InsertPet.userId insertPet)
             (InsertPet.name insertPet)
             (or_default (InsertPet.type insertPet) "cat")
             100 100 100 1 0 now now now))
       (set_petIdCounter (petIdCounter s + 1) s)).
Proof. reflexivity. Qed.

Lemma run_createUserWorkout insertUserWorkout s :
  runState (createUserWorkout insertUserWorkout) s
  = (UserWorkout.mk (userWorkoutIdCounter s)
       (InsertUserWorkout.userId insertUserWorkout)
       (InsertUserWorkout.workoutId insertUserWorkout) false
       (InsertUserWorkout.scheduledFor insertUserWorkout) None,
     set_userWorkouts
       (JSMap.set (userWorkoutIdCounter s)
          (UserWorkout.mk (userWorkoutIdCounter s)
             (InsertUserWorkout.userId insertUserWorkout)
             (InsertUserWorkout.workoutId insertUserWorkout) false
             (InsertUserWorkout.scheduledFor insertUserWorkout) None))
       (set_userWorkoutIdCounter (userWorkoutIdCounter s + 1) s)).
Proof. reflexivity. Qed.

Lemma run_post_pets_feed id now s :
  runState (post_pets_feed (Num id) now) s
  = match JSMap.get id (pets s) with
    | None => (status_json 404 (Message "Pet not found"), s)
    | Some pet =>
        (json (OfPet (Some (ensure_bounds (spread pet (feed_updates pet now))))),
         set_pets
           (JSMap.set id (ensure_bounds (spread pet (feed_updates pet now))))
           s)
    end.
Proof.
  unfold post_pets_feed. run.
  destruct (JSMap.get id (pets s)) eqn:G; run; [rewrite G|]; reflexivity.
Qed.

Lemma run_post_pets_play id now s :
  runState (post_pets_play (Num id) now) s
  = match JSMap.get id (pets s) with
    | None => (status_json 404 (Message "Pet not found"), s)
    | Some pet =>
        (json (OfPet (Some (ensure_bounds (spread pet (play_updates pet now))))),
         set_pets
           (JSMap.set id (ensure_bounds (spread pet (play_updates pet now))))
           s)
    end.
Proof.
  unfold post_pets_play. run.
  destruct (JSMap.get id (pets s)) eqn:G; run; [rewrite G|]; reflexivity.
Qed.

Lemma run_post_pets_groom id now s :
  runState (post_pets_groom (Num id) now) s
  = match JSMap.get id (pets s) with
    | None => (status_json 404 (Message "Pet not found"), s)
    | Some pet =>
        (json (OfPet (Some (ensure_bounds (spread pet (groom_updates pet now))))),
         set_pets
           (JSMap.set id (ensure_bounds (spread pet (groom_updates pet now))))
           s)
    end.
Proof.
  unfold post_pets_groom. run.
  destruct (JSMap.get id (pets s)) eqn:G; run; [rewrite G|]; reflexivity.
Qed.

Lemma run_patch_pets id b s :
  runState (patch_pets (Num id) b) s
  = match updateSchema_parse b with
    | None => (status_json 400 ZodErrors, s)
    | Some updates =>
        match JSMap.get id (pets s) with
        | None => (status_json 404 (Message "Pet not found"), s)
        | Some pet =>
            (json (OfPet (Some (ensure_bounds (spread pet updates)))),
             set_pets (JSMap.set id (ensure_bounds (spread pet updates))) s)
        end
    end.
Proof.
  unfold patch_pets. destruct (updateSchema_parse b); [|reflexivity]. run.
  destruct (JSMap.get id (pets s)); reflexivity.
Qed.

(** The handler of a completion, for an assignment that resolves and is
    not completed yet: the assignment is marked, the owner's counters are
    raised, and the owner's pet, when there is one, is rewarded. *)
Lemma run_post_user_workouts_complete id now s uw w :
  JSMap.get id (userWorkouts s) = Some uw ->
  JSMap.get (UserWorkout.workoutId uw) (workouts s) = Some w ->
  UserWorkout.completed uw = false ->
  runState (post_user_workouts_complete (Num id) now) s
  = (json (OfUserWorkout (Some (mark_completed uw now))),
     let s1 := set_userWorkouts (JSMap.set id (mark_completed uw now)) s in
     let s2 :=
       execState
         (updateUserStats (UserWorkout.userId uw) (Workout.calories w)
            (Workout.duration w) 1) s1 in
     match
       find (fun pet => Pet.userId pet =? UserWorkout.userId uw)
         (JSMap.values (pets s))
     with
     | Some pet => execState (updatePet (Pet.id pet) (workout_updates pet w)) s2
     | None => s2
     end).
Proof.
  intros G W C. unfold post_user_workouts_complete. run.
  rewrite G, W. cbn [UserWorkoutWithDetails.base UserWorkoutWithDetails.workout].
  rewrite C. run. rewrite G. cbn [fst snd]. unfold execState.
  rewrite !run_updateUserStats. fields.
  destruct (JSMap.get (UserWorkout.userId uw) (users s)) as [user|];
    cbn [fst snd]; fields;
    destruct (find _ (JSMap.values (pets s))) as [pet|]; run;
    try reflexivity;
    fields; destruct (JSMap.get (Pet.id pet) (pets s)); reflexivity.
Qed.

End RunHandlers.

(** ** Every request keeps the store consistent *)

Section Preservation.
Implicit Types (s : MemStorage).

(** What the schema of [PATCH /api/pets/:id] lets through: no id, no owner,
    no name, and bounded attributes within [0, 100]. *)
Lemma updateSchema_parse_range b updates :
  updateSchema_parse b = Some updates ->
  PartialPet.id updates = None
  /\ PartialPet.userId updates = None
  /\ PartialPet.name updates = None
  /\ (forall v, PartialPet.health updates = Some v -> 0 <= v <= 100)
  /\ (forall v, PartialPet.hunger updates = Some v -> 0 <= v <= 100)
  /\ (forall v, PartialPet.happiness updates = Some v -> 0 <= v <= 100).
Proof.
  unfold updateSchema_parse.
  destruct (optional _ (PatchBody.health b)) as [h|] eqn:Eh; [|discriminate].
  destruct (optional _ (PatchBody.hunger b)) as [u|] eqn:Eu; [|discriminate].
  destruct (optional _ (PatchBody.happiness b)) as [a|] eqn:Ea;
    [|discriminate].
  destruct (optional _ (PatchBody.xp b)); [|discriminate].
  destruct (optional _ (PatchBody.level b)); [|discriminate].
  destruct (optional _ (PatchBody.type b)); [|discriminate].
  destruct (optional _ (PatchBody.lastFed b)); [|discriminate].
  destruct (optional _ (PatchBody.lastPlayed b)); [|discriminate].
  destruct (optional _ (PatchBody.lastGroomed b)); [|discriminate].
  intros [= <-]. cbn.
  assert (R : forall j r v,
             optional (z_int (min_max 0 100)) j = Some r -> r = Some v ->
             0 <= v <= 100).
  { intros j r v H ->. destruct j; cbn in H; try discriminate.
    destruct (min_max 0 100 z) eqn:E; cbn in H; [|discriminate].
    injection H as <-. unfold min_max in E. apply andb_prop in E. lia. }
  do 3 (split; [reflexivity|]).
  split; [|split]; intros v Hv;
    [apply (R _ _ _ Eh Hv) | apply (R _ _ _ Eu Hv) | apply (R _ _ _ Ea Hv)].
Qed.

Lemma updateSchema_parse_tame b updates :
  updateSchema_parse b = Some updates -> tame updates.
Proof.
  intros H. destruct (updateSchema_parse_range _ _ H) as (Hid & _ & _ & Hh & Hu & Ha).
  split; [assumption|]. split; [|split]; intros v Hv;
    [apply Hh in Hv | apply Hu in Hv | apply Ha in Hv]; lia.
Qed.

Ltac tame_literal :=
  unfold tame; cbn; split; [reflexivity|]; split; [|split];
  intros v Hv; try discriminate; injection Hv as <-; lia.

Lemma feed_updates_tame pet now : in_bounds pet -> tame (feed_updates pet now).
Proof. intros (Hh & Hu & Ha). tame_literal. Qed.

Lemma play_updates_tame pet now : in_bounds pet -> tame (play_updates pet now).
Proof. intros (Hh & Hu & Ha). tame_literal. Qed.

Lemma groom_updates_tame pet now :
  in_bounds pet -> tame (groom_updates pet now).
Proof. intros (Hh & Hu & Ha). tame_literal. Qed.

Lemma workout_updates_tame pet w : in_bounds pet -> tame (workout_updates pet w).
Proof. intros (Hh & Hu & Ha). tame_literal. Qed.

Lemma consistent_find_pet s userId pet :
  consistent s ->
  find (fun pet => Pet.userId pet =? userId) (JSMap.values (pets s)) = Some pet ->
  JSMap.get (Pet.id pet) (pets s) = Some pet /\ in_bounds pet
  /\ Pet.userId pet = userId.
Proof.
  intros C F. apply find_some in F. destruct F as [Hin Hu].
  apply JSMapFacts.In_values in Hin. destruct Hin as [k Hin].
  destruct (pets_rows s C _ _ Hin) as [Hid Hb]. subst k.
  split; [|split; [assumption | now apply Z.eqb_eq]].
  apply JSMapFacts.In_get; [apply (pets_keys s C) | assumption].
Qed.

Lemma consistent_get_pet s id pet :
  consistent s -> JSMap.get id (pets s) = Some pet ->
  Pet.id pet = id /\ in_bounds pet.
Proof.
  intros C G. apply JSMapFacts.get_In in G. exact (pets_rows s C _ _ G).
Qed.

Lemma consistent_get_userWorkout s id uw :
  consistent s -> JSMap.get id (userWorkouts s) = Some uw ->
  UserWorkout.id uw = id /\ id < userWorkoutIdCounter s
  /\ exists w, JSMap.get (UserWorkout.workoutId uw) (workouts s) = Some w.
Proof.
  intros C G. apply JSMapFacts.get_In in G.
  destruct (userWorkouts_rows s C _ _ G) as (H1 & H2 & H3).
  repeat split; try assumption.
  destruct (JSMap.get (UserWorkout.workoutId uw) (workouts s)) as [w|];
    [now exists w | congruence].
Qed.

Lemma consistent_updateUserStats id c a w s :
  consistent s -> consistent (execState (updateUserStats id c a w) s).
Proof.
  intros C. unfold execState. rewrite run_updateUserStats.
  destruct (JSMap.get id (users s)); cbn [snd];
    [now apply consistent_set_users | assumption].
Qed.

Lemma handle_consistent req s :
  consistent s -> consistent (execState (handle req) s).
Proof.
  intros C. unfold execState.
  destruct req as [[iu|] now | [|id] b | [ip|] now | [|id] b | [|id] now
                  | [|id] now | [|id] now | [|id] b | [|id] now];
    cbn [handle]; try exact C.
  - (* POST /api/users *)
    unfold post_users. run.
    destruct (find _ _); run; [exact C|].
    rewrite run_createUser. cbn [snd].
    now apply consistent_set_users, consistent_set_userIdCounter.
  - (* POST /api/users/:id/stats *)
    unfold post_users_stats.
    destruct (statsSchema_parse b) as [[[c a] w]|]; [|exact C].
    pose proof (consistent_updateUserStats id c a w s C) as C'.
    unfold execState in C'. rewrite run_updateUserStats in C'. run.
    destruct (JSMap.get id (users s)); exact C'.
  - (* POST /api/pets *)
    unfold post_pets. run.
    destruct (find _ _); run; [exact C|].
    rewrite run_createPet. cbn [snd].
    apply consistent_set_pets;
      [now apply consistent_set_petIdCounter | reflexivity |].
    unfold in_bounds. cbn. lia.
  - (* PATCH /api/pets/:id *)
    rewrite run_patch_pets.
    destruct (updateSchema_parse b) as [updates|] eqn:P; [|exact C].
    pose proof (consistent_updatePet id updates s C
                  (updateSchema_parse_tame _ _ P)) as C'.
    unfold execState in C'. rewrite run_updatePet in C'.
    destruct (JSMap.get id (pets s)); exact C'.
  - (* feed *)
    rewrite run_post_pets_feed.
    destruct (JSMap.get id (pets s)) as [pet|] eqn:G; [|exact C].
    destruct (consistent_get_pet _ _ _ C G) as [_ Hb].
    pose proof (consistent_updatePet id _ s C (feed_updates_tame pet now Hb))
      as C'.
    unfold execState in C'. now rewrite run_updatePet, G in C'.
  - (* play *)
    rewrite run_post_pets_play.
    destruct (JSMap.get id (pets s)) as [pet|] eqn:G; [|exact C].
    destruct (consistent_get_pet _ _ _ C G) as [_ Hb].
    pose proof (consistent_updatePet id _ s C (play_updates_tame pet now Hb))
      as C'.
    unfold execState in C'. now rewrite run_updatePet, G in C'.
  - (* groom *)
    rewrite run_post_pets_groom.
    destruct (JSMap.get id (pets s)) as [pet|] eqn:G; [|exact C].
    destruct (consistent_get_pet _ _ _ C G) as [_ Hb].
    pose proof (consistent_updatePet id _ s C (groom_updates_tame pet now Hb))
      as C'.
    unfold execState in C'. now rewrite run_updatePet, G in C'.
  - (* POST /api/users/:userId/workouts *)
    unfold post_users_workouts.
    destruct (schema_parse b) as [[workoutId scheduledFor]|]; [|exact C].
    run. destruct (JSMap.get workoutId (workouts s)) eqn:W; [|exact C].
    run. destruct (existsb _ _); [exact C|].
    run. rewrite run_createUserWorkout. cbn [snd].
    cbn [InsertUserWorkout.userId InsertUserWorkout.workoutId
         InsertUserWorkout.scheduledFor].
    apply consistent_scheduled; [exact C | congruence].
  - (* POST /api/user-workouts/:id/complete *)
    destruct (JSMap.get id (userWorkouts s)) as [uw|] eqn:G.
    + destruct (consistent_get_userWorkout _ _ _ C G) as (_ & _ & w & W).
      destruct (UserWorkout.completed uw) eqn:Done.
      * unfold post_user_workouts_complete. run. rewrite G, W.
        cbn [UserWorkoutWithDetails.base]. rewrite Done. exact C.
      * rewrite (run_post_user_workouts_complete id now s uw w G W Done).
        cbn [snd]. cbv zeta.
        pose proof (consistent_completed id uw now s C G) as C1.
        pose proof (consistent_updateUserStats (UserWorkout.userId uw)
                      (Workout.calories w) (Workout.duration w) 1 _ C1) as C2.
        destruct (find _ (JSMap.values (pets s))) as [pet|] eqn:F; [|exact C2].
        apply consistent_updatePet; [exact C2|].
        apply workout_updates_tame.
        now destruct (consistent_find_pet _ _ _ C F) as (_ & Hb & _).
    + unfold post_user_workouts_complete. run. rewrite G. exact C.
Qed.

(** The invariant of the server. *)
Lemma reachable_consistent s : reachable s -> consistent s.
Proof.
  induction 1 as [tUser tPet | s req _ IH].
  - apply consistent_storage.
  - now apply handle_consistent.
Qed.

End Preservation.

(** ** Stats reconciler: [updateUserStats] *)

(** C3, as the code has it.  For an existing user, [updateUserStats]
    returns, and stores under the same id, a user whose other fields are
    the old ones and whose three cumulative counters are the old ones plus
    the deltas as JavaScript adds them: each is the sum rounded to the
    nearest double.  It is the old value plus the delta whenever neither is
    negative and their sum is at most 2^53.  For an id without a user the
    method returns [undefined] and leaves the store alone, which the stats
    route answers with 404 "User not found".  Adding (50, 10, 1) twice to a
    user just created, whose counters are (0, 0, 0), gives (50, 10, 1) and
    then (100, 20, 2). *)
Theorem updateUserStats_adds :
  (forall s id c a w user,
      evalState (getUser id) s = Some user ->
      exists updated,
        evalState (updateUserStats id c a w) s = Some updated
        /\ evalState (getUser id) (execState (updateUserStats id c a w) s)
           = Some updated
        /\ User.caloriesBurned updated = js_add (User.caloriesBurned user) c
        /\ User.activeMinutes updated = js_add (User.activeMinutes user) a
        /\ User.completedWorkouts updated
           = js_add (User.completedWorkouts user) w
        /\ (0 <= User.caloriesBurned user -> 0 <= c ->
            User.caloriesBurned user + c <= 2 ^ 53 ->
            User.caloriesBurned updated = User.caloriesBurned user + c)
        /\ (0 <= User.activeMinutes user -> 0 <= a ->
            User.activeMinutes user + a <= 2 ^ 53 ->
            User.activeMinutes updated = User.activeMinutes user + a)
        /\ (0 <= User.completedWorkouts user -> 0 <= w ->
            User.completedWorkouts user + w <= 2 ^ 53 ->
            User.completedWorkouts updated = User.completedWorkouts user + w)
        /\ User.id updated = User.id user
        /\ User.username updated = User.username user
        /\ User.password updated = User.password user
        /\ User.streak updated = User.streak user
        /\ User.createdAt updated = User.createdAt user)
  /\ (forall s id c a w,
        evalState (getUser id) s = None ->
        runState (updateUserStats id c a w) s = (None, s)
        /\ (0 <= c -> 0 <= a -> 0 <= w ->
            runState
              (post_users_stats (Num id)
                 (StatsBody.mk (JInt c) (JInt a) (JInt w))) s
            = (status_json 404 (Message "User not found"), s)))
  /\ (forall s insertUser now,
        let fresh := evalState (createUser insertUser now) s in
        let s1 := execState (createUser insertUser now) s in
        let s2 := execState (updateUserStats (User.id fresh) 50 10 1) s1 in
        counters fresh = (0, 0, 0)
        /\ exists once twice,
            evalState (updateUserStats (User.id fresh) 50 10 1) s1 = Some once
            /\ evalState (updateUserStats (User.id fresh) 50 10 1) s2
               = Some twice
            /\ counters once = (50, 10, 1)
            /\ counters twice = (100, 20, 2)).
Proof.
  split; [|split].
  - intros s id c a w user H. unfold evalState, execState in *.
    rewrite run_getUser in H. cbn [fst] in H.
    rewrite run_updateUserStats, H. cbn [fst snd].
    exists (add_stats user c a w). rewrite run_getUser. cbn [fst].
    cbn [set_users users]. rewrite JSMapFacts.get_set_same.
    unfold add_stats.
    cbn [User.caloriesBurned User.activeMinutes User.completedWorkouts
         User.id User.username User.password User.streak User.createdAt].
    do 5 (split; [reflexivity|]).
    do 3 (split; [now apply js_add_exact|]).
    repeat split; reflexivity.
  - intros s id c a w H. unfold evalState in H.
    rewrite run_getUser in H. cbn [fst] in H.
    split; [now rewrite run_updateUserStats, H|].
    intros Hc Ha Hw. unfold post_users_stats, statsSchema_parse.
    cbn [StatsBody.caloriesBurned StatsBody.activeMinutes
         StatsBody.completedWorkouts z_int].
    unfold nonnegative.
    destruct (Z.leb_spec 0 c); [|lia].
    destruct (Z.leb_spec 0 a); [|lia].
    destruct (Z.leb_spec 0 w); [|lia].
    rewrite run_bind, run_updateUserStats, H. reflexivity.
  - intros s insertUser now fresh s1 s2. split; [reflexivity|].
    assert (G : JSMap.get (User.id fresh) (users s1) = Some fresh).
    { subst fresh s1. unfold evalState, execState. rewrite run_createUser.
      cbn [fst snd User.id set_users users]. apply JSMapFacts.get_set_same. }
    exists (add_stats fresh 50 10 1),
      (add_stats (add_stats fresh 50 10 1) 50 10 1).
    subst s2. unfold evalState, execState.
    rewrite !run_updateUserStats, G. cbn [fst snd set_users users].
    rewrite JSMapFacts.get_set_same. cbn [fst].
    split; [reflexivity|]. split; [reflexivity|].
    unfold counters, add_stats, fresh, evalState. rewrite run_createUser.
    cbn [fst User.caloriesBurned User.activeMinutes User.completedWorkouts].
    split; vm_compute; reflexivity.
Qed.

(** The default user of the store after start-up gains (50, 10, 1). *)
Lemma updateUserStats_adds_witness :
  exists updated,
    evalState (updateUserStats 1 50 10 1) booted = Some updated
    /\ counters updated = (50, 10, 1).
Proof.
  destruct (proj1 updateUserStats_adds booted 1 50 10 1
              (User.mk 1 "user" "password" 0 0 0 0 noon) eq_refl)
    as (updated & Hret & _ & _ & _ & _ & Hc & Ha & Hw & _).
  exists updated. split; [exact Hret|].
  unfold counters.
  rewrite Hc, Ha, Hw by (cbn [User.caloriesBurned User.activeMinutes
                                User.completedWorkouts]; lia).
  reflexivity.
Defined.

(** C3 as it is worded fails above 2^53: the default user, whose calories
    burned have been posted as 2^53 = 9007199254740992, burns one more
    calorie and the counter stays where it was, as
    [9007199254740992 + 1] is [9007199254740992] in JavaScript. *)
Lemma updateUserStats_stays_at_2_53 :
  let s :=
    serve [PostUsersStats (Num 1)
             (StatsBody.mk (JInt (2 ^ 53)) (JInt 0) (JInt 0))] booted in
  exists user updated,
    evalState (getUser 1) s = Some user
    /\ User.caloriesBurned user = 2 ^ 53
    /\ evalState (updateUserStats 1 1 0 0) s = Some updated
    /\ User.caloriesBurned updated = 2 ^ 53
    /\ User.caloriesBurned updated <> User.caloriesBurned user + 1.
Proof.
  cbv zeta.
  exists (User.mk 1 "user" "password" 0 (2 ^ 53) 0 0 noon),
    (User.mk 1 "user" "password" 0 (2 ^ 53) 0 0 noon).
  split; [vm_compute; reflexivity|]. split; [reflexivity|].
  split; [vm_compute; reflexivity|]. split; [reflexivity|].
  vm_compute. discriminate.
Qed.

(** ** Generic attribute update: [updatePet] *)

(** C4, as the code has it.  For an existing pet and any partial update,
    [updatePet] returns and stores a pet whose health, hunger and happiness
    are each the merged value (the supplied one, else the stored one) cut
    off at 100: the upper bound holds whatever was supplied.  No lower bound
    is applied: a returned attribute is at least 0 exactly when its merged
    value is. *)
Theorem updatePet_caps_at_100 (s : MemStorage) (id : Z) (pet : Pet.t)
    (updates : PartialPet.t) :
  evalState (getPet id) s = Some pet ->
  exists updated,
    evalState (updatePet id updates) s = Some updated
    /\ evalState (getPet id) (execState (updatePet id updates) s)
       = Some updated
    /\ Pet.health updated
       = Z.min (override (Pet.health pet) (PartialPet.health updates)) 100
    /\ Pet.hunger updated
       = Z.min (override (Pet.hunger pet) (PartialPet.hunger updates)) 100
    /\ Pet.happiness updated
       = Z.min (override (Pet.happiness pet) (PartialPet.happiness updates))
           100
    /\ (Pet.health updated <= 100 /\ Pet.hunger updated <= 100
        /\ Pet.happiness updated <= 100)
    /\ (0 <= Pet.health updated
        <-> 0 <= override (Pet.health pet) (PartialPet.health updates))
    /\ (0 <= Pet.hunger updated
        <-> 0 <= override (Pet.hunger pet) (PartialPet.hunger updates))
    /\ (0 <= Pet.happiness updated
        <-> 0 <= override (Pet.happiness pet) (PartialPet.happiness updates)).
Proof.
  unfold evalState, execState. run. intros ->. cbn [fst snd set_pets pets].
  exists (ensure_bounds (spread pet updates)).
  rewrite JSMapFacts.get_set_same,
    ensure_bounds_health, ensure_bounds_hunger, ensure_bounds_happiness.
  cbn [spread Pet.health Pet.hunger Pet.happiness].
  repeat split; lia.
Qed.

(** The default pet, patched with health 250 and hunger 40. *)
Lemma updatePet_caps_at_100_witness :
  exists updated,
    evalState
      (updatePet 1
         (PartialPet.mk None None None None (Some 250) (Some 40) None
            None None None None None)) booted = Some updated
    /\ Pet.health updated = 100 /\ Pet.hunger updated = 40.
Proof.
  destruct (updatePet_caps_at_100 booted 1
              (Pet.mk 1 1 "Buddy" "cat" 100 100 100 1 0 noon noon noon)
              (PartialPet.mk None None None None (Some 250) (Some 40) None
                 None None None None None) eq_refl)
    as (updated & Hret & _ & Hh & Hu & _).
  exists updated. split; [exact Hret|]. rewrite Hh, Hu. split; reflexivity.
Defined.

(** C4 as it is worded fails at the lower bound: a negative health handed
    to [updatePet] is stored and returned as it is. *)
Lemma updatePet_keeps_negative_health :
  let updates :=
    PartialPet.mk None None None None (Some (-5)) None None
      None None None None None in
  evalState (getPet 1) booted <> None
  /\ exists updated,
      evalState (updatePet 1 updates) booted = Some updated
      /\ Pet.health updated = -5
      /\ ~ (0 <= Pet.health updated <= 100).
Proof.
  cbv zeta. split; [now vm_compute|].
  exists (Pet.mk 1 1 "Buddy" "cat" (-5) 100 100 1 0 noon noon noon).
  split; [now vm_compute|]. split; [reflexivity|].
  cbn [Pet.health]. lia.
Qed.

(** ** What [updatePet] leaves alone *)

(** C10.  In a store that the server can be in, [updatePet] on an existing
    pet returns a pet in which every field that the update object does not
    have keeps its previous value: id, owner, name, type, level, xp and the
    three last-care timestamps, and also health, hunger and happiness (the
    clamp does not move a stored attribute, which is never above 100). *)
Theorem updatePet_keeps_unsupplied (s : MemStorage) (id : Z) (pet : Pet.t)
    (updates : PartialPet.t) :
  reachable s ->
  evalState (getPet id) s = Some pet ->
  exists updated,
    evalState (updatePet id updates) s = Some updated
    /\ (PartialPet.id updates = None -> Pet.id updated = Pet.id pet)
    /\ (PartialPet.userId updates = None -> Pet.userId updated = Pet.userId pet)
    /\ (PartialPet.name updates = None -> Pet.name updated = Pet.name pet)
    /\ (PartialPet.type updates = None -> Pet.type updated = Pet.type pet)
    /\ (PartialPet.health updates = None -> Pet.health updated = Pet.health pet)
    /\ (PartialPet.hunger updates = None -> Pet.hunger updated = Pet.hunger pet)
    /\ (PartialPet.happiness updates = None ->
        Pet.happiness updated = Pet.happiness pet)
    /\ (PartialPet.level updates = None -> Pet.level updated = Pet.level pet)
    /\ (PartialPet.xp updates = None -> Pet.xp updated = Pet.xp pet)
    /\ (PartialPet.lastFed updates = None ->
        Pet.lastFed updated = Pet.lastFed pet)
    /\ (PartialPet.lastPlayed updates = None ->
        Pet.lastPlayed updated = Pet.lastPlayed pet)
    /\ (PartialPet.lastGroomed updates = None ->
        Pet.lastGroomed updated = Pet.lastGroomed pet).
Proof.
  intros R. apply reachable_consistent in R.
  unfold evalState. run. intros G. rewrite G. cbn [fst].
  destruct (consistent_get_pet _ _ _ R G) as [_ (Hh & Hu & Ha)].
  exists (ensure_bounds (spread pet updates)). split; [reflexivity|].
  rewrite ensure_bounds_health, ensure_bounds_hunger, ensure_bounds_happiness.
  destruct (ensure_bounds_others (spread pet updates))
    as (-> & -> & -> & -> & -> & -> & -> & -> & ->).
  cbn [spread Pet.id Pet.userId Pet.name Pet.type Pet.health Pet.hunger
       Pet.happiness Pet.level Pet.xp Pet.lastFed Pet.lastPlayed
       Pet.lastGroomed].
  repeat split; intros ->; cbn [override]; try reflexivity; lia.
Qed.

(** Changing only the species of the default pet keeps its name, its xp
    and its health. *)
Lemma updatePet_keeps_unsupplied_witness :
  exists updated,
    evalState
      (updatePet 1
         (PartialPet.mk None None None (Some "fox") None None None
            None None None None None)) booted = Some updated
    /\ Pet.name updated = "Buddy" /\ Pet.xp updated = 0
    /\ Pet.health updated = 100.
Proof.
  destruct (updatePet_keeps_unsupplied booted 1
              (Pet.mk 1 1 "Buddy" "cat" 100 100 100 1 0 noon noon noon)
              (PartialPet.mk None None None (Some "fox") None None None
                 None None None None None)
              (reachable_boot noon noon) eq_refl)
    as (updated & Hret & _ & _ & Hname & _ & Hhealth & _ & _ & _ & Hxp & _).
  exists updated. split; [exact Hret|].
  rewrite (Hname eq_refl), (Hxp eq_refl), (Hhealth eq_refl).
  repeat split; reflexivity.
Defined.

(** The premise on the store is needed: a pet that sat in the map with a
    health of 150, which no request can bring about, would have it cut to
    100 by an update that does not mention health. *)
Remark updatePet_clamps_stored_excess :
  let stray := Pet.mk 1 1 "Buddy" "cat" 150 100 100 1 0 noon noon noon in
  evalState (updatePet 1 PartialPet.nothing)
    (set_pets (JSMap.set 1 stray) blank)
  = Some (Pet.mk 1 1 "Buddy" "cat" 100 100 100 1 0 noon noon noon).
Proof. reflexivity. Qed.

(** ** Care actions *)

(** C6.  For an existing pet (in a store that the server can be in), the
    feed handler answers with, and stores, the pet with hunger
    min(hunger + 20, 100) and lastFed the current time; the play handler
    the pet with happiness min(happiness + 15, 100), hunger
    max(hunger - 5, 0) and lastPlayed the current time; the groom handler
    the pet with health min(health + 10, 100) and lastGroomed the current
    time; every other field, xp and level among them, is as before.  From
    hunger 90, a first and a second feed both answer hunger 100. *)
Theorem care_actions (s : MemStorage) (id : Z) (pet : Pet.t) (now : Date) :
  reachable s ->
  evalState (getPet id) s = Some pet ->
  (let fed_pet :=
     Pet.mk (Pet.id pet) (Pet.userId pet) (Pet.name pet) (Pet.type pet)
       (Pet.health pet) (Z.min (Pet.hunger pet + 20) 100) (Pet.happiness pet)
       (Pet.level pet) (Pet.xp pet)
       now (Pet.lastPlayed pet) (Pet.lastGroomed pet) in
   runState (post_pets_feed (Num id) now) s
   = (json (OfPet (Some fed_pet)), set_pets (JSMap.set id fed_pet) s))
  /\ (let played_pet :=
        Pet.mk (Pet.id pet) (Pet.userId pet) (Pet.name pet) (Pet.type pet)
          (Pet.health pet) (Z.max (Pet.hunger pet - 5) 0)
          (Z.min (Pet.happiness pet + 15) 100)
          (Pet.level pet) (Pet.xp pet)
          (Pet.lastFed pet) now (Pet.lastGroomed pet) in
      runState (post_pets_play (Num id) now) s
      = (json (OfPet (Some played_pet)), set_pets (JSMap.set id played_pet) s))
  /\ (let groomed_pet :=
        Pet.mk (Pet.id pet) (Pet.userId pet) (Pet.name pet) (Pet.type pet)
          (Z.min (Pet.health pet + 10) 100) (Pet.hunger pet)
          (Pet.happiness pet)
          (Pet.level pet) (Pet.xp pet)
          (Pet.lastFed pet) (Pet.lastPlayed pet) now in
      runState (post_pets_groom (Num id) now) s
      = (json (OfPet (Some groomed_pet)),
         set_pets (JSMap.set id groomed_pet) s))
  /\ (Pet.hunger pet = 90 ->
      forall later, exists once twice,
        evalState (post_pets_feed (Num id) now) s = json (OfPet (Some once))
        /\ evalState (post_pets_feed (Num id) later)
             (execState (post_pets_feed (Num id) now) s)
           = json (OfPet (Some twice))
        /\ Pet.hunger once = 100 /\ Pet.hunger twice = 100).
Proof.
  intros R G. apply reachable_consistent in R.
  unfold evalState in G. rewrite run_getPet in G. cbn [fst] in G.
  destruct (consistent_get_pet _ _ _ R G) as [_ (Hh & Hu & Ha)].
  assert (F : forall t,
             ensure_bounds (spread pet (feed_updates pet t))
             = Pet.mk (Pet.id pet) (Pet.userId pet) (Pet.name pet)
                 (Pet.type pet) (Pet.health pet)
                 (Z.min (Pet.hunger pet + 20) 100) (Pet.happiness pet)
                 (Pet.level pet) (Pet.xp pet)
                 t (Pet.lastPlayed pet) (Pet.lastGroomed pet)).
  { intros t. rewrite ensure_bounds_capped; [reflexivity|cbn; lia..]. }
  split; [|split; [|split]].
  - cbv zeta. rewrite run_post_pets_feed, G, F. reflexivity.
  - cbv zeta. rewrite run_post_pets_play, G.
    rewrite ensure_bounds_capped; [reflexivity|cbn; lia..].
  - cbv zeta. rewrite run_post_pets_groom, G.
    rewrite ensure_bounds_capped; [reflexivity|cbn; lia..].
  - intros H90 later. unfold evalState, execState.
    rewrite (run_post_pets_feed id now s), G, F. cbn [fst snd].
    rewrite run_post_pets_feed. cbn [pets set_pets].
    rewrite JSMapFacts.get_set_same. cbn [fst].
    eexists. eexists. split; [reflexivity|]. split; [reflexivity|].
    rewrite ensure_bounds_hunger. cbn. lia.
Qed.

(** After two rounds of play the default pet has hunger 90; it is then fed
    twice. *)
Lemma care_actions_witness :
  let s :=
    execState (handle (PostPetsPlay (Num 1) noon))
      (execState (handle (PostPetsPlay (Num 1) noon)) booted) in
  exists once twice,
    evalState (post_pets_feed (Num 1) noon) s = json (OfPet (Some once))
    /\ evalState (post_pets_feed (Num 1) noon)
         (execState (post_pets_feed (Num 1) noon) s)
       = json (OfPet (Some twice))
    /\ Pet.hunger once = 100 /\ Pet.hunger twice = 100.
Proof.
  intros s.
  assert (R : reachable s).
  { apply reachable_request, reachable_request, reachable_boot. }
  assert (G : evalState (getPet 1) s
              = Some (Pet.mk 1 1 "Buddy" "cat" 100 90 100 1 0 noon noon noon)).
  { vm_compute. reflexivity. }
  exact (proj2 (proj2 (proj2 (care_actions s 1 _ noon R G))) eq_refl noon).
Defined.

(** ** Workout completion *)

Section Completion.
Implicit Types (s : MemStorage).

(** [updateUserStats] writes to the users only, [updatePet] to the pets
    only. *)
Lemma exec_updateUserStats id c a w s :
  exists f, execState (updateUserStats id c a w) s = set_users f s.
Proof.
  unfold execState. rewrite run_updateUserStats.
  destruct (JSMap.get id (users s)) as [user|]; cbn [snd].
  - now eexists.
  - exists (fun m => m). now destruct s.
Qed.

Lemma exec_updatePet id updates s :
  exists f, execState (updatePet id updates) s = set_pets f s.
Proof.
  unfold execState. rewrite run_updatePet.
  destruct (JSMap.get id (pets s)) as [pet|]; cbn [snd].
  - now eexists.
  - exists (fun m => m). now destruct s.
Qed.

(** The xp gained is the integer nearest to a fifth of the calories. *)
Lemma xpGain_nearest calories :
  xpGain calories = (2 * calories + 5) / 10
  /\ -2 <= calories - 5 * xpGain calories <= 2.
Proof.
  assert (E : xpGain calories = (2 * calories + 5) / 10).
  { change (xpGain calories) with ((calories * 1 * 2 + 5) / 10).
    f_equal. lia. }
  split; [exact E|]. rewrite E.
  pose proof (Z.div_mod (2 * calories + 5) 10 ltac:(lia)).
  pose proof (Z.mod_pos_bound (2 * calories + 5) 10 ltac:(lia)).
  lia.
Qed.

Lemma xpGain_120 : xpGain 120 = 24.
Proof. reflexivity. Qed.

Lemma xpGain_nonneg calories : 0 <= calories -> 0 <= xpGain calories.
Proof.
  intros H. rewrite (proj1 (xpGain_nearest calories)).
  apply Z.div_pos; lia.
Qed.

(** The three templates. *)
Lemma sample_workouts :
  workouts (execState initializeWorkouts blank)
  = [(1, Workout.mk 1 "Morning Cardio" "Energizing cardio to start your day"
           20 120 "Moderate" "Cardio");
     (2, Workout.mk 2 "Strength Training" "Build muscle and increase strength"
           25 110 "Hard" "Strength");
     (3, Workout.mk 3 "Evening Yoga" "Gentle stretching to end your day"
           15 80 "Easy" "Yoga")].
Proof. vm_compute. reflexivity. Qed.

(** The templates are the three samples: filed under their own id, with
    positive calories and duration. *)
Lemma consistent_workout s k w :
  consistent s -> JSMap.get k (workouts s) = Some w ->
  Workout.id w = k /\ 0 < Workout.calories w /\ 0 < Workout.duration w.
Proof.
  intros C. rewrite (workouts_fixed s C), sample_workouts.
  cbn [JSMap.get].
  destruct (Z.eqb_spec 1 k) as [<-|_]; [intros [= <-]; cbn; lia|].
  destruct (Z.eqb_spec 2 k) as [<-|_]; [intros [= <-]; cbn; lia|].
  destruct (Z.eqb_spec 3 k) as [<-|_]; [intros [= <-]; cbn; lia|].
  discriminate.
Qed.

Lemma resolve_details id s d :
  evalState (getUserWorkoutWithDetails id) s = Some d ->
  JSMap.get id (userWorkouts s) = Some (UserWorkoutWithDetails.base d)
  /\ JSMap.get (UserWorkout.workoutId (UserWorkoutWithDetails.base d))
       (workouts s)
     = Some (UserWorkoutWithDetails.workout d).
Proof.
  unfold evalState. rewrite run_getUserWorkoutWithDetails. cbn [fst].
  destruct (JSMap.get id (userWorkouts s)) as [uw|]; [|discriminate].
  destruct (JSMap.get (UserWorkout.workoutId uw) (workouts s)) as [w|] eqn:W;
    [|discriminate].
  intros [= <-]. cbn. now split.
Qed.

End Completion.

(** C7, as the code has it.  When an assignment that is not completed yet
    is completed and its owner has a pet, the handler answers 200 and the
    pet stored under the pet's id is the old one with happiness
    min(happiness + 10, 100), health min(health + 5, 100) and the xp that
    JavaScript gives for xp + [Math.round(calories / 5)], the calories
    being those of the workout template: the sum rounded to the nearest
    double, which is the sum itself whenever the xp is not negative and the
    sum is at most 2^53.  Hunger, the three last-care timestamps and every
    other field are as before, and so are the other pets. *)
Theorem completion_rewards_pet (s : MemStorage) (id : Z) (now : Date)
    (d : UserWorkoutWithDetails.t) (pet : Pet.t) :
  reachable s ->
  evalState (getUserWorkoutWithDetails id) s = Some d ->
  UserWorkout.completed (UserWorkoutWithDetails.base d) = false ->
  evalState
    (getPetByUserId (UserWorkout.userId (UserWorkoutWithDetails.base d))) s
  = Some pet ->
  let calories := Workout.calories (UserWorkoutWithDetails.workout d) in
  let gain := Math_round (inject_Z calories / inject_Z 5)%Q in
  let rewarded :=
    Pet.mk (Pet.id pet) (Pet.userId pet) (Pet.name pet) (Pet.type pet)
      (Z.min (Pet.health pet + 5) 100)
      (Pet.hunger pet)
      (Z.min (Pet.happiness pet + 10) 100)
      (Pet.level pet)
      (js_add (Pet.xp pet) gain)
      (Pet.lastFed pet) (Pet.lastPlayed pet) (Pet.lastGroomed pet) in
  let s' := execState (post_user_workouts_complete (Num id) now) s in
  status (evalState (post_user_workouts_complete (Num id) now) s) = 200
  /\ evalState (getPet (Pet.id pet)) s' = Some rewarded
  /\ (0 <= Pet.xp pet -> Pet.xp pet + gain <= 2 ^ 53 ->
      Pet.xp rewarded = Pet.xp pet + gain)
  /\ (forall k, k <> Pet.id pet ->
        evalState (getPet k) s' = evalState (getPet k) s).
Proof.
  intros R D Hc P calories gain rewarded s'. apply reachable_consistent in R.
  destruct (resolve_details _ _ _ D) as [G W].
  unfold evalState in P. rewrite run_getPetByUserId in P. cbn [fst] in P.
  destruct (consistent_find_pet _ _ _ R P) as (Gp & (Hh & Hu & Ha) & _).
  destruct (consistent_workout _ _ _ R W) as (_ & Hcal & _).
  subst s'. unfold evalState, execState.
  rewrite (run_post_user_workouts_complete id now s _ _ G W Hc).
  cbn [fst snd status json]. rewrite P. cbv zeta.
  destruct (exec_updateUserStats
              (UserWorkout.userId (UserWorkoutWithDetails.base d))
              (Workout.calories (UserWorkoutWithDetails.workout d))
              (Workout.duration (UserWorkoutWithDetails.workout d)) 1
              (set_userWorkouts
                 (JSMap.set id
                    (mark_completed (UserWorkoutWithDetails.base d) now)) s))
    as [f ->].
  unfold execState. rewrite run_updatePet. fields. rewrite Gp. cbn [snd].
  rewrite !run_getPet. fields. cbn [fst].
  split; [reflexivity|]. split; [|split].
  - rewrite JSMapFacts.get_set_same. f_equal.
    rewrite ensure_bounds_capped; [reflexivity|cbn -[js_add]; lia..].
  - intros Hx Hsum. unfold rewarded. cbn [Pet.xp].
    apply js_add_exact; [exact Hx| |exact Hsum].
    apply (xpGain_nonneg calories). unfold calories. lia.
  - intros k Hk. now apply JSMapFacts.get_set_other.
Qed.

(** The default user schedules the morning cardio (120 calories) and
    completes it: the default pet gets 24 xp. *)
Lemma completion_rewards_pet_witness :
  let s :=
    serve [PostUsersWorkouts (Num 1) (ScheduleBody.mk (JInt 1) (Some noon))]
      booted in
  exists rewarded,
    evalState (getPet 1)
      (execState (post_user_workouts_complete (Num 1) noon) s)
    = Some rewarded
    /\ Pet.xp rewarded = 0 + 24.
Proof.
  intros s.
  assert (R : reachable s).
  { apply reachable_request, reachable_boot. }
  assert (D : evalState (getUserWorkoutWithDetails 1) s
              = Some (UserWorkoutWithDetails.mk
                        (UserWorkout.mk 1 1 1 false noon None)
                        (Workout.mk 1 "Morning Cardio"
                           "Energizing cardio to start your day"
                           20 120 "Moderate" "Cardio"))).
  { vm_compute. reflexivity. }
  assert (P : evalState (getPetByUserId 1) s
              = Some (Pet.mk 1 1 "Buddy" "cat" 100 100 100 1 0
                        noon noon noon)).
  { vm_compute. reflexivity. }
  destruct (completion_rewards_pet s 1 noon _ _ R D eq_refl P)
    as (_ & H & X & _).
  eexists. split; [exact H|].
  apply X; [cbn [Pet.xp]; lia | vm_compute; discriminate].
Defined.

(** C7 as it is worded fails above 2^53.  The default pet is patched to an
    xp of 2^54 = 18014398509481984, which the schema lets through; the
    default user then schedules and completes the strength training (110
    calories, 22 xp).  The xp that is stored is 2^54 + 24 and not
    2^54 + 22, as JavaScript rounds the sum to the nearest double. *)
Lemma completion_rounds_xp :
  let s :=
    serve [PatchPets (Num 1)
             (PatchBody.mk JAbsent JAbsent JAbsent (JInt (2 ^ 54)) JAbsent
                JAbsent JAbsent JAbsent JAbsent);
           PostUsersWorkouts (Num 1) (ScheduleBody.mk (JInt 2) (Some noon))]
      booted in
  let s' := execState (post_user_workouts_complete (Num 1) noon) s in
  option_map Pet.xp (evalState (getPet 1) s) = Some (2 ^ 54)
  /\ status (evalState (post_user_workouts_complete (Num 1) noon) s) = 200
  /\ option_map Pet.xp (evalState (getPet 1) s') = Some (2 ^ 54 + 24)
  /\ option_map Pet.xp (evalState (getPet 1) s')
     <> Some (2 ^ 54 + Math_round (inject_Z 110 / inject_Z 5)%Q).
Proof.
  cbv zeta. split; [vm_compute; reflexivity|].
  split; [vm_compute; reflexivity|]. split; [vm_compute; reflexivity|].
  vm_compute. discriminate.
Qed.

(** ** A completed assignment stays completed *)

Section Irreversible.
Implicit Types (s : MemStorage).

Lemma reachable_serve reqs s : reachable s -> reachable (serve reqs s).
Proof.
  revert s. induction reqs as [|req reqs IH]; intros s R; [exact R|].
  cbn [serve]. apply IH. now apply reachable_request.
Qed.

(** No request takes the completed flag back. *)
Lemma handle_keeps_completed req s id uw :
  consistent s ->
  JSMap.get id (userWorkouts s) = Some uw ->
  UserWorkout.completed uw = true ->
  exists uw',
    JSMap.get id (userWorkouts (execState (handle req) s)) = Some uw'
    /\ UserWorkout.completed uw' = true.
Proof.
  intros C G Done. unfold execState.
  destruct req as [[iu|] now | [|uid] b | [ip|] now | [|pid] b | [|pid] now
                  | [|pid] now | [|pid] now | [|uid] b | [|id'] now];
    cbn [handle]; try (exists uw; now split).
  - unfold post_users. run.
    destruct (find _ _); run; [exists uw; now split|].
    rewrite run_createUser. cbn [snd]. fields. exists uw; now split.
  - unfold post_users_stats.
    destruct (statsSchema_parse b) as [[[c a] w]|]; [|exists uw; now split].
    run. destruct (JSMap.get uid (users s)); cbn [fst snd]; run; fields;
      exists uw; now split.
  - unfold post_pets. run.
    destruct (find _ _); run; [exists uw; now split|].
    rewrite run_createPet. cbn [snd]. fields. exists uw; now split.
  - rewrite run_patch_pets.
    destruct (updateSchema_parse b); [|exists uw; now split].
    destruct (JSMap.get pid (pets s)); cbn [snd]; fields; exists uw; now split.
  - rewrite run_post_pets_feed.
    destruct (JSMap.get pid (pets s)); cbn [snd]; fields; exists uw; now split.
  - rewrite run_post_pets_play.
    destruct (JSMap.get pid (pets s)); cbn [snd]; fields; exists uw; now split.
  - rewrite run_post_pets_groom.
    destruct (JSMap.get pid (pets s)); cbn [snd]; fields; exists uw; now split.
  - unfold post_users_workouts.
    destruct (schema_parse b) as [[workoutId scheduledFor]|];
      [|exists uw; now split].
    run. destruct (JSMap.get workoutId (workouts s));
      [|exists uw; now split].
    run. destruct (existsb _ _); [exists uw; now split|].
    run. rewrite run_createUserWorkout. cbn [snd]. fields.
    destruct (consistent_get_userWorkout _ _ _ C G) as (_ & Hlt & _).
    rewrite JSMapFacts.get_set_other by lia. exists uw; now split.
  - destruct (JSMap.get id' (userWorkouts s)) as [uw0|] eqn:G0.
    + destruct (consistent_get_userWorkout _ _ _ C G0) as (_ & _ & w & W).
      destruct (UserWorkout.completed uw0) eqn:Done0.
      * unfold post_user_workouts_complete. run. rewrite G0, W.
        cbn [UserWorkoutWithDetails.base]. rewrite Done0.
        exists uw; now split.
      * rewrite (run_post_user_workouts_complete id' now s uw0 w G0 W Done0).
        cbn [snd]. cbv zeta.
        destruct (exec_updateUserStats (UserWorkout.userId uw0)
                    (Workout.calories w) (Workout.duration w) 1
                    (set_userWorkouts
                       (JSMap.set id' (mark_completed uw0 now)) s))
          as [f ->].
        assert (Hne : id <> id') by congruence.
        destruct (find _ (JSMap.values (pets s))) as [pet|].
        -- destruct (exec_updatePet (Pet.id pet) (workout_updates pet w)
                       (set_users f
                          (set_userWorkouts
                             (JSMap.set id' (mark_completed uw0 now)) s)))
             as [g ->].
           fields. rewrite JSMapFacts.get_set_other by assumption.
           exists uw; now split.
        -- fields. rewrite JSMapFacts.get_set_other by assumption.
           exists uw; now split.
    + unfold post_user_workouts_complete. run. rewrite G0.
      exists uw; now split.
Qed.

Lemma serve_keeps_completed reqs s id uw :
  consistent s ->
  JSMap.get id (userWorkouts s) = Some uw ->
  UserWorkout.completed uw = true ->
  exists uw',
    JSMap.get id (userWorkouts (serve reqs s)) = Some uw'
    /\ UserWorkout.completed uw' = true.
Proof.
  revert s uw. induction reqs as [|req reqs IH]; intros s uw C G Done.
  - exists uw. now split.
  - cbn [serve].
    destruct (handle_keeps_completed req s id uw C G Done) as (uw1 & G1 & D1).
    exact (IH _ uw1 (handle_consistent req s C) G1 D1).
Qed.

(** The handler on an assignment whose flag is set. *)
Lemma reject_completed s id uw now :
  consistent s ->
  JSMap.get id (userWorkouts s) = Some uw ->
  UserWorkout.completed uw = true ->
  runState (post_user_workouts_complete (Num id) now) s
  = (status_json 400 (Message "Workout already completed"), s).
Proof.
  intros C G Done.
  destruct (consistent_get_userWorkout _ _ _ C G) as (_ & _ & w & W).
  unfold post_user_workouts_complete. run. rewrite G, W.
  cbn [UserWorkoutWithDetails.base]. now rewrite Done.
Qed.

(** The answers of the completion handler, by cases. *)
Lemma complete_cases s id now :
  consistent s ->
  (runState (post_user_workouts_complete (Num id) now) s
   = (status_json 404 (Message "User workout not found"), s)
   /\ JSMap.get id (userWorkouts s) = None)
  \/ (exists uw,
        JSMap.get id (userWorkouts s) = Some uw
        /\ UserWorkout.completed uw = true
        /\ runState (post_user_workouts_complete (Num id) now) s
           = (status_json 400 (Message "Workout already completed"), s))
  \/ (exists uw,
        JSMap.get id (userWorkouts s) = Some uw
        /\ UserWorkout.completed uw = false
        /\ evalState (post_user_workouts_complete (Num id) now) s
           = json (OfUserWorkout (Some (mark_completed uw now)))
        /\ JSMap.get id
             (userWorkouts
                (execState (post_user_workouts_complete (Num id) now) s))
           = Some (mark_completed uw now)).
Proof.
  intros C. destruct (JSMap.get id (userWorkouts s)) as [uw|] eqn:G.
  - right. destruct (UserWorkout.completed uw) eqn:Done.
    + left. exists uw. repeat split; try assumption.
      now apply reject_completed with (uw := uw).
    + right. exists uw.
      destruct (consistent_get_userWorkout _ _ _ C G) as (_ & _ & w & W).
      unfold evalState, execState.
      rewrite (run_post_user_workouts_complete id now s uw w G W Done).
      cbn [fst snd]. cbv zeta. repeat split; try assumption.
      destruct (exec_updateUserStats (UserWorkout.userId uw)
                  (Workout.calories w) (Workout.duration w) 1
                  (set_userWorkouts (JSMap.set id (mark_completed uw now)) s))
        as [f ->].
      destruct (find _ (JSMap.values (pets s))) as [pet|].
      * destruct (exec_updatePet (Pet.id pet) (workout_updates pet w)
                    (set_users f
                       (set_userWorkouts
                          (JSMap.set id (mark_completed uw now)) s)))
          as [g ->].
        fields. apply JSMapFacts.get_set_same.
      * fields. apply JSMapFacts.get_set_same.
  - left. split; [|reflexivity].
    unfold post_user_workouts_complete. run. now rewrite G.
Qed.

End Irreversible.

(** C1.  In a store that the server can be in, completing an assignment
    whose completed flag is set is answered 400 "Workout already completed"
    and returns the store as it was, so that the counters of the user, the
    attributes and the xp of the pet and the assignment itself are what
    they were.  The flag is never taken back: the same holds after any
    further requests, and a completion that was answered 200 is answered
    400, without any effect, whenever it is asked for again. *)
Theorem completed_assignment_rejected (s : MemStorage) (id : Z) :
  reachable s ->
  (forall uw now,
      evalState (getUserWorkout id) s = Some uw ->
      UserWorkout.completed uw = true ->
      runState (post_user_workouts_complete (Num id) now) s
      = (status_json 400 (Message "Workout already completed"), s))
  /\ (forall uw reqs later,
        evalState (getUserWorkout id) s = Some uw ->
        UserWorkout.completed uw = true ->
        runState (post_user_workouts_complete (Num id) later) (serve reqs s)
        = (status_json 400 (Message "Workout already completed"),
           serve reqs s))
  /\ (forall now reqs later,
        status (evalState (post_user_workouts_complete (Num id) now) s) = 200 ->
        let s1 := execState (post_user_workouts_complete (Num id) now) s in
        runState (post_user_workouts_complete (Num id) later) (serve reqs s1)
        = (status_json 400 (Message "Workout already completed"),
           serve reqs s1)).
Proof.
  intros R. pose proof (reachable_consistent s R) as C.
  assert (Later : forall uw reqs later,
             JSMap.get id (userWorkouts s) = Some uw ->
             UserWorkout.completed uw = true ->
             runState (post_user_workouts_complete (Num id) later)
               (serve reqs s)
             = (status_json 400 (Message "Workout already completed"),
                serve reqs s)).
  { intros uw reqs later G Done.
    destruct (serve_keeps_completed reqs s id uw C G Done) as (uw' & G' & D').
    apply reject_completed with (uw := uw'); try assumption.
    apply reachable_consistent. now apply reachable_serve. }
  split; [|split].
  - intros uw now G Done. exact (Later uw [] now G Done).
  - intros uw reqs later G Done. exact (Later uw reqs later G Done).
  - intros now reqs later Ok s1.
    destruct (complete_cases s id now C)
      as [[E _] | [(uw & _ & _ & E) | (uw & G & Done & E & G1)]].
    + unfold evalState in Ok. rewrite E in Ok. discriminate Ok.
    + unfold evalState in Ok. rewrite E in Ok. discriminate Ok.
    + pose proof (handle_consistent (PostUserWorkoutsComplete (Num id) now) s C)
        as C1.
      destruct (serve_keeps_completed reqs s1 id _ C1 G1 eq_refl)
        as (uw' & G' & D').
      apply reject_completed with (uw := uw'); try assumption.
      apply reachable_consistent, reachable_serve.
      exact (reachable_request s (PostUserWorkoutsComplete (Num id) now) R).
Qed.

(** The default user schedules the morning cardio and completes it, which
    gives the default pet 24 xp; asking for the completion again is
    answered 400 and the store, the 24 xp included, stays as it is. *)
Lemma completed_assignment_rejected_witness :
  let s :=
    serve [PostUsersWorkouts (Num 1) (ScheduleBody.mk (JInt 1) (Some noon));
           PostUserWorkoutsComplete (Num 1) noon] booted in
  option_map Pet.xp (evalState (getPet 1) s) = Some 24
  /\ runState (post_user_workouts_complete (Num 1) noon) s
     = (status_json 400 (Message "Workout already completed"), s).
Proof.
  intros s. split; [vm_compute; reflexivity|].
  assert (R : reachable s).
  { apply (reachable_serve _ booted), reachable_boot. }
  apply (proj1 (completed_assignment_rejected s 1 R)
           (UserWorkout.mk 1 1 1 true noon (Some noon)) noon).
  - vm_compute. reflexivity.
  - reflexivity.
Defined.

(** C9, as the code has it.  Completing an id under which there is no
    assignment is answered 404 and returns the store as it was.
    Completing an assignment that is not completed yet and whose owner has
    no pet is answered 200 with the assignment marked completed at the
    current time; the assignment is stored so, the pets are what they
    were, and the owner's counters are those that [updateUserStats] gives
    for the calories and the duration of the workout template and for one
    workout: the sums as JavaScript rounds them, which are the old values
    plus calories, duration and 1 whenever the old values are not negative
    and these sums are at most 2^53. *)
Theorem completion_not_found_or_petless :
  (forall s id now,
      evalState (getUserWorkout id) s = None ->
      runState (post_user_workouts_complete (Num id) now) s
      = (status_json 404 (Message "User workout not found"), s))
  /\ (forall s id now uw,
        reachable s ->
        evalState (getUserWorkout id) s = Some uw ->
        UserWorkout.completed uw = false ->
        evalState (getPetByUserId (UserWorkout.userId uw)) s = None ->
        let s' := execState (post_user_workouts_complete (Num id) now) s in
        let done :=
          UserWorkout.mk (UserWorkout.id uw) (UserWorkout.userId uw)
            (UserWorkout.workoutId uw) true (UserWorkout.scheduledFor uw)
            (Some now) in
        evalState (post_user_workouts_complete (Num id) now) s
        = mkResponse 200 (OfUserWorkout (Some done))
        /\ evalState (getUserWorkout id) s' = Some done
        /\ pets s' = pets s
        /\ exists w,
            evalState (getWorkout (UserWorkout.workoutId uw)) s = Some w
            /\ users s'
               = users
                   (execState
                      (updateUserStats (UserWorkout.userId uw)
                         (Workout.calories w) (Workout.duration w) 1) s)
            /\ forall user,
                evalState (getUser (UserWorkout.userId uw)) s = Some user ->
                exists user',
                  evalState (getUser (UserWorkout.userId uw)) s' = Some user'
                  /\ counters user'
                     = (js_add (User.caloriesBurned user) (Workout.calories w),
                        js_add (User.activeMinutes user) (Workout.duration w),
                        js_add (User.completedWorkouts user) 1)
                  /\ (0 <= User.caloriesBurned user ->
                      0 <= User.activeMinutes user ->
                      0 <= User.completedWorkouts user ->
                      User.caloriesBurned user + Workout.calories w <= 2 ^ 53 ->
                      User.activeMinutes user + Workout.duration w <= 2 ^ 53 ->
                      User.completedWorkouts user + 1 <= 2 ^ 53 ->
                      counters user'
                      = (User.caloriesBurned user + Workout.calories w,
                         User.activeMinutes user + Workout.duration w,
                         User.completedWorkouts user + 1))).
Proof.
  split.
  - intros s id now G. unfold evalState in G. rewrite run_getUserWorkout in G.
    cbn [fst] in G. unfold post_user_workouts_complete. run. now rewrite G.
  - intros s id now uw R G Hc P s' done. apply reachable_consistent in R.
    unfold evalState in G, P. rewrite run_getUserWorkout in G.
    rewrite run_getPetByUserId in P. cbn [fst] in G, P.
    destruct (consistent_get_userWorkout _ _ _ R G) as (_ & _ & w & W).
    destruct (consistent_workout _ _ _ R W) as (_ & Hcal & Hdur).
    subst s'. unfold evalState, execState.
    rewrite (run_post_user_workouts_complete id now s uw w G W Hc).
    cbn [fst snd]. rewrite P. cbv zeta. unfold execState.
    rewrite !run_updateUserStats, !run_getUserWorkout, !run_getWorkout,
      !run_getUser. fields. cbn [fst].
    split; [reflexivity|].
    destruct (JSMap.get (UserWorkout.userId uw) (users s)) as [user|] eqn:U;
      cbn [snd]; fields.
    + split; [apply JSMapFacts.get_set_same|]. split; [reflexivity|].
      exists w. split; [exact W|].
      rewrite run_updateUserStats, U. cbn [snd]. fields.
      split; [reflexivity|].
      intros user0 [= <-]. rewrite JSMapFacts.get_set_same.
      eexists. split; [reflexivity|]. split; [reflexivity|].
      intros H1 H2 H3 H4 H5 H6. unfold counters, add_stats.
      cbn [User.caloriesBurned User.activeMinutes User.completedWorkouts].
      rewrite !js_add_exact by lia. reflexivity.
    + split; [apply JSMapFacts.get_set_same|]. split; [reflexivity|].
      exists w. split; [exact W|].
      rewrite run_updateUserStats, U. cbn [snd].
      split; [reflexivity|].
      intros user0. discriminate.
Qed.

(** A second user, who has no pet, schedules the evening yoga (80
    calories, 15 minutes) and completes it. *)
Lemma completion_not_found_or_petless_witness :
  let s :=
    serve [PostUsers (Some (InsertUser.mk "ana" "secret")) noon;
           PostUsersWorkouts (Num 2) (ScheduleBody.mk (JInt 3) (Some noon))]
      booted in
  let s' := execState (post_user_workouts_complete (Num 1) noon) s in
  status (evalState (post_user_workouts_complete (Num 1) noon) s) = 200
  /\ pets s' = pets s
  /\ option_map counters (evalState (getUser 2) s')
     = Some (0 + 80, 0 + 15, 0 + 1)
  /\ status (evalState (post_user_workouts_complete (Num 7) noon) s) = 404.
Proof.
  intros s s'.
  assert (R : reachable s).
  { apply (reachable_serve _ booted), reachable_boot. }
  assert (G : evalState (getUserWorkout 1) s
              = Some (UserWorkout.mk 1 2 3 false noon None)).
  { vm_compute. reflexivity. }
  assert (P : evalState (getPetByUserId 2) s = None).
  { vm_compute. reflexivity. }
  assert (W : evalState (getWorkout 3) s
              = Some (Workout.mk 3 "Evening Yoga"
                        "Gentle stretching to end your day"
                        15 80 "Easy" "Yoga")).
  { vm_compute. reflexivity. }
  assert (U : evalState (getUser 2) s
              = Some (User.mk 2 "ana" "secret" 0 0 0 0 noon)).
  { vm_compute. reflexivity. }
  destruct (proj2 completion_not_found_or_petless s 1 noon _ R G eq_refl P)
    as (Hres & _ & Hpets & w & Hw & _ & Hcount).
  cbn [UserWorkout.workoutId UserWorkout.userId] in Hw, Hcount.
  rewrite W in Hw. injection Hw as <-.
  destruct (Hcount _ U) as (user' & G' & _ & Hexact).
  assert (N : evalState (getUserWorkout 7) s = None).
  { vm_compute. reflexivity. }
  pose proof (proj1 completion_not_found_or_petless s 7 noon N) as H404.
  split; [now rewrite Hres|]. split; [exact Hpets|].
  split.
  - fold s' in G'. rewrite G'. cbn [option_map]. f_equal.
    apply Hexact; cbn; lia.
  - unfold evalState. now rewrite H404.
Defined.

(** C9 as it is worded fails above 2^53.  The second user, who has no pet,
    posts 2^60 = 1152921504606846976 calories, minutes and workouts, which
    the schema lets through, then schedules and completes the evening yoga
    (80 calories, 15 minutes).  The completion is answered 200 and the
    user is what it was: none of the three counters has moved, as
    JavaScript rounds each sum back to 2^60. *)
Lemma completion_leaves_large_counters :
  let s :=
    serve [PostUsers (Some (InsertUser.mk "ana" "secret")) noon;
           PostUsersStats (Num 2)
             (StatsBody.mk (JInt (2 ^ 60)) (JInt (2 ^ 60)) (JInt (2 ^ 60)));
           PostUsersWorkouts (Num 2) (ScheduleBody.mk (JInt 3) (Some noon))]
      booted in
  let s' := execState (post_user_workouts_complete (Num 1) noon) s in
  evalState (getPetByUserId 2) s = None
  /\ option_map counters (evalState (getUser 2) s)
     = Some (2 ^ 60, 2 ^ 60, 2 ^ 60)
  /\ status (evalState (post_user_workouts_complete (Num 1) noon) s) = 200
  /\ evalState (getUser 2) s' = evalState (getUser 2) s
  /\ option_map counters (evalState (getUser 2) s')
     <> Some (2 ^ 60 + 80, 2 ^ 60 + 15, 2 ^ 60 + 1).
Proof.
  cbv zeta. split; [vm_compute; reflexivity|].
  split; [vm_compute; reflexivity|]. split; [vm_compute; reflexivity|].
  split; [vm_compute; reflexivity|]. vm_compute. discriminate.
Qed.

(** ** The bounded attributes stay within bounds *)

(** C5.  Take a stored pet whose health, hunger and happiness are within
    [0, 100].  The feed, play and groom handlers answer with, and store, a
    pet whose three attributes are within [0, 100]; so does a PATCH whose
    body passes the schema; and when a completion rewards this pet (the
    owner's pet, filed under its own id), the pet stored afterwards has its
    three attributes within [0, 100]. *)
Theorem attributes_stay_in_bounds (s : MemStorage) (id : Z) (pet : Pet.t)
    (now : Date) :
  evalState (getPet id) s = Some pet ->
  in_bounds pet ->
  (exists p',
      runState (post_pets_feed (Num id) now) s
      = (json (OfPet (Some p')), set_pets (JSMap.set id p') s)
      /\ in_bounds p')
  /\ (exists p',
        runState (post_pets_play (Num id) now) s
        = (json (OfPet (Some p')), set_pets (JSMap.set id p') s)
        /\ in_bounds p')
  /\ (exists p',
        runState (post_pets_groom (Num id) now) s
        = (json (OfPet (Some p')), set_pets (JSMap.set id p') s)
        /\ in_bounds p')
  /\ (forall b updates,
        updateSchema_parse b = Some updates ->
        exists p',
          runState (patch_pets (Num id) b) s
          = (json (OfPet (Some p')), set_pets (JSMap.set id p') s)
          /\ in_bounds p')
  /\ (forall userWorkoutId d,
        evalState (getUserWorkoutWithDetails userWorkoutId) s = Some d ->
        UserWorkout.completed (UserWorkoutWithDetails.base d) = false ->
        evalState
          (getPetByUserId
             (UserWorkout.userId (UserWorkoutWithDetails.base d))) s
        = Some pet ->
        Pet.id pet = id ->
        exists p',
          evalState (getPet id)
            (execState
               (post_user_workouts_complete (Num userWorkoutId) now) s)
          = Some p'
          /\ in_bounds p').
Proof.
  intros G Hb. unfold evalState in G. rewrite run_getPet in G. cbn [fst] in G.
  repeat apply conj.
  - eexists. rewrite run_post_pets_feed, G. split; [reflexivity|].
    now apply spread_tame_in_bounds, feed_updates_tame.
  - eexists. rewrite run_post_pets_play, G. split; [reflexivity|].
    now apply spread_tame_in_bounds, play_updates_tame.
  - eexists. rewrite run_post_pets_groom, G. split; [reflexivity|].
    now apply spread_tame_in_bounds, groom_updates_tame.
  - intros b updates P. eexists. rewrite run_patch_pets, P, G.
    split; [reflexivity|].
    apply spread_tame_in_bounds; [assumption|].
    now apply updateSchema_parse_tame with (b := b).
  - intros uwId d D Hc P Hid.
    destruct (resolve_details _ _ _ D) as [Gu W].
    unfold evalState in P. rewrite run_getPetByUserId in P. cbn [fst] in P.
    unfold evalState, execState.
    rewrite (run_post_user_workouts_complete uwId now s _ _ Gu W Hc).
    cbn [snd]. rewrite P. cbv zeta.
    destruct (exec_updateUserStats
                (UserWorkout.userId (UserWorkoutWithDetails.base d))
                (Workout.calories (UserWorkoutWithDetails.workout d))
                (Workout.duration (UserWorkoutWithDetails.workout d)) 1
                (set_userWorkouts
                   (JSMap.set uwId
                      (mark_completed (UserWorkoutWithDetails.base d) now)) s))
      as [f ->].
    unfold execState. rewrite run_updatePet. fields. rewrite Hid, G.
    cbn [snd]. rewrite run_getPet. fields. cbn [fst].
    rewrite JSMapFacts.get_set_same. eexists. split; [reflexivity|].
    now apply spread_tame_in_bounds, workout_updates_tame.
Qed.

(** The default pet after two rounds of play (hunger 90) is groomed. *)
Lemma attributes_stay_in_bounds_witness :
  let s := serve [PostPetsPlay (Num 1) noon; PostPetsPlay (Num 1) noon] booted in
  exists p',
    evalState (post_pets_groom (Num 1) noon) s = json (OfPet (Some p'))
    /\ in_bounds p'.
Proof.
  intros s.
  assert (G : evalState (getPet 1) s
              = Some (Pet.mk 1 1 "Buddy" "cat" 100 90 100 1 0 noon noon noon)).
  { vm_compute. reflexivity. }
  assert (Hb : in_bounds (Pet.mk 1 1 "Buddy" "cat" 100 90 100 1 0
                            noon noon noon)).
  { unfold in_bounds. simpl. lia. }
  destruct (attributes_stay_in_bounds s 1 _ noon G Hb)
    as (_ & _ & (p' & Hrun & Hp') & _).
  exists p'. unfold evalState. rewrite Hrun. now split.
Defined.

(** In every store that the server can be in, every pet has its three
    bounded attributes within [0, 100]. *)
Corollary reachable_pets_in_bounds (s : MemStorage) (id : Z) (pet : Pet.t) :
  reachable s -> evalState (getPet id) s = Some pet -> in_bounds pet.
Proof.
  intros R G. apply reachable_consistent in R.
  unfold evalState in G. rewrite run_getPet in G. cbn [fst] in G.
  now destruct (consistent_get_pet _ _ _ R G).
Qed.

(** ** Scheduling guard *)

Section Scheduling.
Implicit Types (s : MemStorage).

(** The handler on a well-formed body for a template that exists. *)
Lemma run_post_users_workouts userId workoutId scheduledFor s w :
  0 < workoutId ->
  JSMap.get workoutId (workouts s) = Some w ->
  let existingWorkouts := evalState (getUserWorkoutsByUserId userId) s in
  runState
    (post_users_workouts (Num userId)
       (ScheduleBody.mk (JInt workoutId) (Some scheduledFor))) s
  = if existsb (same_workout_same_day workoutId scheduledFor)
         existingWorkouts
    then
      (status_json 200
         (OfUserWorkoutListed
            (find (fun uw =>
                     UserWorkout.workoutId (UserWorkoutListed.base uw)
                     =? workoutId) existingWorkouts)), s)
    else
      (status_json 201
         (OfUserWorkout
            (Some (UserWorkout.mk (userWorkoutIdCounter s) userId workoutId
                     false scheduledFor None))),
       set_userWorkouts
         (JSMap.set (userWorkoutIdCounter s)
            (UserWorkout.mk (userWorkoutIdCounter s) userId workoutId
               false scheduledFor None))
         (set_userWorkoutIdCounter (userWorkoutIdCounter s + 1) s)).
Proof.
  intros Hpos W existingWorkouts. subst existingWorkouts.
  unfold post_users_workouts, schema_parse, evalState.
  cbn [ScheduleBody.workoutId ScheduleBody.scheduledFor z_int].
  unfold positive. destruct (Z.ltb_spec 0 workoutId); [|lia].
  run. rewrite W. run.
  destruct (existsb _ _); run; [reflexivity|].
  now rewrite run_createUserWorkout.
Qed.

(** A duplicate creates nothing, and what is sent back is the first of the
    user's assignments of that template, in the order of creation,
    whichever its day. *)
Lemma schedule_duplicate userId workoutId scheduledFor s w :
  0 < workoutId ->
  JSMap.get workoutId (workouts s) = Some w ->
  existsb (same_workout_same_day workoutId scheduledFor)
    (evalState (getUserWorkoutsByUserId userId) s) = true ->
  exists first,
    runState
      (post_users_workouts (Num userId)
         (ScheduleBody.mk (JInt workoutId) (Some scheduledFor))) s
    = (status_json 200 (OfUserWorkoutListed (Some first)), s)
    /\ find (fun uw =>
               UserWorkout.workoutId (UserWorkoutListed.base uw) =? workoutId)
         (evalState (getUserWorkoutsByUserId userId) s)
       = Some first
    /\ UserWorkout.workoutId (UserWorkoutListed.base first) = workoutId.
Proof.
  intros Hpos W Dup.
  rewrite (run_post_users_workouts userId workoutId scheduledFor s w Hpos W).
  cbv zeta. rewrite Dup.
  apply existsb_exists in Dup. destruct Dup as (uw & Hin & Hsame).
  unfold same_workout_same_day in Hsame.
  repeat (apply andb_prop in Hsame; destruct Hsame as [Hsame _]).
  destruct (find _ (evalState (getUserWorkoutsByUserId userId) s))
    as [first|] eqn:F.
  - exists first. repeat split. apply find_some in F.
    now apply Z.eqb_eq.
  - exfalso. apply (find_none _ _ F) in Hin. cbv beta in Hin. congruence.
Qed.

(** Without a duplicate a new assignment is created under the next id. *)
Lemma schedule_new userId workoutId scheduledFor s w :
  0 < workoutId ->
  JSMap.get workoutId (workouts s) = Some w ->
  existsb (same_workout_same_day workoutId scheduledFor)
    (evalState (getUserWorkoutsByUserId userId) s) = false ->
  let created :=
    UserWorkout.mk (userWorkoutIdCounter s) userId workoutId false
      scheduledFor None in
  let s' :=
    execState
      (post_users_workouts (Num userId)
         (ScheduleBody.mk (JInt workoutId) (Some scheduledFor))) s in
  evalState
    (post_users_workouts (Num userId)
       (ScheduleBody.mk (JInt workoutId) (Some scheduledFor))) s
  = status_json 201 (OfUserWorkout (Some created))
  /\ evalState (getUserWorkout (userWorkoutIdCounter s)) s' = Some created
  /\ (consistent s ->
      forall k uw,
        evalState (getUserWorkout k) s = Some uw ->
        k <> userWorkoutIdCounter s
        /\ evalState (getUserWorkout k) s' = Some uw).
Proof.
  intros Hpos W Dup created s'. subst s'. unfold evalState, execState.
  rewrite (run_post_users_workouts userId workoutId scheduledFor s w Hpos W).
  cbv zeta. rewrite Dup. cbn [fst snd].
  rewrite !run_getUserWorkout. cbn [fst]. fields.
  split; [reflexivity|]. split; [apply JSMapFacts.get_set_same|].
  intros C k uw G. rewrite run_getUserWorkout in *. cbn [fst] in *. fields.
  destruct (consistent_get_userWorkout _ _ _ C G) as (_ & Hlt & _).
  split; [lia|]. rewrite JSMapFacts.get_set_other by lia. exact G.
Qed.

End Scheduling.

(** C2 at its failing input.  The default user asks for the strength
    training on 15 January and on the morning of 16 January: two
    assignments are created, with ids 1 and 2.  Asked again for 16 January,
    in the evening, the handler finds the duplicate, creates nothing and
    answers 200, but what it sends is assignment 1, the one of 15 January,
    and not assignment 2, the one of the same day that the first request
    for 16 January had returned. *)
Theorem schedule_repeat_returns_other_day :
  let on_15 := PostUsersWorkouts (Num 1) (ask_strength jan15_morning) in
  let on_16 := PostUsersWorkouts (Num 1) (ask_strength jan16_morning) in
  let s1 := serve [on_15] booted in
  let s2 := serve [on_15; on_16] booted in
  let strength :=
    Workout.mk 2 "Strength Training" "Build muscle and increase strength"
      25 110 "Hard" "Strength" in
  evalState (post_users_workouts (Num 1) (ask_strength jan15_morning)) booted
  = status_json 201
      (OfUserWorkout (Some (UserWorkout.mk 1 1 2 false jan15_morning None)))
  /\ evalState (post_users_workouts (Num 1) (ask_strength jan16_morning)) s1
     = status_json 201
         (OfUserWorkout (Some (UserWorkout.mk 2 1 2 false jan16_morning None)))
  /\ runState (post_users_workouts (Num 1) (ask_strength jan16_evening)) s2
     = (status_json 200
          (OfUserWorkoutListed
             (Some (UserWorkoutListed.mk
                      (UserWorkout.mk 1 1 2 false jan15_morning None)
                      (Some strength)))),
        s2).
Proof. vm_compute. repeat split; reflexivity. Qed.

(** ** Mood classifier *)

(** C8.  The mood is decided by the first of these tests that succeeds:
    hunger below 30 gives "hungry"; else happiness below 30 gives
    "unhappy"; else health below 30 gives "unhealthy"; else happiness and
    health both above 80 give "happy"; else the default.  The message shown
    is the one filed under that key.  A pet with hunger 20, happiness 90 and
    health 90 is "hungry". *)
Theorem mood_precedence (pet : Pet.t) :
  (Pet.hunger pet < 30 -> mood pet = MessageKey.hungry)
  /\ (30 <= Pet.hunger pet -> Pet.happiness pet < 30 ->
      mood pet = MessageKey.unhappy)
  /\ (30 <= Pet.hunger pet -> 30 <= Pet.happiness pet -> Pet.health pet < 30 ->
      mood pet = MessageKey.unhealthy)
  /\ (30 <= Pet.hunger pet -> 30 <= Pet.happiness pet -> 30 <= Pet.health pet ->
      Pet.happiness pet > 80 /\ Pet.health pet > 80 ->
      mood pet = MessageKey.happy)
  /\ (30 <= Pet.hunger pet -> 30 <= Pet.happiness pet -> 30 <= Pet.health pet ->
      ~ (Pet.happiness pet > 80 /\ Pet.health pet > 80) ->
      mood pet = MessageKey.default)
  /\ (forall message,
        mood_effect (Some pet) message = petMessages (mood pet))
  /\ (Pet.hunger pet = 20 -> Pet.happiness pet = 90 -> Pet.health pet = 90 ->
      mood pet = MessageKey.hungry
      /\ forall message,
          mood_effect (Some pet) message
          = "I'm getting a bit hungry. Could you feed me?").
Proof.
  unfold mood_effect, mood.
  repeat split; intros;
    repeat match goal with
      | |- context [?a <? ?b] => destruct (Z.ltb_spec a b); try lia
      | |- context [?a >? ?b] =>
          rewrite (Z.gtb_ltb a b); destruct (Z.ltb_spec b a); try lia
      end;
    cbn [andb petMessages]; try reflexivity; try lia.
Qed.

(** The pet of the last sentence of C8. *)
Lemma mood_precedence_witness :
  mood (Pet.mk 1 1 "Buddy" "cat" 90 20 90 1 0 noon noon noon)
  = MessageKey.hungry.
Proof.
  apply (proj1 (mood_precedence
                  (Pet.mk 1 1 "Buddy" "cat" 90 20 90 1 0 noon noon noon))).
  simpl. lia.
Defined.

(** * The rest of the server *)

(** ** A request as a row of guarded writes *)

Section Writes.
Implicit Types (s : MemStorage).

Lemma statsSchema_parse_nonneg b c a w :
  statsSchema_parse b = Some (c, a, w) -> 0 <= c /\ 0 <= a /\ 0 <= w.
Proof.
  unfold statsSchema_parse, z_int, nonnegative.
  destruct (StatsBody.caloriesBurned b) as [|c0| |]; try discriminate.
  destruct (Z.leb_spec 0 c0); [|discriminate].
  destruct (StatsBody.activeMinutes b) as [|a0| |]; try discriminate.
  destruct (Z.leb_spec 0 a0); [|discriminate].
  destruct (StatsBody.completedWorkouts b) as [|w0| |]; try discriminate.
  destruct (Z.leb_spec 0 w0); [|discriminate].
  intros [= <- <- <-]. auto.
Qed.

Lemma writes_one patch s s' : write patch s s' -> writes patch s s'.
Proof. intros W. eapply writes_more; [exact W | apply writes_none]. Qed.

Lemma writes_app patch s s' s'' :
  writes patch s s' -> writes patch s' s'' -> writes patch s s''.
Proof.
  induction 1 as [|s0 s1 s2 W _ IH]; [auto|].
  intros H. eapply writes_more; [exact W | auto].
Qed.

Lemma write_consistent patch s s' :
  write patch s s' -> consistent s -> consistent s'.
Proof.
  intros W C. destruct W as [s iu now F | s id c a w user G Hc Ha Hw
                            | s ip now F | s id pet updates G U
                            | s userId workoutId d W E | s id uw now G Hc].
  - unfold execState. rewrite run_createUser. cbn [snd].
    now apply consistent_set_users, consistent_set_userIdCounter.
  - now apply consistent_updateUserStats.
  - unfold execState. rewrite run_createPet. cbn [snd].
    apply consistent_set_pets;
      [now apply consistent_set_petIdCounter | reflexivity |].
    unfold in_bounds. cbn. lia.
  - unfold evalState in G. rewrite run_getPet in G. cbn [fst] in G.
    destruct (consistent_get_pet _ _ _ C G) as [_ Hb].
    apply consistent_updatePet; [assumption|].
    destruct U as [now|now|now|w Hw|b updates P].
    + now apply feed_updates_tame.
    + now apply play_updates_tame.
    + now apply groom_updates_tame.
    + now apply workout_updates_tame.
    + now apply updateSchema_parse_tame with (b := b).
  - unfold execState. rewrite run_createUserWorkout. cbn [snd].
    cbn [InsertUserWorkout.userId InsertUserWorkout.workoutId
         InsertUserWorkout.scheduledFor].
    apply consistent_scheduled; [assumption|].
    unfold evalState in W. now rewrite run_getWorkout in W.
  - unfold evalState in G. rewrite run_getUserWorkout in G. cbn [fst] in G.
    unfold execState. rewrite run_completeUserWorkout, G. cbn [snd].
    now apply consistent_completed.
Qed.

(** What a request does to the store is a row of at most three writes. *)
Lemma handle_writes req s :
  consistent s -> writes (is_patch req) s (execState (handle req) s).
Proof.
  intros C. unfold execState.
  destruct req as [[iu|] now | [|id] b | [ip|] now | [|id] b | [|id] now
                  | [|id] now | [|id] now | [|id] b | [|id] now];
    cbn [handle is_patch]; try apply writes_none.
  - unfold post_users. run.
    destruct (find _ _) eqn:F; run; [apply writes_none|].
    apply writes_one, write_user. unfold evalState.
    now rewrite run_getUserByUsername.
  - unfold post_users_stats.
    destruct (statsSchema_parse b) as [[[c a] w]|] eqn:P; [|apply writes_none].
    destruct (statsSchema_parse_nonneg _ _ _ _ P) as (Hc & Ha & Hw).
    rewrite run_bind.
    destruct (JSMap.get id (users s)) as [user|] eqn:G.
    + pose proof (write_stats false s id c a w user) as W.
      unfold evalState, execState in W. rewrite run_getUser in W.
      specialize (W G Hc Ha Hw). apply writes_one.
      rewrite run_updateUserStats, G in *. exact W.
    + rewrite run_updateUserStats, G. apply writes_none.
  - unfold post_pets. run.
    destruct (find _ _) eqn:F; run; [apply writes_none|].
    apply writes_one, write_new_pet. unfold evalState.
    now rewrite run_getPetByUserId.
  - rewrite run_patch_pets.
    destruct (updateSchema_parse b) as [updates|] eqn:P; [|apply writes_none].
    destruct (JSMap.get id (pets s)) as [pet|] eqn:G; [|apply writes_none].
    pose proof (write_pet true s id pet updates) as W.
    unfold evalState, execState in W. rewrite run_getPet, run_updatePet, G in W.
    apply writes_one, W; [reflexivity | now apply by_patch with (b := b)].
  - rewrite run_post_pets_feed.
    destruct (JSMap.get id (pets s)) as [pet|] eqn:G; [|apply writes_none].
    pose proof (write_pet false s id pet (feed_updates pet now)) as W.
    unfold evalState, execState in W. rewrite run_getPet, run_updatePet, G in W.
    apply writes_one, W; [reflexivity | apply by_feed].
  - rewrite run_post_pets_play.
    destruct (JSMap.get id (pets s)) as [pet|] eqn:G; [|apply writes_none].
    pose proof (write_pet false s id pet (play_updates pet now)) as W.
    unfold evalState, execState in W. rewrite run_getPet, run_updatePet, G in W.
    apply writes_one, W; [reflexivity | apply by_play].
  - rewrite run_post_pets_groom.
    destruct (JSMap.get id (pets s)) as [pet|] eqn:G; [|apply writes_none].
    pose proof (write_pet false s id pet (groom_updates pet now)) as W.
    unfold evalState, execState in W. rewrite run_getPet, run_updatePet, G in W.
    apply writes_one, W; [reflexivity | apply by_groom].
  - unfold post_users_workouts.
    destruct (schema_parse b) as [[workoutId scheduledFor]|];
      [|apply writes_none].
    run. destruct (JSMap.get workoutId (workouts s)) eqn:W;
      [|apply writes_none].
    run. destruct (existsb _ _) eqn:E; [apply writes_none|].
    run. apply writes_one.
    pose proof (write_schedule false s id workoutId scheduledFor) as H.
    unfold evalState, execState in H.
    rewrite run_getWorkout, run_getUserWorkoutsByUserId in H.
    cbn [fst] in H. apply H; [congruence | exact E].
  - destruct (JSMap.get id (userWorkouts s)) as [uw|] eqn:G.
    + destruct (consistent_get_userWorkout _ _ _ C G) as (_ & _ & w & Wk).
      destruct (UserWorkout.completed uw) eqn:Done.
      * unfold post_user_workouts_complete. run. rewrite G, Wk.
        cbn [UserWorkoutWithDetails.base]. rewrite Done. apply writes_none.
      * rewrite (run_post_user_workouts_complete id now s uw w G Wk Done).
        cbn [snd]. cbv zeta.
        set (s1 := set_userWorkouts (JSMap.set id (mark_completed uw now)) s).
        assert (W1 : write false s s1).
        { pose proof (write_complete false s id uw now) as H.
          unfold evalState, execState in H.
          rewrite run_getUserWorkout, run_completeUserWorkout, G in H.
          now apply H. }
        pose proof (write_consistent _ _ _ W1 C) as C1.
        set (s2 := execState
                     (updateUserStats (UserWorkout.userId uw)
                        (Workout.calories w) (Workout.duration w) 1) s1).
        destruct (consistent_workout _ _ _ C Wk) as (_ & Hcal & Hdur).
        assert (W2 : writes false s1 s2).
        { destruct (JSMap.get (UserWorkout.userId uw) (users s1))
            as [user|] eqn:U.
          - apply writes_one, write_stats with (user := user); try lia.
            unfold evalState. now rewrite run_getUser.
          - subst s2. unfold execState. rewrite run_updateUserStats, U.
            apply writes_none. }
        assert (P2 : pets s2 = pets s).
        { subst s2. destruct (exec_updateUserStats (UserWorkout.userId uw)
                                (Workout.calories w) (Workout.duration w) 1 s1)
            as [f ->]. reflexivity. }
        eapply writes_more; [exact W1|].
        destruct (find _ (JSMap.values (pets s))) as [pet|] eqn:F;
          [|exact W2].
        eapply writes_app; [exact W2|].
        apply writes_one, write_pet with (pet := pet).
        -- unfold evalState. rewrite run_getPet, P2. cbn [fst].
           now destruct (consistent_find_pet _ _ _ C F).
        -- apply by_workout. lia.
    + unfold post_user_workouts_complete. run. rewrite G. apply writes_none.
Qed.

Lemma attainable_consistent s : attainable s -> consistent s.
Proof.
  induction 1 as [tUser tPet | patch s s' _ IH W].
  - apply consistent_storage.
  - exact (write_consistent _ _ _ W IH).
Qed.

Lemma attainable_writes patch s s' :
  attainable s -> writes patch s s' -> attainable s'.
Proof.
  intros A W. induction W as [|s0 s1 s2 W _ IH]; [exact A|].
  apply IH. exact (attainable_write _ _ _ A W).
Qed.

Lemma reachable_attainable s : reachable s -> attainable s.
Proof.
  induction 1 as [tUser tPet | s req _ IH].
  - apply attainable_boot.
  - eapply attainable_writes; [exact IH|].
    apply handle_writes. now apply attainable_consistent.
Qed.

End Writes.

(** ** More on maps *)

Module JSMapMore.
Section Facts.
Context {V : Type}.
Implicit Types (m : JSMap.t V) (k : Z) (v : V).

Lemma get_None k m : ~ In k (JSMap.keys m) -> JSMap.get k m = None.
Proof.
  induction m as [|[k' v'] m IH]; cbn; [reflexivity|].
  intros H. destruct (Z.eqb_spec k' k) as [->|_]; [tauto|].
  apply IH. tauto.
Qed.

Lemma get_Some_keys k v m : JSMap.get k m = Some v -> In k (JSMap.keys m).
Proof.
  intros H. apply JSMapFacts.get_In in H.
  change k with (fst (k, v)). now apply in_map.
Qed.

Lemma values_set_absent k v m :
  JSMap.get k m = None ->
  JSMap.values (JSMap.set k v m) = (JSMap.values m ++ [v])%list.
Proof.
  unfold JSMap.values.
  induction m as [|[k' v'] m IH]; cbn; [reflexivity|].
  destruct (k' =? k); [discriminate|]. intros H. cbn. now rewrite IH.
Qed.

(** Overwriting a value by one with the same image under [f] does not
    change the images. *)
Lemma map_values_set_present {B} (f : V -> B) k v v0 m :
  JSMap.get k m = Some v0 -> f v = f v0 ->
  map f (JSMap.values (JSMap.set k v m)) = map f (JSMap.values m).
Proof.
  unfold JSMap.values. intros G E.
  induction m as [|[k' v'] m IH]; cbn in *; [discriminate|].
  destruct (k' =? k); cbn.
  - injection G as ->. now rewrite E.
  - now rewrite IH.
Qed.

Lemma In_values_set v' k v m :
  In v' (JSMap.values (JSMap.set k v m)) -> v' = v \/ In v' (JSMap.values m).
Proof.
  intros H. apply JSMapFacts.In_values in H. destruct H as [k' H].
  apply JSMapFacts.In_set in H. destruct H as [[= _ ->]|H]; [now left|].
  right. now apply JSMapFacts.values_In with (k := k').
Qed.

(** The values under the other keys stay where they are. *)
Lemma filter_values_set (f : V -> bool) k v v0 m :
  JSMap.get k m = Some v0 -> f v = false -> f v0 = false ->
  filter f (JSMap.values (JSMap.set k v m)) = filter f (JSMap.values m).
Proof.
  unfold JSMap.values. intros G E E0.
  induction m as [|[k' v'] m IH]; cbn in *; [discriminate|].
  destruct (k' =? k); cbn.
  - injection G as ->. now rewrite E, E0.
  - now rewrite IH.
Qed.

End Facts.
End JSMapMore.

(** ** Ids *)

Section Ids.
Implicit Types (s : MemStorage).

Lemma ids_below_succ c : 1 <= c -> ids_below (c + 1) = (ids_below c ++ [c])%list.
Proof.
  intros H. unfold ids_below.
  replace (Z.to_nat (c + 1 - 1)) with (S (Z.to_nat (c - 1))) by lia.
  rewrite seq_S, map_app. cbn [map]. do 2 f_equal. lia.
Qed.

Lemma In_ids_below k c : In k (ids_below c) <-> 1 <= k < c.
Proof.
  unfold ids_below. rewrite in_map_iff. split.
  - intros (n & <- & H). apply in_seq in H. lia.
  - intros H. exists (Z.to_nat k). split; [lia|]. apply in_seq. lia.
Qed.

Lemma NoDup_ids_below c : NoDup (ids_below c).
Proof.
  unfold ids_below. apply NoDup_map_NoDup_ForallPairs.
  - intros a b _ _. lia.
  - apply seq_NoDup.
Qed.

(** Filing a new row under the counter and raising the counter. *)
Lemma keys_next {V} (m : JSMap.t V) c v :
  JSMap.keys m = ids_below c -> 1 <= c ->
  JSMap.get c m = None
  /\ JSMap.keys (JSMap.set c v m) = ids_below (c + 1).
Proof.
  intros K H.
  assert (G : JSMap.get c m = None).
  { apply JSMapMore.get_None. rewrite K, In_ids_below. lia. }
  split; [exact G|].
  now rewrite (JSMapFacts.keys_set_absent _ _ _ G), K, ids_below_succ.
Qed.

(** The shapes of the store after a write. *)
Lemma write_inv patch s s' :
  write patch s s' ->
  (exists insertUser now,
      find (fun user =>
              String.eqb (User.username user) (InsertUser.username insertUser))
        (JSMap.values (users s)) = None
      /\ s' = set_users
                (JSMap.set (userIdCounter s)
                   (User.mk (userIdCounter s) (InsertUser.username insertUser)
                      (InsertUser.password insertUser) 0 0 0 0 now))
                (set_userIdCounter (userIdCounter s + 1) s))
  \/ (exists id c a w user,
        JSMap.get id (users s) = Some user
        /\ 0 <= c /\ 0 <= a /\ 0 <= w
        /\ s' = set_users (JSMap.set id (add_stats user c a w)) s)
  \/ (exists insertPet now,
        find (fun pet => Pet.userId pet =? InsertPet.userId insertPet)
          (JSMap.values (pets s)) = None
        /\ s' = set_pets
                  (JSMap.set (petIdCounter s)
                     (Pet.mk (petIdCounter s) (InsertPet.userId insertPet)
                        (InsertPet.name insertPet)
                        (or_default (InsertPet.type insertPet) "cat")
                        100 100 100 1 0 now now now))
                  (set_petIdCounter (petIdCounter s + 1) s))
  \/ (exists id pet updates,
        JSMap.get id (pets s) = Some pet
        /\ pet_update pet patch updates
        /\ s' = set_pets (JSMap.set id (ensure_bounds (spread pet updates))) s)
  \/ (exists userId workoutId scheduledFor,
        JSMap.get workoutId (workouts s) <> None
        /\ existsb (same_workout_same_day workoutId scheduledFor)
             (evalState (getUserWorkoutsByUserId userId) s) = false
        /\ s' = set_userWorkouts
                  (JSMap.set (userWorkoutIdCounter s)
                     (UserWorkout.mk (userWorkoutIdCounter s) userId workoutId
                        false scheduledFor None))
                  (set_userWorkoutIdCounter (userWorkoutIdCounter s + 1) s))
  \/ (exists id uw now,
        JSMap.get id (userWorkouts s) = Some uw
        /\ UserWorkout.completed uw = false
        /\ s' = set_userWorkouts (JSMap.set id (mark_completed uw now)) s).
Proof.
  intros W. destruct W as [s iu now F | s id c a w user G Hc Ha Hw
                          | s ip now F | s id pet updates G U
                          | s userId workoutId d W E | s id uw now G Hc];
    unfold evalState, execState in *.
  - left. exists iu, now. rewrite run_getUserByUsername in F.
    now rewrite run_createUser.
  - right; left. exists id, c, a, w, user. rewrite run_getUser in G.
    cbn [fst] in G. now rewrite run_updateUserStats, G.
  - do 2 right; left. exists ip, now. rewrite run_getPetByUserId in F.
    now rewrite run_createPet.
  - do 3 right; left. exists id, pet, updates. rewrite run_getPet in G.
    cbn [fst] in G. now rewrite run_updatePet, G.
  - do 4 right; left. exists userId, workoutId, d.
    rewrite run_getWorkout in W. now rewrite run_createUserWorkout.
  - do 5 right. exists id, uw, now. rewrite run_getUserWorkout in G.
    cbn [fst] in G. now rewrite run_completeUserWorkout, G.
Qed.

End Ids.

Ltac write_cases W :=
  let iu := fresh "insertUser" in
  let ip := fresh "insertPet" in
  let now := fresh "now" in
  let id := fresh "id" in
  let F := fresh "Free" in
  let G := fresh "Got" in
  destruct (write_inv _ _ _ W)
    as [(iu & now & F & ->)
       |[(id & ?c & ?a & ?w & ?user & G & ?Hc & ?Ha & ?Hw & ->)
        |[(ip & now & F & ->)
         |[(id & ?pet & ?updates & G & ?U & ->)
          |[(?userId & ?workoutId & ?scheduledFor & ?Wk & ?E & ->)
           |(id & ?uw & now & G & ?Hc & ->)]]]]];
  fields.

Section IdsInOrder.
Implicit Types (s : MemStorage).

Lemma attainable_ids s : attainable s -> ids_in_order s.
Proof.
  induction 1 as [tUser tPet | patch s s' _ IH W].
  - vm_compute. repeat split; congruence.
  - destruct IH as ((Ku & Cu) & (Kp & Cp) & (Kw & Cw) & (Ka & Ca) & (Ke & Ce)).
    unfold ids_in_order. write_cases W.
    + destruct (keys_next (users s) (userIdCounter s)
                  (User.mk (userIdCounter s) (InsertUser.username insertUser)
                     (InsertUser.password insertUser) 0 0 0 0 now) Ku Cu)
        as [_ ->].
      repeat split; try assumption; lia.
    + rewrite (JSMapFacts.keys_set_present _ _ _ _ Got).
      repeat split; assumption.
    + destruct (keys_next (pets s) (petIdCounter s)
                  (Pet.mk (petIdCounter s) (InsertPet.userId insertPet)
                     (InsertPet.name insertPet)
                     (or_default (InsertPet.type insertPet) "cat")
                     100 100 100 1 0 now now now) Kp Cp)
        as [_ ->].
      repeat split; try assumption; lia.
    + rewrite (JSMapFacts.keys_set_present _ _ _ _ Got).
      repeat split; assumption.
    + destruct (keys_next (userWorkouts s) (userWorkoutIdCounter s)
                  (UserWorkout.mk (userWorkoutIdCounter s) userId workoutId
                     false scheduledFor None) Ka Ca)
        as [_ ->].
      repeat split; try assumption; lia.
    + rewrite (JSMapFacts.keys_set_present _ _ _ _ Got).
      repeat split; assumption.
Qed.

End IdsInOrder.

(** X1.  In every store that the server can be in, the ids in use in each
    of the five maps are exactly 1, 2, ..., counter - 1, filed in this
    order: ids are handed out consecutively from 1, none is skipped or used
    twice, and a row is never removed. *)
Theorem ids_are_consecutive (s : MemStorage) :
  reachable s ->
  JSMap.keys (users s) = ids_below (userIdCounter s)
  /\ JSMap.keys (pets s) = ids_below (petIdCounter s)
  /\ JSMap.keys (workouts s) = ids_below (workoutIdCounter s)
  /\ JSMap.keys (userWorkouts s) = ids_below (userWorkoutIdCounter s)
  /\ JSMap.keys (exercises s) = ids_below (exerciseIdCounter s)
  /\ (forall id,
        evalState (getUser id) s <> None <-> 1 <= id < userIdCounter s)
  /\ (forall id,
        evalState (getPet id) s <> None <-> 1 <= id < petIdCounter s)
  /\ (forall id,
        evalState (getUserWorkout id) s <> None
        <-> 1 <= id < userWorkoutIdCounter s).
Proof.
  intros R. apply reachable_attainable, attainable_ids in R.
  destruct R as ((Ku & _) & (Kp & _) & (Kw & _) & (Ka & _) & (Ke & _)).
  assert (L : forall V (m : JSMap.t V) c id,
             JSMap.keys m = ids_below c ->
             (JSMap.get id m <> None <-> 1 <= id < c)).
  { intros V m c id K. rewrite <- In_ids_below, <- K. split.
    - destruct (JSMap.get id m) eqn:G; [|congruence].
      intros _. now apply JSMapMore.get_Some_keys with (v := v).
    - intros Hin G. now apply (JSMapFacts.get_None_keys _ _ G). }
  do 5 (split; [assumption|]).
  split; [|split]; intros id; unfold evalState;
    rewrite ?run_getUser, ?run_getPet, ?run_getUserWorkout; cbn [fst];
    now apply L.
Qed.

Lemma ids_are_consecutive_witness :
  JSMap.keys (userWorkouts
                (serve [PostUsersWorkouts (Num 1) (ask_strength noon);
                        PostUsersWorkouts (Num 1)
                          (ask_strength jan16_morning)] booted))
  = ids_below 3.
Proof.
  pose proof (ids_are_consecutive
                (serve [PostUsersWorkouts (Num 1) (ask_strength noon);
                        PostUsersWorkouts (Num 1)
                          (ask_strength jan16_morning)] booted)
                (reachable_serve _ booted (reachable_boot noon noon)))
    as (_ & _ & _ & H & _).
  exact H.
Defined.

(** ** Answers and effects *)

(** X2.  Whatever the store, a request that is answered with an error
    status (400 or above) leaves the store exactly as it was; and the only
    statuses that a handler sends are 200, 201, 400, 404 and 409. *)
Theorem errors_leave_store (s : MemStorage) (req : Request) :
  (400 <= status (evalState (handle req) s) ->
   execState (handle req) s = s)
  /\ In (status (evalState (handle req) s)) [200; 201; 400; 404; 409].
Proof.
  unfold evalState, execState.
  destruct req as [[iu|] now | [|id] b | [ip|] now | [|id] b | [|id] now
                  | [|id] now | [|id] now | [|id] b | [|id] now];
    cbn [handle]; try (cbn; split; [reflexivity | tauto]).
  - unfold post_users. run.
    destruct (find _ _); run; cbn; [split; [reflexivity | tauto]|].
    split; [lia | tauto].
  - unfold post_users_stats.
    destruct (statsSchema_parse b) as [[[c a] w]|];
      [|cbn; split; [reflexivity | tauto]].
    run. destruct (JSMap.get id (users s)); cbn;
      [split; [lia | tauto] | split; [reflexivity | tauto]].
  - unfold post_pets. run.
    destruct (find _ _); run; cbn; [split; [reflexivity | tauto]|].
    split; [lia | tauto].
  - rewrite run_patch_pets.
    destruct (updateSchema_parse b); [|cbn; split; [reflexivity | tauto]].
    destruct (JSMap.get id (pets s)); cbn;
      [split; [lia | tauto] | split; [reflexivity | tauto]].
  - rewrite run_post_pets_feed.
    destruct (JSMap.get id (pets s)); cbn;
      [split; [lia | tauto] | split; [reflexivity | tauto]].
  - rewrite run_post_pets_play.
    destruct (JSMap.get id (pets s)); cbn;
      [split; [lia | tauto] | split; [reflexivity | tauto]].
  - rewrite run_post_pets_groom.
    destruct (JSMap.get id (pets s)); cbn;
      [split; [lia | tauto] | split; [reflexivity | tauto]].
  - unfold post_users_workouts.
    destruct (schema_parse b) as [[workoutId scheduledFor]|];
      [|cbn; split; [reflexivity | tauto]].
    run. destruct (JSMap.get workoutId (workouts s));
      [|cbn; split; [reflexivity | tauto]].
    run. destruct (existsb _ _); run; cbn; [split; [lia | tauto]|].
    split; [lia | tauto].
  - unfold post_user_workouts_complete. run.
    destruct (JSMap.get id (userWorkouts s)) as [uw|];
      [|cbn; split; [reflexivity | tauto]].
    destruct (JSMap.get (UserWorkout.workoutId uw) (workouts s)) as [w|];
      [|cbn; split; [reflexivity | tauto]].
    cbn [UserWorkoutWithDetails.base UserWorkoutWithDetails.workout].
    destruct (UserWorkout.completed uw); [cbn; split; [reflexivity | tauto]|].
    run. destruct (find _ _); run; cbn; split; try lia; tauto.
Qed.

(** A completion of an id that is not there, on the store after start-up. *)
Lemma errors_leave_store_witness :
  execState (handle (PostUserWorkoutsComplete (Num 7) noon)) booted = booted.
Proof.
  apply (proj1 (errors_leave_store booted
                  (PostUserWorkoutsComplete (Num 7) noon))).
  vm_compute. discriminate.
Defined.

(** ** Users *)

Section Users.
Implicit Types (s : MemStorage).

Lemma find_none_not_in {A B} (eqb : B -> B -> bool) (f : A -> B) (b : B)
    (l : list A) :
  (forall x y, eqb x y = true <-> x = y) ->
  find (fun a => eqb (f a) b) l = None -> ~ In b (map f l).
Proof.
  intros Heqb F Hin. apply in_map_iff in Hin. destruct Hin as (a & <- & Ha).
  pose proof (find_none _ _ F a Ha) as H. cbv beta in H.
  assert (eqb (f a) (f a) = true) by now apply Heqb. congruence.
Qed.

Lemma find_app_last {A} (p : A -> bool) (l : list A) (a : A) :
  find p l = None -> p a = true -> find p (l ++ [a]) = Some a.
Proof.
  induction l as [|x l IH]; cbn; intros F Ha; [now rewrite Ha|].
  destruct (p x); [discriminate | auto].
Qed.

Lemma NoDup_snoc {A} (l : list A) (a : A) :
  NoDup l -> ~ In a l -> NoDup (l ++ [a]).
Proof.
  intros Hl Ha. apply NoDup_app; [assumption | repeat constructor; cbn; tauto|].
  intros x Hx [<-|[]]. tauto.
Qed.

Lemma attainable_users s : attainable s -> users_in_order s.
Proof.
  induction 1 as [tUser tPet | patch s s' A IH W].
  - unfold users_in_order. rewrite storage_users. split.
    + intros k u [[= <- <-]|[]]. cbn. lia.
    + cbn. repeat constructor. cbn. tauto.
  - destruct IH as [Rows Uniq].
    pose proof (attainable_ids s A) as ((Ku & Cu) & _).
    unfold users_in_order. write_cases W; try (split; assumption).
    + destruct (keys_next (users s) (userIdCounter s)
                  (User.mk (userIdCounter s) (InsertUser.username insertUser)
                     (InsertUser.password insertUser) 0 0 0 0 now) Ku Cu)
        as [G _].
      split.
      * intros k u H. apply JSMapFacts.In_set in H.
        destruct H as [[= -> ->]|H]; [cbn; lia | now apply Rows].
      * rewrite (JSMapMore.values_set_absent _ _ _ G), map_app. cbn [map].
        apply NoDup_snoc; [assumption|]. cbn [User.username].
        apply find_none_not_in with (eqb := String.eqb);
          [apply String.eqb_eq | assumption].
    + split.
      * intros k u H. apply JSMapFacts.In_set in H.
        destruct H as [[= -> ->]|H]; [|now apply Rows].
        apply JSMapFacts.get_In in Got. apply Rows in Got.
        destruct Got as (Hi & Hs & H1 & H2 & H3). cbn.
        split; [exact Hi|]. split; [exact Hs|].
        split; [|split]; apply js_add_nonneg; assumption.
      * now rewrite (JSMapMore.map_values_set_present User.username _ _ _ _ Got).
Qed.

End Users.

(** X3.  In every store that the server can be in, no two users have the
    same username.  Registering a username that is taken is answered 409
    and changes nothing.  Registering a free one is answered 201 with a
    user that carries the next id, the username and the password as
    submitted, zero counters and a zero streak; the user is then found
    under that id and under that username, and the users that were there
    are found as before. *)
Theorem usernames_are_unique (s : MemStorage) :
  reachable s ->
  NoDup (map User.username (JSMap.values (users s)))
  /\ (forall insertUser now taken,
        evalState (getUserByUsername (InsertUser.username insertUser)) s
        = Some taken ->
        runState (post_users (Some insertUser) now) s
        = (status_json 409 (Message "Username already exists"), s))
  /\ (forall insertUser now,
        evalState (getUserByUsername (InsertUser.username insertUser)) s
        = None ->
        let created :=
          User.mk (userIdCounter s) (InsertUser.username insertUser)
            (InsertUser.password insertUser) 0 0 0 0 now in
        let s' := execState (post_users (Some insertUser) now) s in
        evalState (post_users (Some insertUser) now) s
        = status_json 201 (OfUser created)
        /\ evalState (get_users (Num (userIdCounter s))) s'
           = (200, FetchedUser created)
        /\ evalState (getUserByUsername (InsertUser.username insertUser)) s'
           = Some created
        /\ forall id user,
            evalState (getUser id) s = Some user ->
            evalState (getUser id) s' = Some user).
Proof.
  intros R. apply reachable_attainable in R.
  pose proof (attainable_users s R) as [Rows Uniq].
  pose proof (attainable_ids s R) as ((Ku & Cu) & _).
  split; [exact Uniq|]. split.
  - intros iu now taken F. unfold evalState in F.
    rewrite run_getUserByUsername in F. cbn [fst] in F.
    unfold post_users. run. now rewrite F.
  - intros iu now F created s'. subst s'. unfold evalState in F.
    rewrite run_getUserByUsername in F. cbn [fst] in F.
    unfold evalState, execState, post_users, get_users. run. rewrite F. run.
    rewrite run_createUser. cbn [fst snd]. fold created. run. fields.
    destruct (keys_next (users s) (userIdCounter s) created Ku Cu) as [G _].
    rewrite JSMapFacts.get_set_same. cbn [fst].
    split; [reflexivity|]. split; [reflexivity|]. split.
    + rewrite (JSMapMore.values_set_absent _ _ _ G).
      apply find_app_last; [assumption|]. cbn. apply String.eqb_refl.
    + intros id user Gu. rewrite run_getUser in *. fields. cbn [fst] in *.
      rewrite JSMapFacts.get_set_other; [assumption|].
      intros ->. rewrite G in Gu. discriminate.
Qed.

(** A second user registers at start-up; registering the name again is
    refused. *)
Lemma usernames_are_unique_witness :
  evalState (post_users (Some (InsertUser.mk "ana" "secret")) noon) booted
  = status_json 201 (OfUser (User.mk 2 "ana" "secret" 0 0 0 0 noon))
  /\ status
       (evalState (post_users (Some (InsertUser.mk "user" "x")) noon) booted)
     = 409.
Proof.
  destruct (usernames_are_unique booted (reachable_boot noon noon))
    as (_ & Taken & Free).
  split.
  - apply (Free (InsertUser.mk "ana" "secret") noon). vm_compute. reflexivity.
  - unfold evalState.
    rewrite (Taken (InsertUser.mk "user" "x") noon
               (User.mk 1 "user" "password" 0 0 0 0 noon)); [reflexivity|].
    vm_compute. reflexivity.
Defined.

(** X4.  In every store that the server can be in, every user has a streak
    of 0: [updateUserStreak] is the only method that writes the streak and
    no route calls it.  The three cumulative counters of a user are never
    negative. *)
Theorem streak_is_never_set (s : MemStorage) (id : Z) (user : User.t) :
  reachable s ->
  evalState (getUser id) s = Some user ->
  User.streak user = 0
  /\ User.id user = id
  /\ 0 <= User.caloriesBurned user
  /\ 0 <= User.activeMinutes user
  /\ 0 <= User.completedWorkouts user.
Proof.
  intros R G. apply reachable_attainable, attainable_users in R.
  unfold evalState in G. rewrite run_getUser in G. cbn [fst] in G.
  apply JSMapFacts.get_In in G. apply (proj1 R) in G. tauto.
Qed.

(** The default user after scheduling and completing the morning cardio. *)
Lemma streak_is_never_set_witness :
  let s :=
    serve [PostUsersWorkouts (Num 1) (ScheduleBody.mk (JInt 1) (Some noon));
           PostUserWorkoutsComplete (Num 1) noon] booted in
  evalState (getUser 1) s = Some (User.mk 1 "user" "password" 0 120 20 1 noon)
  /\ User.streak (User.mk 1 "user" "password" 0 120 20 1 noon) = 0.
Proof.
  intros s.
  assert (G : evalState (getUser 1) s
              = Some (User.mk 1 "user" "password" 0 120 20 1 noon)).
  { vm_compute. reflexivity. }
  split; [exact G|].
  exact (proj1 (streak_is_never_set s 1 _
                  (reachable_serve _ booted (reachable_boot noon noon)) G)).
Defined.

(** ** From one write to a run of requests *)

Section Lift.
Variable R : MemStorage -> MemStorage -> Prop.
Hypothesis R_refl : forall s, R s s.
Hypothesis R_trans : forall a b c, R a b -> R b c -> R a c.

Section OneKind.
Variable patch : bool.
Hypothesis R_write :
  forall s s', attainable s -> write patch s s' -> R s s'.

Lemma writes_lift s s' : attainable s -> writes patch s s' -> R s s'.
Proof.
  intros A W. induction W as [|s0 s1 s2 W _ IH]; [apply R_refl|].
  apply R_trans with (b := s1); [now apply R_write|].
  apply IH. exact (attainable_write _ _ _ A W).
Qed.

Lemma handle_lift req s :
  reachable s -> is_patch req = patch -> R s (execState (handle req) s).
Proof.
  intros Rs E. apply reachable_attainable in Rs.
  apply writes_lift; [assumption|].
  pose proof (handle_writes req s (attainable_consistent s Rs)) as W.
  rewrite E in W. exact W.
Qed.

Lemma serve_lift reqs s :
  reachable s -> Forall (fun req => is_patch req = patch) reqs ->
  R s (serve reqs s).
Proof.
  revert s. induction reqs as [|req reqs IH]; intros s Rs F; [apply R_refl|].
  apply Forall_cons_iff in F. destruct F as [Hreq Hreqs]. cbn [serve].
  apply R_trans with (b := execState (handle req) s).
  - now apply handle_lift.
  - apply IH; [now apply reachable_request | assumption].
Qed.

End OneKind.

Hypothesis R_any_write :
  forall patch s s', attainable s -> write patch s s' -> R s s'.

Lemma handle_lift_any req s : reachable s -> R s (execState (handle req) s).
Proof.
  intros Rs. apply handle_lift with (patch := is_patch req);
    [apply R_any_write | assumption | reflexivity].
Qed.

Lemma serve_lift_any reqs s : reachable s -> R s (serve reqs s).
Proof.
  revert s. induction reqs as [|req reqs IH]; intros s Rs; [apply R_refl|].
  cbn [serve]. apply R_trans with (b := execState (handle req) s).
  - now apply handle_lift_any.
  - apply IH. now apply reachable_request.
Qed.

End Lift.

Section UsersGrow.
Implicit Types (s : MemStorage).

Lemma users_grow_refl s : users_grow s s.
Proof. intros id u G. exists u. repeat split; try assumption; lia. Qed.

Lemma users_grow_trans a b c : users_grow a b -> users_grow b c -> users_grow a c.
Proof.
  intros Hab Hbc id u G.
  destruct (Hab id u G) as (u1 & G1 & ? & ? & ? & ? & ? & ? & ? & ?).
  destruct (Hbc id u1 G1) as (u2 & G2 & ? & ? & ? & ? & ? & ? & ? & ?).
  exists u2. repeat split; try congruence; lia.
Qed.

Lemma users_grow_write patch s s' :
  attainable s -> write patch s s' -> users_grow s s'.
Proof.
  intros A W. pose proof (attainable_ids s A) as ((Ku & Cu) & _).
  pose proof (attainable_users s A) as [Rows _].
  unfold users_grow. write_cases W; intros id' u G;
    try (exists u; repeat split; try assumption; lia).
  - destruct (keys_next (users s) (userIdCounter s)
                (User.mk (userIdCounter s) (InsertUser.username insertUser)
                   (InsertUser.password insertUser) 0 0 0 0 now) Ku Cu)
      as [G0 _].
    exists u. rewrite JSMapFacts.get_set_other by congruence.
    repeat split; try assumption; lia.
  - destruct (Z.eq_dec id' id) as [->|Hne].
    + rewrite JSMapFacts.get_set_same. rewrite Got in G. injection G as ->.
      apply JSMapFacts.get_In, Rows in Got.
      destruct Got as (_ & _ & H1 & H2 & H3).
      eexists. split; [reflexivity|]. cbn.
      do 5 (split; [reflexivity|]).
      split; [|split]; apply js_add_grows; assumption.
    + rewrite JSMapFacts.get_set_other by assumption.
      exists u. repeat split; try assumption; lia.
Qed.

End UsersGrow.

(** X5.  Through any sequence of requests, a user stays in the store under
    the same id with the same username, password, streak and creation
    time, and none of the three cumulative counters ever goes down. *)
Theorem counters_never_decrease (s : MemStorage) (reqs : list Request)
    (id : Z) (user : User.t) :
  reachable s ->
  evalState (getUser id) s = Some user ->
  exists user',
    evalState (getUser id) (serve reqs s) = Some user'
    /\ User.id user' = User.id user
    /\ User.username user' = User.username user
    /\ User.password user' = User.password user
    /\ User.streak user' = User.streak user
    /\ User.createdAt user' = User.createdAt user
    /\ User.caloriesBurned user <= User.caloriesBurned user'
    /\ User.activeMinutes user <= User.activeMinutes user'
    /\ User.completedWorkouts user <= User.completedWorkouts user'.
Proof.
  intros R G. unfold evalState in *. rewrite run_getUser in *. cbn [fst] in *.
  exact (serve_lift_any users_grow users_grow_refl users_grow_trans
           users_grow_write reqs s R id user G).
Qed.

(** The default user through a registration, a scheduling, a completion
    and a posting of stats. *)
Lemma counters_never_decrease_witness :
  exists user',
    evalState (getUser 1)
      (serve [PostUsers (Some (InsertUser.mk "ana" "secret")) noon;
              PostUsersWorkouts (Num 1) (ask_strength noon);
              PostUserWorkoutsComplete (Num 1) noon;
              PostUsersStats (Num 1)
                (StatsBody.mk (JInt 5) (JInt 0) (JInt 0))] booted)
    = Some user'
    /\ 0 <= User.completedWorkouts user'.
Proof.
  destruct (counters_never_decrease booted
              [PostUsers (Some (InsertUser.mk "ana" "secret")) noon;
               PostUsersWorkouts (Num 1) (ask_strength noon);
               PostUserWorkoutsComplete (Num 1) noon;
               PostUsersStats (Num 1)
                 (StatsBody.mk (JInt 5) (JInt 0) (JInt 0))]
              1 (User.mk 1 "user" "password" 0 0 0 0 noon)
              (reachable_boot noon noon) eq_refl)
    as (user' & G & _ & _ & _ & _ & _ & _ & _ & H).
  exists user'. split; [exact G | exact H].
Defined.

(** ** Pets *)

Section Pets.
Implicit Types (s : MemStorage).

(** What else the schema of [PATCH /api/pets/:id] lets through: an xp that
    is not negative, a level of at least 1, one of the five species. *)
Lemma updateSchema_parse_levels b updates :
  updateSchema_parse b = Some updates ->
  (forall v, PartialPet.xp updates = Some v -> 0 <= v)
  /\ (forall v, PartialPet.level updates = Some v -> 1 <= v)
  /\ (forall t, PartialPet.type updates = Some t ->
        In t ["cat"; "dog"; "rabbit"; "fox"; "hamster"]).
Proof.
  unfold updateSchema_parse.
  destruct (optional _ (PatchBody.health b)); [|discriminate].
  destruct (optional _ (PatchBody.hunger b)); [|discriminate].
  destruct (optional _ (PatchBody.happiness b)); [|discriminate].
  destruct (optional _ (PatchBody.xp b)) as [x|] eqn:Ex; [|discriminate].
  destruct (optional _ (PatchBody.level b)) as [l|] eqn:El; [|discriminate].
  destruct (optional _ (PatchBody.type b)) as [t|] eqn:Et; [|discriminate].
  destruct (optional _ (PatchBody.lastFed b)); [|discriminate].
  destruct (optional _ (PatchBody.lastPlayed b)); [|discriminate].
  destruct (optional _ (PatchBody.lastGroomed b)); [|discriminate].
  intros [= <-]. cbn. split; [|split].
  - intros v ->. destruct (PatchBody.xp b) as [|z| |]; cbn in Ex;
      try discriminate.
    unfold nonnegative in Ex. destruct (Z.leb_spec 0 z); cbn in Ex;
      [injection Ex as <-; assumption | discriminate].
  - intros v ->. destruct (PatchBody.level b) as [|z| |]; cbn in El;
      try discriminate.
    unfold positive in El. destruct (Z.ltb_spec 0 z); cbn in El;
      [injection El as <-; lia | discriminate].
  - intros v ->. destruct (PatchBody.type b) as [| |str|];
      cbn -[existsb] in Et; try discriminate.
    destruct (existsb (String.eqb str) _) eqn:Ex'; cbn in Et; [|discriminate].
    injection Et as <-. apply existsb_exists in Ex'.
    destruct Ex' as (t0 & Hin & Heq). apply String.eqb_eq in Heq. now subst.
Qed.

(** What an update that a handler passes does to the stored pet. *)
Lemma pet_update_effect pet patch updates :
  pet_update pet patch updates -> in_bounds pet ->
  ensure_bounds (spread pet updates) = spread pet updates
  /\ Pet.id (spread pet updates) = Pet.id pet
  /\ Pet.userId (spread pet updates) = Pet.userId pet
  /\ Pet.name (spread pet updates) = Pet.name pet
  /\ (patch = false ->
      Pet.level (spread pet updates) = Pet.level pet
      /\ Pet.type (spread pet updates) = Pet.type pet
      /\ (0 <= Pet.xp pet -> Pet.xp pet <= Pet.xp (spread pet updates)))
  /\ (1 <= Pet.level pet -> 1 <= Pet.level (spread pet updates))
  /\ (0 <= Pet.xp pet -> 0 <= Pet.xp (spread pet updates)).
Proof.
  intros U (Hh & Hu & Ha).
  destruct U as [now|now|now|w Hw|b updates P].
  - split; [apply ensure_bounds_capped; cbn; lia|].
    cbn. repeat split; try reflexivity; lia.
  - split; [apply ensure_bounds_capped; cbn; lia|].
    cbn. repeat split; try reflexivity; lia.
  - split; [apply ensure_bounds_capped; cbn; lia|].
    cbn. repeat split; try reflexivity; lia.
  - pose proof (xpGain_nonneg _ Hw).
    split; [apply ensure_bounds_capped; cbn -[xpGain]; lia|].
    cbn -[xpGain]. repeat split; try reflexivity; try lia; intros;
      first [apply js_add_grows | apply js_add_nonneg]; assumption.
  - destruct (updateSchema_parse_range _ _ P)
      as (Eid & Eu & En & Rh & Ru & Ra).
    destruct (updateSchema_parse_levels _ _ P) as (Rx & Rl & _).
    split.
    + apply ensure_bounds_capped; cbn.
      * destruct (PartialPet.health updates) as [v|]; cbn;
          [specialize (Rh v eq_refl)|]; lia.
      * destruct (PartialPet.hunger updates) as [v|]; cbn;
          [specialize (Ru v eq_refl)|]; lia.
      * destruct (PartialPet.happiness updates) as [v|]; cbn;
          [specialize (Ra v eq_refl)|]; lia.
    + cbn. rewrite Eid, Eu, En. cbn.
      split; [reflexivity|]. split; [reflexivity|]. split; [reflexivity|].
      split; [discriminate|]. split.
      * destruct (PartialPet.level updates) as [v|]; cbn;
          [specialize (Rl v eq_refl); lia | auto].
      * destruct (PartialPet.xp updates) as [v|]; cbn;
          [specialize (Rx v eq_refl); lia | auto].
Qed.

Lemma attainable_pets s : attainable s -> pets_in_order s.
Proof.
  induction 1 as [tUser tPet | patch s s' A IH W].
  - unfold pets_in_order. rewrite storage_pets. split.
    + intros k p [[= <- <-]|[]]. cbn. lia.
    + cbn. repeat constructor. cbn. tauto.
  - destruct IH as [Rows Uniq].
    pose proof (attainable_ids s A) as (_ & (Kp & Cp) & _).
    pose proof (attainable_consistent s A) as C.
    unfold pets_in_order. write_cases W; try (split; assumption).
    + destruct (keys_next (pets s) (petIdCounter s)
                  (Pet.mk (petIdCounter s) (InsertPet.userId insertPet)
                     (InsertPet.name insertPet)
                     (or_default (InsertPet.type insertPet) "cat")
                     100 100 100 1 0 now now now) Kp Cp)
        as [G _].
      split.
      * intros k p H. apply JSMapFacts.In_set in H.
        destruct H as [[= -> ->]|H]; [cbn; lia | exact (Rows _ _ H)].
      * rewrite (JSMapMore.values_set_absent _ _ _ G), map_app. cbn [map].
        apply NoDup_snoc; [assumption|]. cbn [Pet.userId].
        apply find_none_not_in with (eqb := Z.eqb);
          [apply Z.eqb_eq | assumption].
    + destruct (consistent_get_pet _ _ _ C Got) as [_ Hb].
      destruct (pet_update_effect _ _ _ U Hb)
        as (-> & _ & Eu & _ & _ & Hl & Hx).
      split.
      * intros k p H. apply JSMapFacts.In_set in H.
        destruct H as [[= -> ->]|H]; [|exact (Rows _ _ H)].
        apply JSMapFacts.get_In in Got. apply Rows in Got.
        split; [apply Hl | apply Hx]; tauto.
      * now rewrite (JSMapMore.map_values_set_present Pet.userId _ _ _ _ Got).
Qed.

Lemma pets_stay_refl strict s : pets_stay strict s s.
Proof.
  intros id p G. exists p. repeat split; try assumption; try reflexivity; lia.
Qed.

Lemma pets_stay_trans strict a b c :
  pets_stay strict a b -> pets_stay strict b c -> pets_stay strict a c.
Proof.
  intros Hab Hbc id p G.
  destruct (Hab id p G) as (p1 & G1 & E1 & E2 & E3 & S1).
  destruct (Hbc id p1 G1) as (p2 & G2 & F1 & F2 & F3 & S2).
  exists p2. split; [exact G2|]. do 3 (split; [congruence|]).
  intros St. destruct (S1 St) as (L1 & T1 & X1).
  destruct (S2 St) as (L2 & T2 & X2).
  split; [congruence|]. split; [congruence | lia].
Qed.

Lemma pets_stay_write patch s s' :
  attainable s -> write patch s s' -> pets_stay (negb patch) s s'.
Proof.
  intros A W. pose proof (attainable_ids s A) as (_ & (Kp & Cp) & _).
  pose proof (attainable_consistent s A) as C.
  pose proof (attainable_pets s A) as [Rows _].
  unfold pets_stay. write_cases W; intros id' p G;
    try solve [exists p; repeat split; try assumption; try reflexivity; lia].
  - destruct (keys_next (pets s) (petIdCounter s)
                (Pet.mk (petIdCounter s) (InsertPet.userId insertPet)
                   (InsertPet.name insertPet)
                   (or_default (InsertPet.type insertPet) "cat")
                   100 100 100 1 0 now now now) Kp Cp)
      as [G0 _].
    exists p. rewrite JSMapFacts.get_set_other by congruence.
    repeat split; try assumption; try reflexivity; lia.
  - destruct (Z.eq_dec id' id) as [->|Hne].
    + rewrite JSMapFacts.get_set_same. rewrite Got in G. injection G as ->.
      destruct (consistent_get_pet _ _ _ C Got) as [_ Hb].
      destruct (pet_update_effect _ _ _ U Hb)
        as (-> & Ei & Eu & En & Strict & _).
      eexists. split; [reflexivity|]. do 3 (split; [assumption|]).
      destruct patch; [discriminate|]. intros _.
      destruct (Strict eq_refl) as (El & Et & Ex).
      split; [exact El|]. split; [exact Et|]. apply Ex.
      apply JSMapFacts.get_In, Rows in Got. tauto.
    + rewrite JSMapFacts.get_set_other by assumption.
      exists p. repeat split; try assumption; try reflexivity; lia.
Qed.

Lemma pets_stay_weaken strict s s' : pets_stay strict s s' -> pets_stay false s s'.
Proof.
  intros H id p G. destruct (H id p G) as (p' & G' & ? & ? & ? & _).
  exists p'. repeat split; try assumption; discriminate.
Qed.

Lemma NoDup_map_same {A B} (f : A -> B) (l : list A) (a b : A) :
  NoDup (map f l) -> In a l -> In b l -> f a = f b -> a = b.
Proof.
  induction l as [|x l IH]; cbn; [tauto|].
  intros Hnd Ha Hb E. inversion Hnd as [|? ? Hx Hl]; subst.
  destruct Ha as [->|Ha], Hb as [->|Hb]; auto.
  - exfalso. apply Hx. rewrite E. now apply in_map.
  - exfalso. apply Hx. rewrite <- E. now apply in_map.
Qed.

End Pets.

(** X6.  Through any sequence of requests a pet stays in the store under
    the same id, with the same owner and the same name.  As long as none of
    the requests is a [PATCH /api/pets/:id], its level and its species stay
    the same too (no amount of xp raises the level) and its xp never goes
    down. *)
Theorem pets_keep_identity (s : MemStorage) (reqs : list Request)
    (id : Z) (pet : Pet.t) :
  reachable s ->
  evalState (getPet id) s = Some pet ->
  exists pet',
    evalState (getPet id) (serve reqs s) = Some pet'
    /\ Pet.id pet' = Pet.id pet
    /\ Pet.userId pet' = Pet.userId pet
    /\ Pet.name pet' = Pet.name pet
    /\ (Forall (fun req => is_patch req = false) reqs ->
        Pet.level pet' = Pet.level pet
        /\ Pet.type pet' = Pet.type pet
        /\ Pet.xp pet <= Pet.xp pet').
Proof.
  intros R G. unfold evalState in *. rewrite run_getPet in *. cbn [fst] in *.
  assert (Any : pets_stay false s (serve reqs s)).
  { apply serve_lift_any; [apply pets_stay_refl | apply pets_stay_trans| |exact R].
    intros patch a b A W. eapply pets_stay_weaken, pets_stay_write; eassumption. }
  destruct (Any id pet G) as (pet' & G' & Ei & Eu & En & _).
  exists pet'. do 4 (split; [assumption|]). intros Careful.
  assert (Strict : pets_stay true s (serve reqs s)).
  { apply serve_lift with (patch := false);
      [apply pets_stay_refl | apply pets_stay_trans | | exact R | exact Careful].
    intros a b A W. exact (pets_stay_write false a b A W). }
  destruct (Strict id pet G) as (pet'' & G'' & _ & _ & _ & S).
  rewrite G' in G''. injection G'' as <-. now apply S.
Qed.

(** The default pet through a scheduling, a completion and a feed. *)
Lemma pets_keep_identity_witness :
  exists pet',
    evalState (getPet 1)
      (serve [PostUsersWorkouts (Num 1) (ask_strength noon);
              PostUserWorkoutsComplete (Num 1) noon;
              PostPetsFeed (Num 1) noon] booted)
    = Some pet'
    /\ Pet.level pet' = 1 /\ Pet.name pet' = "Buddy".
Proof.
  destruct (pets_keep_identity booted
              [PostUsersWorkouts (Num 1) (ask_strength noon);
               PostUserWorkoutsComplete (Num 1) noon;
               PostPetsFeed (Num 1) noon]
              1 (Pet.mk 1 1 "Buddy" "cat" 100 100 100 1 0 noon noon noon)
              (reachable_boot noon noon) eq_refl)
    as (pet' & G & _ & _ & En & S).
  exists pet'. split; [exact G|].
  destruct S as (El & _ & _); [repeat constructor|].
  split; [exact El | exact En].
Defined.

(** X7.  In every store that the server can be in, a pet has a level of at
    least 1 and an xp that is not negative, and no user has two pets.
    Creating a pet for a user who has one is answered 409 and changes
    nothing.  Creating one for a user who has none is answered 201 with a
    pet that carries the next id, health, hunger and happiness 100, level
    1, xp 0, the three care times set to the current time and the species
    "cat" when none (or the empty string) was given; the pet is then what
    [GET /api/users/:userId/pet] answers. *)
Theorem one_pet_per_user (s : MemStorage) :
  reachable s ->
  (forall id pet,
      evalState (getPet id) s = Some pet ->
      1 <= Pet.level pet /\ 0 <= Pet.xp pet)
  /\ (forall id1 id2 pet1 pet2,
        evalState (getPet id1) s = Some pet1 ->
        evalState (getPet id2) s = Some pet2 ->
        Pet.userId pet1 = Pet.userId pet2 ->
        id1 = id2)
  /\ (forall insertPet now owned,
        evalState (getPetByUserId (InsertPet.userId insertPet)) s
        = Some owned ->
        runState (post_pets (Some insertPet) now) s
        = (status_json 409 (Message "User already has a pet"), s))
  /\ (forall insertPet now,
        evalState (getPetByUserId (InsertPet.userId insertPet)) s = None ->
        let created :=
          Pet.mk (petIdCounter s) (InsertPet.userId insertPet)
            (InsertPet.name insertPet)
            (match InsertPet.type insertPet with
             | Some type => if String.eqb type "" then "cat" else type
             | None => "cat"
             end)
            100 100 100 1 0 now now now in
        let s' := execState (post_pets (Some insertPet) now) s in
        evalState (post_pets (Some insertPet) now) s
        = status_json 201 (OfPet (Some created))
        /\ evalState (get_users_pet (Num (InsertPet.userId insertPet))) s'
           = (200, FetchedPet created)
        /\ evalState (getPet (petIdCounter s)) s' = Some created).
Proof.
  intros R. apply reachable_attainable in R.
  pose proof (attainable_pets s R) as [Rows Uniq].
  pose proof (attainable_ids s R) as (_ & (Kp & Cp) & _).
  pose proof (attainable_consistent s R) as C.
  split; [|split; [|split]].
  - intros id pet G. unfold evalState in G. rewrite run_getPet in G.
    cbn [fst] in G. apply JSMapFacts.get_In in G. exact (Rows _ _ G).
  - intros id1 id2 pet1 pet2 G1 G2 E. unfold evalState in G1, G2.
    rewrite run_getPet in G1, G2. cbn [fst] in G1, G2.
    destruct (consistent_get_pet _ _ _ C G1) as [I1 _].
    destruct (consistent_get_pet _ _ _ C G2) as [I2 _].
    apply JSMapFacts.get_In in G1, G2.
    assert (pet1 = pet2).
    { apply (NoDup_map_same Pet.userId (JSMap.values (pets s)));
        try assumption;
        [now apply JSMapFacts.values_In with (k := id1)
        |now apply JSMapFacts.values_In with (k := id2)]. }
    congruence.
  - intros ip now owned F. unfold evalState in F.
    rewrite run_getPetByUserId in F. cbn [fst] in F.
    unfold post_pets. run. now rewrite F.
  - intros ip now F created s'. subst s'. unfold evalState in F.
    rewrite run_getPetByUserId in F. cbn [fst] in F.
    unfold evalState, execState, post_pets, get_users_pet. run. rewrite F. run.
    rewrite run_createPet. cbn [fst snd].
    change (or_default (InsertPet.type ip) "cat") with (Pet.type created).
    change (Pet.mk (petIdCounter s) (InsertPet.userId ip) (InsertPet.name ip)
              (Pet.type created) 100 100 100 1 0 now now now) with created.
    run. fields.
    destruct (keys_next (pets s) (petIdCounter s) created Kp Cp) as [G _].
    split; [reflexivity|]. split.
    + rewrite (JSMapMore.values_set_absent _ _ _ G).
      rewrite (find_app_last _ _ created F); [reflexivity|].
      cbn. apply Z.eqb_refl.
    + apply JSMapFacts.get_set_same.
Qed.

(** At start-up the default user has a pet; a second user gets one. *)
Lemma one_pet_per_user_witness :
  status (evalState (post_pets (Some (InsertPet.mk 1 "Rex" None)) noon) booted)
  = 409
  /\ evalState (post_pets (Some (InsertPet.mk 2 "Rex" None)) noon) booted
     = status_json 201
         (OfPet (Some (Pet.mk 2 2 "Rex" "cat" 100 100 100 1 0
                         noon noon noon))).
Proof.
  destruct (one_pet_per_user booted (reachable_boot noon noon))
    as (_ & _ & Owned & Free).
  split.
  - unfold evalState.
    rewrite (Owned (InsertPet.mk 1 "Rex" None) noon
               (Pet.mk 1 1 "Buddy" "cat" 100 100 100 1 0 noon noon noon));
      [reflexivity|].
    vm_compute. reflexivity.
  - apply (Free (InsertPet.mk 2 "Rex" None) noon). vm_compute. reflexivity.
Defined.

(** ** Assignments *)

Section Assignments.
Implicit Types (s : MemStorage).

Lemma strict_eq_sym a b : strict_eq a b = strict_eq b a.
Proof. destruct a, b; cbn; try reflexivity. apply Z.eqb_sym. Qed.

Lemma same_calendar_day_sym a b :
  same_calendar_day a b = same_calendar_day b a.
Proof.
  unfold same_calendar_day.
  now rewrite (strict_eq_sym (getDate a)), (strict_eq_sym (getMonth a)),
    (strict_eq_sym (getFullYear a)).
Qed.

(** The test of the scheduling guard on a listed assignment. *)
Lemma same_workout_same_day_split workoutId d uw w :
  same_workout_same_day workoutId d (UserWorkoutListed.mk uw w)
  = (UserWorkout.workoutId uw =? workoutId)
    && same_calendar_day (UserWorkout.scheduledFor uw) d.
Proof.
  unfold same_workout_same_day, same_calendar_day.
  cbn [UserWorkoutListed.base]. now rewrite !andb_assoc.
Qed.

(** What the guard has checked when it lets a request through. *)
Lemma guard_passed s userId workoutId d k uw :
  existsb (same_workout_same_day workoutId d)
    (evalState (getUserWorkoutsByUserId userId) s) = false ->
  In (k, uw) (userWorkouts s) ->
  UserWorkout.userId uw = userId ->
  UserWorkout.workoutId uw = workoutId ->
  same_calendar_day (UserWorkout.scheduledFor uw) d = false.
Proof.
  intros E Hin Hu Hw. unfold evalState in E.
  rewrite run_getUserWorkoutsByUserId in E. cbn [fst] in E.
  destruct (same_calendar_day (UserWorkout.scheduledFor uw) d) eqn:S;
    [|reflexivity].
  exfalso. rewrite <- Bool.not_true_iff_false in E. apply E.
  apply existsb_exists.
  exists (UserWorkoutListed.mk uw
            (JSMap.get (UserWorkout.workoutId uw) (workouts s))).
  split.
  - apply (in_map (fun uw0 =>
                     UserWorkoutListed.mk uw0
                       (JSMap.get (UserWorkout.workoutId uw0) (workouts s)))).
    apply filter_In. split.
    + now apply JSMapFacts.values_In with (k := k).
    + now apply Z.eqb_eq.
  - rewrite same_workout_same_day_split, S, Hw, Z.eqb_refl. reflexivity.
Qed.

Lemma attainable_assignments s : attainable s -> assignments_in_order s.
Proof.
  induction 1 as [tUser tPet | patch s s' A IH W].
  - unfold assignments_in_order.
    rewrite (proj1 (storage_userWorkouts tUser tPet)).
    split; [intros k uw []|intros k1 k2 uw1 uw2 []].
  - destruct IH as [Flags Days].
    pose proof (attainable_ids s A) as (_ & _ & _ & (Ka & Ca) & _).
    unfold assignments_in_order. write_cases W; try (split; assumption).
    + destruct (keys_next (userWorkouts s) (userWorkoutIdCounter s)
                  (UserWorkout.mk (userWorkoutIdCounter s) userId workoutId
                     false scheduledFor None) Ka Ca) as [G _].
      split.
      * intros k uw H. apply JSMapFacts.In_set in H.
        destruct H as [[= -> ->]|H]; [|exact (Flags _ _ H)].
        cbn. split; [discriminate | congruence].
      * intros k1 k2 uw1 uw2 H1 H2 Hne Hu Hw.
        apply JSMapFacts.In_set in H1, H2.
        destruct H1 as [[= -> ->]|H1], H2 as [[= -> ->]|H2].
        -- congruence.
        -- rewrite same_calendar_day_sym. cbn in *.
           now apply (guard_passed s userId workoutId scheduledFor k2 uw2).
        -- cbn in *.
           now apply (guard_passed s userId workoutId scheduledFor k1 uw1).
        -- now apply (Days k1 k2).
    + pose proof (JSMapFacts.get_In _ _ _ Got) as Hin.
      split.
      * intros k uw0 H. apply JSMapFacts.In_set in H.
        destruct H as [[= -> ->]|H]; [|exact (Flags _ _ H)].
        cbn. split; [discriminate | reflexivity].
      * intros k1 k2 uw1 uw2 H1 H2 Hne Hu Hw.
        apply JSMapFacts.In_set in H1, H2.
        destruct H1 as [[= -> ->]|H1], H2 as [[= -> ->]|H2].
        -- congruence.
        -- now apply (Days id k2 uw uw2).
        -- now apply (Days k1 id uw1 uw).
        -- now apply (Days k1 k2).
Qed.

Lemma assignments_stay_refl s : assignments_stay s s.
Proof. intros id uw G. exists uw. repeat split; assumption. Qed.

Lemma assignments_stay_trans a b c :
  assignments_stay a b -> assignments_stay b c -> assignments_stay a c.
Proof.
  intros Hab Hbc id uw G.
  destruct (Hab id uw G) as (u1 & G1 & E1 & E2 & E3 & E4 & F1).
  destruct (Hbc id u1 G1) as (u2 & G2 & D1 & D2 & D3 & D4 & F2).
  exists u2. split; [exact G2|]. do 4 (split; [congruence|]).
  intros Done. specialize (F1 Done). subst u1. now apply F2.
Qed.

Lemma assignments_stay_write patch s s' :
  attainable s -> write patch s s' -> assignments_stay s s'.
Proof.
  intros A W.
  pose proof (attainable_ids s A) as (_ & _ & _ & (Ka & Ca) & _).
  unfold assignments_stay. write_cases W; intros id' uw' G;
    try solve [exists uw'; repeat split; assumption].
  - destruct (keys_next (userWorkouts s) (userWorkoutIdCounter s)
                (UserWorkout.mk (userWorkoutIdCounter s) userId workoutId
                   false scheduledFor None) Ka Ca) as [G0 _].
    exists uw'. rewrite JSMapFacts.get_set_other by congruence.
    repeat split; assumption.
  - destruct (Z.eq_dec id' id) as [->|Hne].
    + rewrite JSMapFacts.get_set_same. rewrite Got in G. injection G as ->.
      eexists. split; [reflexivity|]. cbn. repeat split. congruence.
    + rewrite JSMapFacts.get_set_other by assumption.
      exists uw'. repeat split; assumption.
Qed.

End Assignments.

(** X8.  Through any sequence of requests an assignment stays in the store
    under the same id, for the same user, template and date; and one that
    is completed stays exactly as it is, its completion time included. *)
Theorem assignments_are_kept (s : MemStorage) (reqs : list Request)
    (id : Z) (uw : UserWorkout.t) :
  reachable s ->
  evalState (getUserWorkout id) s = Some uw ->
  exists uw',
    evalState (getUserWorkout id) (serve reqs s) = Some uw'
    /\ UserWorkout.id uw' = UserWorkout.id uw
    /\ UserWorkout.userId uw' = UserWorkout.userId uw
    /\ UserWorkout.workoutId uw' = UserWorkout.workoutId uw
    /\ UserWorkout.scheduledFor uw' = UserWorkout.scheduledFor uw
    /\ (UserWorkout.completed uw = true -> uw' = uw).
Proof.
  intros R G. unfold evalState in *. rewrite run_getUserWorkout in *.
  cbn [fst] in *.
  exact (serve_lift_any assignments_stay assignments_stay_refl
           assignments_stay_trans assignments_stay_write reqs s R id uw G).
Qed.

(** An assignment completed at noon, then asked for again in the evening
    of the next day. *)
Lemma assignments_are_kept_witness :
  let s :=
    serve [PostUsersWorkouts (Num 1) (ask_strength noon);
           PostUserWorkoutsComplete (Num 1) noon] booted in
  evalState (getUserWorkout 1)
    (serve [PostUserWorkoutsComplete (Num 1) jan16_evening] s)
  = Some (UserWorkout.mk 1 1 2 true noon (Some noon)).
Proof.
  intros s.
  assert (G : evalState (getUserWorkout 1) s
              = Some (UserWorkout.mk 1 1 2 true noon (Some noon))).
  { vm_compute. reflexivity. }
  destruct (assignments_are_kept s
              [PostUserWorkoutsComplete (Num 1) jan16_evening] 1 _
              (reachable_serve _ booted (reachable_boot noon noon)) G)
    as (uw' & G' & _ & _ & _ & _ & Frozen).
  rewrite G'. f_equal. now apply Frozen.
Defined.

(** X9.  In every store that the server can be in, an assignment has its
    completed flag set exactly when it has a completion time, and no user
    has two assignments of the same template on the same calendar day.
    The guard does not hold back a date that is not valid: with such a
    date, a request for a template that exists always creates a new
    assignment. *)
Theorem no_double_booking (s : MemStorage) :
  reachable s ->
  (forall id uw,
      evalState (getUserWorkout id) s = Some uw ->
      (UserWorkout.completed uw = true <-> UserWorkout.completedAt uw <> None))
  /\ (forall id1 id2 uw1 uw2,
        evalState (getUserWorkout id1) s = Some uw1 ->
        evalState (getUserWorkout id2) s = Some uw2 ->
        UserWorkout.userId uw1 = UserWorkout.userId uw2 ->
        UserWorkout.workoutId uw1 = UserWorkout.workoutId uw2 ->
        same_calendar_day (UserWorkout.scheduledFor uw1)
          (UserWorkout.scheduledFor uw2) = true ->
        id1 = id2)
  /\ (forall userId workoutId workout,
        0 < workoutId ->
        evalState (getWorkout workoutId) s = Some workout ->
        evalState
          (post_users_workouts (Num userId)
             (ScheduleBody.mk (JInt workoutId) (Some InvalidDate))) s
        = status_json 201
            (OfUserWorkout
               (Some (UserWorkout.mk (userWorkoutIdCounter s) userId
                        workoutId false InvalidDate None)))).
Proof.
  intros R. apply reachable_attainable in R.
  pose proof (attainable_assignments s R) as [Flags Days].
  split; [|split].
  - intros id uw G. unfold evalState in G. rewrite run_getUserWorkout in G.
    cbn [fst] in G. apply JSMapFacts.get_In in G. exact (Flags _ _ G).
  - intros id1 id2 uw1 uw2 G1 G2 Hu Hw Same. unfold evalState in G1, G2.
    rewrite run_getUserWorkout in G1, G2. cbn [fst] in G1, G2.
    apply JSMapFacts.get_In in G1, G2.
    destruct (Z.eq_dec id1 id2) as [|Hne]; [assumption|].
    rewrite (Days id1 id2 uw1 uw2 G1 G2 Hne Hu Hw) in Same. discriminate.
  - intros userId workoutId workout Hpos W. unfold evalState in W.
    rewrite run_getWorkout in W. cbn [fst] in W. unfold evalState at 1.
    rewrite (run_post_users_workouts userId workoutId InvalidDate s workout
               Hpos W).
    cbv zeta.
    assert (E : forall l,
               existsb (same_workout_same_day workoutId InvalidDate) l = false).
    { induction l as [|[uw w] l IH]; [reflexivity|]. cbn [existsb].
      rewrite IH, same_workout_same_day_split. unfold same_calendar_day.
      cbn [getDate]. rewrite (strict_eq_sym _ NaN). cbn.
      now rewrite andb_false_r. }
    now rewrite E.
Qed.

(** Two assignments of the strength training on different days, and a
    request with a date that does not parse. *)
Lemma no_double_booking_witness :
  let s :=
    serve [PostUsersWorkouts (Num 1) (ask_strength jan15_morning);
           PostUsersWorkouts (Num 1) (ask_strength jan16_morning);
           PostUsersWorkouts (Num 1) (ask_strength jan16_evening)] booted in
  status
    (evalState
       (post_users_workouts (Num 1)
          (ScheduleBody.mk (JInt 2) (Some InvalidDate))) s) = 201.
Proof.
  intros s.
  destruct (no_double_booking s
              (reachable_serve _ booted (reachable_boot noon noon)))
    as (_ & _ & Invalid).
  rewrite (Invalid 1 2
             (Workout.mk 2 "Strength Training"
                "Build muscle and increase strength" 25 110 "Hard" "Strength"));
    [reflexivity | lia | vm_compute; reflexivity].
Defined.

(** ** Templates and exercises *)

Section Templates.
Implicit Types (s : MemStorage).

Lemma storage_exercises tUser tPet :
  exercises (storage tUser tPet) = exercises (execState initializeWorkouts blank).
Proof. vm_compute. reflexivity. Qed.

Lemma attainable_exercises s :
  attainable s -> exercises s = exercises (execState initializeWorkouts blank).
Proof.
  induction 1 as [tUser tPet | patch s s' A IH W].
  - apply storage_exercises.
  - write_cases W; exact IH.
Qed.

(** Insertion sort: a permutation, in non-decreasing order of the key, and
    stable. *)
Lemma sort_insert_perm {A} (key : A -> Z) x l :
  Permutation (x :: l) (sort_insert key x l).
Proof.
  induction l as [|y l IH]; cbn; [reflexivity|].
  destruct (key x <=? key y); [reflexivity|].
  rewrite perm_swap. now apply perm_skip.
Qed.

Lemma sort_by_perm {A} (key : A -> Z) l : Permutation l (sort_by key l).
Proof.
  induction l as [|x l IH]; cbn; [reflexivity|].
  rewrite <- sort_insert_perm. now apply perm_skip.
Qed.

Lemma sort_insert_sorted {A} (key : A -> Z) x l :
  StronglySorted (fun a b => key a <= key b) l ->
  StronglySorted (fun a b => key a <= key b) (sort_insert key x l).
Proof.
  induction 1 as [|y l Hl IH Hy]; cbn.
  - repeat constructor.
  - destruct (Z.leb_spec (key x) (key y)) as [Hle|Hgt].
    + constructor; [now constructor|].
      constructor; [assumption|].
      eapply Forall_impl; [|exact Hy]. cbv beta. intros. lia.
    + constructor; [assumption|].
      rewrite <- (sort_insert_perm key x l). constructor; [lia | assumption].
Qed.

Lemma sort_by_sorted {A} (key : A -> Z) l :
  StronglySorted (fun a b => key a <= key b) (sort_by key l).
Proof.
  induction l as [|x l IH]; cbn; [constructor|].
  now apply sort_insert_sorted.
Qed.

Lemma sort_insert_stable {A} (key : A -> Z) o x l :
  filter (fun a => key a =? o) (sort_insert key x l)
  = filter (fun a => key a =? o) (x :: l).
Proof.
  induction l as [|y l IH]; [reflexivity|].
  cbn [sort_insert]. destruct (Z.leb_spec (key x) (key y)) as [Hle|Hgt];
    [reflexivity|].
  cbn [filter] in *. rewrite IH.
  destruct (Z.eqb_spec (key x) o), (Z.eqb_spec (key y) o); try reflexivity.
  lia.
Qed.

Lemma sort_by_stable {A} (key : A -> Z) o l :
  filter (fun a => key a =? o) (sort_by key l)
  = filter (fun a => key a =? o) l.
Proof.
  induction l as [|x l IH]; [reflexivity|].
  cbn [sort_by]. rewrite sort_insert_stable. cbn [filter]. now rewrite IH.
Qed.

Lemma run_getExercisesByWorkoutId workoutId s :
  runState (getExercisesByWorkoutId workoutId) s
  = (sort_by Exercise.order
       (filter (fun exercise => Exercise.workoutId exercise =? workoutId)
          (JSMap.values (exercises s))), s).
Proof. reflexivity. Qed.

Lemma run_getWorkoutWithExercises workoutId s :
  runState (getWorkoutWithExercises workoutId) s
  = (match JSMap.get workoutId (workouts s) with
     | None => None
     | Some workout =>
         Some (WorkoutWithExercises.mk workout
                 (evalState (getExercisesByWorkoutId workoutId) s))
     end, s).
Proof.
  unfold getWorkoutWithExercises. rewrite run_bind, run_getWorkout.
  cbn [fst snd]. now destruct (JSMap.get workoutId (workouts s)).
Qed.

End Templates.

(** X10.  Whatever the store, [getExercisesByWorkoutId] returns exactly the
    stored exercises of that template (a permutation of them), in
    non-decreasing order of their [order] field, and exercises that have
    the same [order] come in the order in which they were created.
    [getWorkoutWithExercises] returns [undefined] exactly when the template
    does not exist, which the route answers with 404. *)
Theorem exercises_come_sorted (s : MemStorage) (workoutId : Z) :
  let stored :=
    filter (fun exercise => Exercise.workoutId exercise =? workoutId)
      (JSMap.values (exercises s)) in
  let listed := evalState (getExercisesByWorkoutId workoutId) s in
  Permutation stored listed
  /\ StronglySorted (fun a b => Exercise.order a <= Exercise.order b) listed
  /\ (forall exercise,
        In exercise listed <->
        In exercise (JSMap.values (exercises s))
        /\ Exercise.workoutId exercise = workoutId)
  /\ (forall order,
        filter (fun exercise => Exercise.order exercise =? order) listed
        = filter (fun exercise => Exercise.order exercise =? order) stored)
  /\ (evalState (getWorkoutWithExercises workoutId) s = None
      <-> evalState (getWorkout workoutId) s = None)
  /\ (evalState (getWorkout workoutId) s = None ->
      evalState (get_workouts_exercises (Num workoutId)) s
      = (404, FetchedMessage "Workout not found")).
Proof.
  intros stored listed. subst stored listed. unfold evalState.
  rewrite run_getExercisesByWorkoutId, run_getWorkoutWithExercises,
    run_getWorkout.
  cbn [fst]. split; [apply sort_by_perm|]. split; [apply sort_by_sorted|].
  split; [|split; [|split]].
  - intros e. rewrite <- (sort_by_perm Exercise.order), filter_In, Z.eqb_eq.
    reflexivity.
  - intros o. apply sort_by_stable.
  - destruct (JSMap.get workoutId (workouts s)); split; congruence.
  - intros G. unfold get_workouts_exercises. run.
    rewrite run_getWorkoutWithExercises. now rewrite G.
Qed.

(** X11.  No request creates, changes or removes a workout template or an
    exercise: in every store that the server can be in the templates are
    the three samples and the exercises the nine samples, so a template is
    found exactly under the ids 1, 2 and 3, with positive calories and
    duration, and each template has three exercises, in the order 1, 2,
    3. *)
Theorem templates_never_change (s : MemStorage) :
  reachable s ->
  evalState getWorkouts s
  = [Workout.mk 1 "Morning Cardio" "Energizing cardio to start your day"
       20 120 "Moderate" "Cardio";
     Workout.mk 2 "Strength Training" "Build muscle and increase strength"
       25 110 "Hard" "Strength";
     Workout.mk 3 "Evening Yoga" "Gentle stretching to end your day"
       15 80 "Easy" "Yoga"]
  /\ exercises s = exercises (execState initializeWorkouts blank)
  /\ (forall id,
        evalState (getWorkout id) s <> None <-> 1 <= id <= 3)
  /\ (forall id workout,
        evalState (getWorkout id) s = Some workout ->
        Workout.id workout = id
        /\ 0 < Workout.calories workout /\ 0 < Workout.duration workout
        /\ map Exercise.order (evalState (getExercisesByWorkoutId id) s)
           = [1; 2; 3]).
Proof.
  intros R. apply reachable_attainable in R.
  pose proof (attainable_consistent s R) as C.
  pose proof (attainable_exercises s R) as E.
  unfold evalState. split; [|split; [exact E|split]].
  - cbn. now rewrite (workouts_fixed s C), sample_workouts.
  - intros id. rewrite run_getWorkout. cbn [fst].
    rewrite (workouts_fixed s C), sample_workouts. cbn [JSMap.get].
    destruct (Z.eqb_spec 1 id); [split; [lia | discriminate]|].
    destruct (Z.eqb_spec 2 id); [split; [lia | discriminate]|].
    destruct (Z.eqb_spec 3 id); [split; [lia | discriminate]|].
    split; [congruence | lia].
  - intros id workout G. rewrite run_getWorkout in G. cbn [fst] in G.
    destruct (consistent_workout _ _ _ C G) as (Hid & Hc & Hd).
    do 3 (split; [assumption|]).
    rewrite run_getExercisesByWorkoutId, E. cbn [fst].
    rewrite (workouts_fixed s C), sample_workouts in G. cbn [JSMap.get] in G.
    destruct (Z.eqb_spec 1 id) as [<-|_]; [vm_compute; reflexivity|].
    destruct (Z.eqb_spec 2 id) as [<-|_]; [vm_compute; reflexivity|].
    destruct (Z.eqb_spec 3 id) as [<-|_]; [vm_compute; reflexivity|].
    discriminate.
Qed.

(** The templates after a registration and a scheduling. *)
Lemma templates_never_change_witness :
  map Workout.calories
    (evalState getWorkouts
       (serve [PostUsers (Some (InsertUser.mk "ana" "secret")) noon;
               PostUsersWorkouts (Num 2) (ask_strength noon)] booted))
  = [120; 110; 80].
Proof.
  rewrite (proj1 (templates_never_change _
                    (reachable_serve
                       [PostUsers (Some (InsertUser.mk "ana" "secret")) noon;
                        PostUsersWorkouts (Num 2) (ask_strength noon)]
                       booted (reachable_boot noon noon)))).
  reflexivity.
Defined.

(** A template id that does not exist, at start-up. *)
Lemma exercises_come_sorted_witness :
  evalState (get_workouts_exercises (Num 9)) booted
  = (404, FetchedMessage "Workout not found").
Proof.
  apply (proj2 (proj2 (proj2 (proj2 (proj2 (exercises_come_sorted booted 9)))))).
  vm_compute. reflexivity.
Defined.

(** ** The assignments of a user *)

Section Listing.
Implicit Types (s : MemStorage).

Lemma map_values_keys {V} (f : V -> Z) (m : JSMap.t V) :
  (forall k v, In (k, v) m -> f v = k) ->
  map f (JSMap.values m) = JSMap.keys m.
Proof.
  unfold JSMap.values, JSMap.keys.
  induction m as [|[k v] m IH]; intros H; cbn; [reflexivity|].
  rewrite (H k v) by now left. f_equal. apply IH.
  intros k' v' Hin. apply H. now right.
Qed.

Lemma seq_sorted a n : StronglySorted Z.lt (map Z.of_nat (seq a n)).
Proof.
  revert a. induction n as [|n IH]; intros a; cbn; constructor.
  - apply IH.
  - apply Forall_forall. intros z Hz. apply in_map_iff in Hz.
    destruct Hz as (k & <- & Hk). apply in_seq in Hk. lia.
Qed.

Lemma sorted_filter_map {A} (f : A -> Z) (p : A -> bool) (l : list A) :
  StronglySorted Z.lt (map f l) -> StronglySorted Z.lt (map f (filter p l)).
Proof.
  induction l as [|x l IH]; cbn; intros H; [constructor|].
  inversion H as [|? ? Hl Hx]; subst.
  destruct (p x); cbn; [|auto].
  constructor; [auto|].
  apply Forall_forall. intros z Hz. apply in_map_iff in Hz.
  destruct Hz as (y & <- & Hy). apply filter_In in Hy.
  rewrite Forall_forall in Hx. apply Hx. apply in_map. tauto.
Qed.

End Listing.

(** X12.  In every store that the server can be in, what
    [GET /api/users/:userId/workouts] answers is the list of exactly the
    stored assignments of that user, each with its template (the template
    that [workout!] asserts is never [undefined]), in increasing order of
    their ids, which is the order of creation. *)
Theorem listing_is_complete (s : MemStorage) (userId : Z) :
  reachable s ->
  let listed := evalState (getUserWorkoutsByUserId userId) s in
  evalState (get_users_workouts (Num userId)) s
  = (200, FetchedUserWorkouts listed)
  /\ (forall item,
        In item listed ->
        UserWorkout.userId (UserWorkoutListed.base item) = userId
        /\ evalState
             (getUserWorkout (UserWorkout.id (UserWorkoutListed.base item))) s
           = Some (UserWorkoutListed.base item)
        /\ exists workout,
            UserWorkoutListed.workout item = Some workout
            /\ Workout.id workout
               = UserWorkout.workoutId (UserWorkoutListed.base item))
  /\ (forall id uw,
        evalState (getUserWorkout id) s = Some uw ->
        UserWorkout.userId uw = userId ->
        In uw (map UserWorkoutListed.base listed))
  /\ StronglySorted Z.lt
       (map (fun item => UserWorkout.id (UserWorkoutListed.base item)) listed).
Proof.
  intros R listed. subst listed. apply reachable_attainable in R.
  pose proof (attainable_consistent s R) as C.
  pose proof (attainable_ids s R) as (_ & _ & _ & (Ka & _) & _).
  unfold evalState, get_users_workouts. run.
  rewrite ?run_getUserWorkoutsByUserId. cbn [fst].
  split; [reflexivity|]. split; [|split].
  - intros item Hin. apply in_map_iff in Hin.
    destruct Hin as (uw & <- & Hin). apply filter_In in Hin.
    destruct Hin as [Hin Hu]. apply Z.eqb_eq in Hu.
    cbn [UserWorkoutListed.base UserWorkoutListed.workout].
    apply JSMapFacts.In_values in Hin. destruct Hin as [k Hin].
    destruct (userWorkouts_rows s C _ _ Hin) as (Hid & _ & Hw).
    split; [exact Hu|]. split.
    + rewrite run_getUserWorkout. cbn [fst]. rewrite Hid.
      apply JSMapFacts.In_get; [|assumption].
      rewrite Ka. apply NoDup_ids_below.
    + destruct (JSMap.get (UserWorkout.workoutId uw) (workouts s))
        as [w|] eqn:G; [|congruence].
      exists w. split; [reflexivity|].
      now destruct (consistent_workout _ _ _ C G).
  - intros id uw G Hu. rewrite run_getUserWorkout in G. cbn [fst] in G.
    rewrite map_map. cbn [UserWorkoutListed.base]. rewrite map_id.
    apply filter_In. split; [|now apply Z.eqb_eq].
    apply JSMapFacts.get_In in G. now apply JSMapFacts.values_In with (k := id).
  - rewrite map_map. cbn [UserWorkoutListed.base].
    apply sorted_filter_map.
    rewrite (map_ext _ UserWorkout.id) by reflexivity.
    rewrite (map_values_keys UserWorkout.id (userWorkouts s)).
    + rewrite Ka. apply seq_sorted.
    + intros k v Hin. now destruct (userWorkouts_rows s C _ _ Hin).
Qed.

(** The two assignments of the default user, of which the first is
    completed. *)
Lemma listing_is_complete_witness :
  let s :=
    serve [PostUsersWorkouts (Num 1) (ask_strength jan15_morning);
           PostUsersWorkouts (Num 1) (ask_strength jan16_morning);
           PostUserWorkoutsComplete (Num 1) noon] booted in
  map (fun item => UserWorkout.id (UserWorkoutListed.base item))
    (evalState (getUserWorkoutsByUserId 1) s) = [1; 2]
  /\ StronglySorted Z.lt
       (map (fun item => UserWorkout.id (UserWorkoutListed.base item))
          (evalState (getUserWorkoutsByUserId 1) s)).
Proof.
  intros s. split; [vm_compute; reflexivity|].
  exact (proj2 (proj2 (proj2
           (listing_is_complete s 1
              (reachable_serve _ booted (reachable_boot noon noon)))))).
Defined.

(** ** Care actions in a row *)

Section CareInARow.
Implicit Types (s : MemStorage).

(** One care request on a pet of a consistent store. *)
Lemma feed_once s id pet now :
  consistent s -> JSMap.get id (pets s) = Some pet ->
  execState (handle (PostPetsFeed (Num id) now)) s
  = set_pets (JSMap.set id (spread pet (feed_updates pet now))) s.
Proof.
  intros C G. destruct (consistent_get_pet _ _ _ C G) as [_ (Hh & Hu & Ha)].
  unfold execState. cbn [handle]. rewrite run_post_pets_feed, G. cbn [snd].
  rewrite ensure_bounds_capped; [reflexivity | cbn; lia..].
Qed.

Lemma play_once s id pet now :
  consistent s -> JSMap.get id (pets s) = Some pet ->
  execState (handle (PostPetsPlay (Num id) now)) s
  = set_pets (JSMap.set id (spread pet (play_updates pet now))) s.
Proof.
  intros C G. destruct (consistent_get_pet _ _ _ C G) as [_ (Hh & Hu & Ha)].
  unfold execState. cbn [handle]. rewrite run_post_pets_play, G. cbn [snd].
  rewrite ensure_bounds_capped; [reflexivity | cbn; lia..].
Qed.

Lemma groom_once s id pet now :
  consistent s -> JSMap.get id (pets s) = Some pet ->
  execState (handle (PostPetsGroom (Num id) now)) s
  = set_pets (JSMap.set id (spread pet (groom_updates pet now))) s.
Proof.
  intros C G. destruct (consistent_get_pet _ _ _ C G) as [_ (Hh & Hu & Ha)].
  unfold execState. cbn [handle]. rewrite run_post_pets_groom, G. cbn [snd].
  rewrite ensure_bounds_capped; [reflexivity | cbn; lia..].
Qed.

End CareInARow.

(** X13.  In every store that the server can be in, [n] feeds in a row
    bring the hunger of a pet to min(hunger + 20 n, 100) and leave health
    and happiness alone; [n] rounds of play bring happiness to
    min(happiness + 15 n, 100) and hunger to max(hunger - 5 n, 0) and leave
    health alone; [n] groomings bring health to min(health + 10 n, 100) and
    leave hunger and happiness alone.  So five feeds always fill the
    hunger, and xp and level are what they were. *)
Theorem care_in_a_row (n : nat) (s : MemStorage) (id : Z) (pet : Pet.t)
    (now : Date) :
  reachable s ->
  evalState (getPet id) s = Some pet ->
  (exists fed,
      evalState (getPet id) (serve (repeat (PostPetsFeed (Num id) now) n) s)
      = Some fed
      /\ Pet.hunger fed = Z.min (Pet.hunger pet + 20 * Z.of_nat n) 100
      /\ Pet.health fed = Pet.health pet
      /\ Pet.happiness fed = Pet.happiness pet
      /\ Pet.xp fed = Pet.xp pet /\ Pet.level fed = Pet.level pet)
  /\ (exists played,
        evalState (getPet id) (serve (repeat (PostPetsPlay (Num id) now) n) s)
        = Some played
        /\ Pet.happiness played
           = Z.min (Pet.happiness pet + 15 * Z.of_nat n) 100
        /\ Pet.hunger played = Z.max (Pet.hunger pet - 5 * Z.of_nat n) 0
        /\ Pet.health played = Pet.health pet
        /\ Pet.xp played = Pet.xp pet /\ Pet.level played = Pet.level pet)
  /\ (exists groomed,
        evalState (getPet id) (serve (repeat (PostPetsGroom (Num id) now) n) s)
        = Some groomed
        /\ Pet.health groomed = Z.min (Pet.health pet + 10 * Z.of_nat n) 100
        /\ Pet.hunger groomed = Pet.hunger pet
        /\ Pet.happiness groomed = Pet.happiness pet
        /\ Pet.xp groomed = Pet.xp pet /\ Pet.level groomed = Pet.level pet).
Proof.
  intros R G. unfold evalState in *. rewrite run_getPet in G. cbn [fst] in G.
  revert s pet R G. induction n as [|n IH]; intros s pet R G.
  - pose proof (reachable_consistent s R) as C.
    destruct (consistent_get_pet _ _ _ C G) as [_ (Hh & Hu & Ha)].
    cbn [repeat serve]. rewrite run_getPet, G. cbn [fst].
    repeat split; eexists; (split; [reflexivity|]);
      repeat split; try reflexivity; lia.
  - pose proof (reachable_consistent s R) as C.
    cbn [repeat serve]. repeat split.
    + pose proof (reachable_request s (PostPetsFeed (Num id) now) R) as R1.
      rewrite (feed_once s id pet now C G) in *.
      destruct (IH _ (spread pet (feed_updates pet now)) R1)
        as ((fed & Gf & E1 & E2 & E3 & E4 & E5) & _).
      { cbn [pets set_pets]. apply JSMapFacts.get_set_same. }
      exists fed. split; [exact Gf|]. cbn -[Z.min Z.max Z.mul Z.add Z.sub Z.of_nat] in E1, E2, E3, E4, E5.
      repeat split; try assumption. lia.
    + pose proof (reachable_request s (PostPetsPlay (Num id) now) R) as R1.
      rewrite (play_once s id pet now C G) in *.
      destruct (IH _ (spread pet (play_updates pet now)) R1)
        as (_ & (played & Gf & E1 & E2 & E3 & E4 & E5) & _).
      { cbn [pets set_pets]. apply JSMapFacts.get_set_same. }
      exists played. split; [exact Gf|]. cbn -[Z.min Z.max Z.mul Z.add Z.sub Z.of_nat] in E1, E2, E3, E4, E5.
      repeat split; try assumption; lia.
    + pose proof (reachable_request s (PostPetsGroom (Num id) now) R) as R1.
      rewrite (groom_once s id pet now C G) in *.
      destruct (IH _ (spread pet (groom_updates pet now)) R1)
        as (_ & _ & (groomed & Gf & E1 & E2 & E3 & E4 & E5)).
      { cbn [pets set_pets]. apply JSMapFacts.get_set_same. }
      exists groomed. split; [exact Gf|]. cbn -[Z.min Z.max Z.mul Z.add Z.sub Z.of_nat] in E1, E2, E3, E4, E5.
      repeat split; try assumption. lia.
Qed.

(** Twenty rounds of play with the default pet empty its hunger. *)
Lemma care_in_a_row_witness :
  exists played,
    evalState (getPet 1) (serve (repeat (PostPetsPlay (Num 1) noon) 20) booted)
    = Some played
    /\ Pet.hunger played = 0 /\ Pet.happiness played = 100.
Proof.
  destruct (care_in_a_row 20 booted 1
              (Pet.mk 1 1 "Buddy" "cat" 100 100 100 1 0 noon noon noon) noon
              (reachable_boot noon noon) eq_refl)
    as (_ & (played & G & Ea & Eu & _) & _).
  exists played. split; [exact G|]. rewrite Ea, Eu. split; reflexivity.
Defined.

Section CareOrder.
Implicit Types (s : MemStorage).

Lemma set_set {V} (m : JSMap.t V) k v1 v2 :
  JSMap.set k v2 (JSMap.set k v1 m) = JSMap.set k v2 m.
Proof.
  induction m as [|[k' v'] m IH]; cbn.
  - now rewrite Z.eqb_refl.
  - destruct (k' =? k) eqn:E; cbn.
    + now rewrite Z.eqb_refl.
    + now rewrite E, IH.
Qed.

Lemma set_pets_twice s k p1 p2 :
  set_pets (JSMap.set k p2) (set_pets (JSMap.set k p1) s)
  = set_pets (JSMap.set k p2) s.
Proof. unfold set_pets. cbn. now rewrite set_set. Qed.

Lemma consistent_after_care s id p :
  consistent s -> Pet.id p = id -> in_bounds p ->
  consistent (set_pets (JSMap.set id p) s)
  /\ JSMap.get id (pets (set_pets (JSMap.set id p) s)) = Some p.
Proof.
  intros C Hid Hb. split; [now apply consistent_set_pets|].
  cbn [pets set_pets]. apply JSMapFacts.get_set_same.
Qed.

End CareOrder.

(** X14.  In every store that the server can be in, feeding and grooming a
    pet give the same store in either order, and so do playing and
    grooming.  Feeding and playing do not: feeding first leaves the hunger
    at min(hunger + 20, 100) - 5, playing first at
    min(max(hunger - 5, 0) + 20, 100), which is never less and is the same
    exactly when the hunger was between 5 and 80. *)
Theorem care_order (s : MemStorage) (id : Z) (pet : Pet.t) (t1 t2 : Date) :
  reachable s ->
  evalState (getPet id) s = Some pet ->
  serve [PostPetsFeed (Num id) t1; PostPetsGroom (Num id) t2] s
  = serve [PostPetsGroom (Num id) t2; PostPetsFeed (Num id) t1] s
  /\ serve [PostPetsPlay (Num id) t1; PostPetsGroom (Num id) t2] s
     = serve [PostPetsGroom (Num id) t2; PostPetsPlay (Num id) t1] s
  /\ exists fed_first played_first,
      evalState (getPet id)
        (serve [PostPetsFeed (Num id) t1; PostPetsPlay (Num id) t2] s)
      = Some fed_first
      /\ evalState (getPet id)
           (serve [PostPetsPlay (Num id) t1; PostPetsFeed (Num id) t2] s)
         = Some played_first
      /\ Pet.hunger fed_first = Z.min (Pet.hunger pet + 20) 100 - 5
      /\ Pet.hunger played_first
         = Z.min (Z.max (Pet.hunger pet - 5) 0 + 20) 100
      /\ Pet.hunger fed_first <= Pet.hunger played_first
      /\ (Pet.hunger fed_first = Pet.hunger played_first
          <-> 5 <= Pet.hunger pet <= 80)
      /\ Pet.happiness fed_first = Pet.happiness played_first
      /\ Pet.health fed_first = Pet.health played_first.
Proof.
  intros R G. unfold evalState in *. rewrite run_getPet in G. cbn [fst] in G.
  pose proof (reachable_consistent s R) as C.
  destruct (consistent_get_pet _ _ _ C G) as [Hid (Hh & Hu & Ha)].
  assert (Bf : forall t, in_bounds (spread pet (feed_updates pet t))).
  { intros t. unfold in_bounds. cbn -[Z.min Z.max]. lia. }
  assert (Bp : forall t, in_bounds (spread pet (play_updates pet t))).
  { intros t. unfold in_bounds. cbn -[Z.min Z.max]. lia. }
  assert (Bg : forall t, in_bounds (spread pet (groom_updates pet t))).
  { intros t. unfold in_bounds. cbn -[Z.min Z.max]. lia. }
  destruct (consistent_after_care s id (spread pet (feed_updates pet t1))
              C Hid (Bf t1)) as [Cf1 Gf1].
  destruct (consistent_after_care s id (spread pet (play_updates pet t1))
              C Hid (Bp t1)) as [Cp1 Gp1].
  destruct (consistent_after_care s id (spread pet (groom_updates pet t2))
              C Hid (Bg t2)) as [Cg2 Gg2].
  cbn [serve].
  rewrite (feed_once s id pet t1 C G), (play_once s id pet t1 C G),
    (groom_once s id pet t2 C G).
  rewrite (groom_once _ id _ t2 Cf1 Gf1), (feed_once _ id _ t1 Cg2 Gg2),
    (groom_once _ id _ t2 Cp1 Gp1), (play_once _ id _ t1 Cg2 Gg2),
    (play_once _ id _ t2 Cf1 Gf1), (feed_once _ id _ t2 Cp1 Gp1).
  rewrite !set_pets_twice, !run_getPet. cbn [fst pets set_pets].
  rewrite !JSMapFacts.get_set_same.
  split; [reflexivity|]. split; [reflexivity|].
  eexists. eexists. split; [reflexivity|]. split; [reflexivity|].
  cbn -[Z.min Z.max]. repeat split; lia.
Qed.

(** The default pet at start-up, whose hunger is 100: fed and then played
    with it ends at 95, played with and then fed at 100. *)
Lemma care_order_witness :
  exists fed_first played_first,
    evalState (getPet 1)
      (serve [PostPetsFeed (Num 1) noon; PostPetsPlay (Num 1) noon] booted)
    = Some fed_first
    /\ evalState (getPet 1)
         (serve [PostPetsPlay (Num 1) noon; PostPetsFeed (Num 1) noon] booted)
       = Some played_first
    /\ Pet.hunger fed_first = 95 /\ Pet.hunger played_first = 100.
Proof.
  destruct (care_order booted 1
              (Pet.mk 1 1 "Buddy" "cat" 100 100 100 1 0 noon noon noon)
              noon noon (reachable_boot noon noon) eq_refl)
    as (_ & _ & a & b & Ga & Gb & Ea & Eb & _).
  exists a, b. split; [exact Ga|]. split; [exact Gb|].
  rewrite Ea, Eb. split; reflexivity.
Defined.

(** ** What a PATCH can do *)

Section PatchValidation.

Lemma optional_int_spec ok lo hi j :
  (forall z, ok z = true
             <-> lo <= z /\ match hi with Some hi => z <= hi | None => True end) ->
  (absent_or_within lo hi j ->
   optional (z_int ok) j = Some (supplied j))
  /\ (~ absent_or_within lo hi j -> optional (z_int ok) j = None).
Proof.
  intros Hok. unfold absent_or_within. split.
  - intros [->|(z & -> & Hz)]; [reflexivity|]. cbn.
    destruct (ok z) eqn:E; [reflexivity|].
    apply Hok in Hz. congruence.
  - intros N. destruct j as [|z|str|]; cbn; try reflexivity.
    + exfalso. apply N. now left.
    + destruct (ok z) eqn:E; [|reflexivity].
      exfalso. apply N. right. exists z. split; [reflexivity|].
      now apply Hok.
Qed.

Lemma min_max_spec z : min_max 0 100 z = true <-> 0 <= z /\ z <= 100.
Proof. unfold min_max. rewrite andb_true_iff. lia. Qed.

Lemma nonnegative_spec z : nonnegative z = true <-> 0 <= z /\ True.
Proof. unfold nonnegative. lia. Qed.

Lemma positive_spec z : positive z = true <-> 1 <= z /\ True.
Proof. unfold positive. lia. Qed.

Lemma optional_date_spec j :
  (j = JAbsent -> optional z_date j = Some None)
  /\ (j <> JAbsent -> optional z_date j = None).
Proof. split; [now intros ->|]. destruct j; cbn; congruence. Qed.

Lemma optional_enum_spec values j :
  (j = JAbsent -> optional (z_enum values) j = Some None)
  /\ (forall str, j = JStr str -> In str values ->
        optional (z_enum values) j = Some (Some str))
  /\ (j <> JAbsent -> (forall str, j = JStr str -> ~ In str values) ->
      optional (z_enum values) j = None).
Proof.
  split; [now intros ->|]. split.
  - intros str -> Hin. cbn -[existsb].
    destruct (existsb (String.eqb str) values) eqn:E; [reflexivity|].
    rewrite <- Bool.not_true_iff_false in E. exfalso. apply E.
    apply existsb_exists. exists str. split; [assumption|].
    apply String.eqb_refl.
  - intros N Hstr. destruct j as [| |str|]; cbn -[existsb]; try congruence.
    destruct (existsb (String.eqb str) values) eqn:E; [|reflexivity].
    apply existsb_exists in E. destruct E as (x & Hin & Heq).
    apply String.eqb_eq in Heq. subst x. now destruct (Hstr str eq_refl).
Qed.

(** A key either passes its check or does not. *)
Lemma absent_or_within_dec lo hi j :
  absent_or_within lo hi j \/ ~ absent_or_within lo hi j.
Proof.
  unfold absent_or_within. destruct j as [|z|str|].
  - left. now left.
  - destruct (Z_le_dec lo z) as [Hlo|Hlo].
    + destruct hi as [hi|].
      * destruct (Z_le_dec z hi) as [Hhi|Hhi].
        -- left. right. now exists z.
        -- right. intros [H|(z' & [= <-] & _ & H)]; [discriminate | lia].
      * left. right. now exists z.
    + right. intros [H|(z' & [= <-] & H & _)]; [discriminate | lia].
  - right. intros [H|(z' & H & _)]; discriminate.
  - right. intros [H|(z' & H & _)]; discriminate.
Qed.

(** The parse of an accepted body. *)
Lemma updateSchema_parse_accepted b :
  accepted_body b ->
  updateSchema_parse b
  = Some (PartialPet.mk None None None (supplied_text (PatchBody.type b))
            (supplied (PatchBody.health b)) (supplied (PatchBody.hunger b))
            (supplied (PatchBody.happiness b))
            (supplied (PatchBody.level b)) (supplied (PatchBody.xp b))
            None None None).
Proof.
  intros (Hh & Hu & Ha & Hx & Hl & Ht & Hf & Hp & Hg).
  unfold updateSchema_parse.
  rewrite (proj1 (optional_int_spec _ 0 (Some 100) _ min_max_spec) Hh),
    (proj1 (optional_int_spec _ 0 (Some 100) _ min_max_spec) Hu),
    (proj1 (optional_int_spec _ 0 (Some 100) _ min_max_spec) Ha),
    (proj1 (optional_int_spec _ 0 None _ nonnegative_spec) Hx),
    (proj1 (optional_int_spec _ 1 None _ positive_spec) Hl),
    (proj1 (optional_date_spec _) Hf), (proj1 (optional_date_spec _) Hp),
    (proj1 (optional_date_spec _) Hg).
  destruct Ht as [Ht|(species & Ht & Hin)].
  - rewrite (proj1 (optional_enum_spec _ _) Ht). now rewrite Ht.
  - rewrite (proj1 (proj2 (optional_enum_spec _ _)) species Ht Hin).
    now rewrite Ht.
Qed.

Lemma updateSchema_parse_rejected b :
  ~ accepted_body b -> updateSchema_parse b = None.
Proof.
  intros N. unfold updateSchema_parse.
  destruct (absent_or_within_dec 0 (Some 100) (PatchBody.health b)) as [Hh|Hh];
    [|now rewrite (proj2 (optional_int_spec _ 0 (Some 100) _ min_max_spec) Hh)].
  rewrite (proj1 (optional_int_spec _ 0 (Some 100) _ min_max_spec) Hh).
  destruct (absent_or_within_dec 0 (Some 100) (PatchBody.hunger b)) as [Hu|Hu];
    [|now rewrite (proj2 (optional_int_spec _ 0 (Some 100) _ min_max_spec) Hu)].
  rewrite (proj1 (optional_int_spec _ 0 (Some 100) _ min_max_spec) Hu).
  destruct (absent_or_within_dec 0 (Some 100) (PatchBody.happiness b))
    as [Ha|Ha];
    [|now rewrite (proj2 (optional_int_spec _ 0 (Some 100) _ min_max_spec) Ha)].
  rewrite (proj1 (optional_int_spec _ 0 (Some 100) _ min_max_spec) Ha).
  destruct (absent_or_within_dec 0 None (PatchBody.xp b)) as [Hx|Hx];
    [|now rewrite (proj2 (optional_int_spec _ 0 None _ nonnegative_spec) Hx)].
  rewrite (proj1 (optional_int_spec _ 0 None _ nonnegative_spec) Hx).
  destruct (absent_or_within_dec 1 None (PatchBody.level b)) as [Hl|Hl];
    [|now rewrite (proj2 (optional_int_spec _ 1 None _ positive_spec) Hl)].
  rewrite (proj1 (optional_int_spec _ 1 None _ positive_spec) Hl).
  destruct (optional (z_enum _) (PatchBody.type b)) as [t|] eqn:Et;
    [|reflexivity].
  destruct (optional z_date (PatchBody.lastFed b)) as [f|] eqn:Ef;
    [|reflexivity].
  destruct (optional z_date (PatchBody.lastPlayed b)) as [p|] eqn:Ep;
    [|reflexivity].
  destruct (optional z_date (PatchBody.lastGroomed b)) as [g|] eqn:Eg;
    [|reflexivity].
  exfalso. apply N. unfold accepted_body. do 5 (split; [assumption|]).
  split; [|split; [|split]].
  - destruct (PatchBody.type b) as [| |str|] eqn:T; cbn -[existsb] in Et;
      try discriminate; [now left|].
    right. exists str. split; [reflexivity|].
    destruct (existsb (String.eqb str) _) eqn:E; [|discriminate].
    apply existsb_exists in E. destruct E as (x & Hin & Heq).
    apply String.eqb_eq in Heq. now subst x.
  - destruct (PatchBody.lastFed b); cbn in Ef; congruence.
  - destruct (PatchBody.lastPlayed b); cbn in Ep; congruence.
  - destruct (PatchBody.lastGroomed b); cbn in Eg; congruence.
Qed.

End PatchValidation.

(** X15.  For a pet of a store that the server can be in,
    [PATCH /api/pets/:id] accepts a body exactly when health, hunger and
    happiness are missing or integers from 0 to 100, xp is missing or an
    integer that is not negative, level is missing or an integer of at
    least 1, type is missing or one of the five species, and none of
    lastFed, lastPlayed and lastGroomed is there (no JSON value is a date).
    Any other body is answered 400 and changes nothing.  An accepted body
    is answered 200 with the stored pet, in which every key of the body
    has the value of the body and everything else, id, owner, name and the
    three care times included, is as before. *)
Theorem patch_accepts_and_rejects (s : MemStorage) (id : Z) (pet : Pet.t)
    (b : PatchBody.t) :
  reachable s ->
  evalState (getPet id) s = Some pet ->
  (~ accepted_body b ->
   runState (patch_pets (Num id) b) s = (status_json 400 ZodErrors, s))
  /\ (accepted_body b ->
      let patched :=
        Pet.mk (Pet.id pet) (Pet.userId pet) (Pet.name pet)
          (override (Pet.type pet) (supplied_text (PatchBody.type b)))
          (override (Pet.health pet) (supplied (PatchBody.health b)))
          (override (Pet.hunger pet) (supplied (PatchBody.hunger b)))
          (override (Pet.happiness pet) (supplied (PatchBody.happiness b)))
          (override (Pet.level pet) (supplied (PatchBody.level b)))
          (override (Pet.xp pet) (supplied (PatchBody.xp b)))
          (Pet.lastFed pet) (Pet.lastPlayed pet) (Pet.lastGroomed pet) in
      runState (patch_pets (Num id) b) s
      = (json (OfPet (Some patched)), set_pets (JSMap.set id patched) s)).
Proof.
  intros R G. unfold evalState in G. rewrite run_getPet in G. cbn [fst] in G.
  pose proof (reachable_consistent s R) as C.
  destruct (consistent_get_pet _ _ _ C G) as [_ Hb].
  split.
  - intros N. now rewrite run_patch_pets, (updateSchema_parse_rejected b N).
  - intros Acc patched. subst patched.
    pose proof (updateSchema_parse_accepted b Acc) as P.
    rewrite run_patch_pets, P, G.
    destruct (pet_update_effect pet true _ (by_patch pet b _ P) Hb) as (-> & _).
    reflexivity.
Qed.

(** The default pet: a health of 101 is refused, a health of 40 together
    with the species fox is stored. *)
Lemma patch_accepts_and_rejects_witness :
  status
    (evalState
       (patch_pets (Num 1)
          (PatchBody.mk (JInt 101) JAbsent JAbsent JAbsent JAbsent JAbsent
             JAbsent JAbsent JAbsent)) booted) = 400
  /\ evalState
       (patch_pets (Num 1)
          (PatchBody.mk (JInt 40) JAbsent JAbsent JAbsent JAbsent (JStr "fox")
             JAbsent JAbsent JAbsent)) booted
     = json (OfPet (Some (Pet.mk 1 1 "Buddy" "fox" 40 100 100 1 0
                            noon noon noon))).
Proof.
  split.
  - unfold evalState.
    rewrite (proj1 (patch_accepts_and_rejects booted 1
                      (Pet.mk 1 1 "Buddy" "cat" 100 100 100 1 0 noon noon noon)
                      _ (reachable_boot noon noon) eq_refl)); [reflexivity|].
    intros (H & _). destruct H as [H|(z & [= <-] & _ & H)];
      [discriminate | cbn in H; lia].
  - unfold evalState.
    rewrite (proj2 (patch_accepts_and_rejects booted 1
                      (Pet.mk 1 1 "Buddy" "cat" 100 100 100 1 0 noon noon noon)
                      _ (reachable_boot noon noon) eq_refl)); [reflexivity|].
    unfold accepted_body, absent_or_within. cbn.
    repeat split; try (now left).
    + right. exists 40. repeat split; lia.
    + right. exists "fox". split; [reflexivity|]. tauto.
Defined.

(** ** The client's requests *)

Section ClientRequests.
Variable throws : Z -> bool.
Hypothesis passes_200 : throws 200 = false.
Implicit Types (s : MemStorage).

Lemma run_apiRequest request s :
  runState (apiRequest throws request) s
  = (if throws (status (fst (runState request s))) then Rejected
     else Fulfilled (fst (runState request s)),
     snd (runState request s)).
Proof.
  unfold apiRequest. run.
  destruct (throws (status (fst (runState request s)))); now run.
Qed.

(** The body that the client builds after a workout, when the sum for the
    xp is exact. *)
Lemma updatePetAfterWorkout_body_exact seen calories :
  0 <= Pet.xp seen -> 0 <= calories ->
  Pet.xp seen + xpGain calories <= 2 ^ 53 ->
  updatePetAfterWorkout_body seen calories
  = PatchBody.mk
      (JInt (Z.min (Pet.health seen + 5) 100))
      JAbsent
      (JInt (Z.min (Pet.happiness seen + 10) 100))
      (JInt (Pet.xp seen + xpGain calories))
      JAbsent JAbsent JAbsent JAbsent JAbsent.
Proof.
  intros Hx Hc Hs. pose proof (xpGain_nonneg _ Hc). pose proof Infinity_above.
  unfold updatePetAfterWorkout_body, JSON_number.
  rewrite js_add_exact by assumption.
  destruct (Z.leb_spec Infinity (Z.abs (Pet.xp seen + xpGain calories)));
    [lia | reflexivity].
Qed.

(** It passes the schema. *)
Lemma updatePetAfterWorkout_body_accepted seen calories :
  in_bounds seen -> 0 <= Pet.xp seen -> 0 <= calories ->
  Pet.xp seen + xpGain calories <= 2 ^ 53 ->
  accepted_body (updatePetAfterWorkout_body seen calories).
Proof.
  intros (Hh & _ & Ha) Hx Hc Hs. pose proof (xpGain_nonneg _ Hc).
  rewrite updatePetAfterWorkout_body_exact by assumption.
  unfold accepted_body, absent_or_within.
  cbn -[xpGain Z.min].
  split; [right; eexists; split; [reflexivity|lia]|].
  split; [now left|].
  split; [right; eexists; split; [reflexivity|lia]|].
  split; [right; eexists; split; [reflexivity|lia]|].
  split; [now left|]. split; [now left|]. tauto.
Qed.

(** A patch that is accepted, as the client's [apiRequest] sees it. *)
Lemma run_accepted_patch s id pet b :
  consistent s -> JSMap.get id (pets s) = Some pet -> accepted_body b ->
  let updates :=
    PartialPet.mk None None None (supplied_text (PatchBody.type b))
      (supplied (PatchBody.health b)) (supplied (PatchBody.hunger b))
      (supplied (PatchBody.happiness b))
      (supplied (PatchBody.level b)) (supplied (PatchBody.xp b))
      None None None in
  runState (apiRequest throws (patch_pets (Num id) b)) s
  = (Fulfilled (json (OfPet (Some (spread pet updates)))),
     set_pets (JSMap.set id (spread pet updates)) s).
Proof.
  intros C G Acc updates. subst updates.
  destruct (consistent_get_pet _ _ _ C G) as [_ Hb].
  pose proof (updateSchema_parse_accepted b Acc) as P.
  rewrite run_apiRequest, run_patch_pets, P, G.
  destruct (pet_update_effect pet true _ (by_patch pet b _ P) Hb) as (-> & _).
  cbn [fst snd status json]. now rewrite passes_200.
Qed.

End ClientRequests.

(** X16.  After a workout the pet provider patches the pet with values
    worked out from its own copy of the pet: happiness min(copy + 10, 100),
    health min(copy + 5, 100) and xp copy + Math.round(calories / 5).  Let
    the copy be within the bounds with an xp that is not negative, the
    calories a whole number from 0 to 2^47, the sum for the xp at most 2^53
    (so that JavaScript computes it exactly), and let the server have a pet
    under the copy's id.  Then the request is accepted, the mutation
    yields the stored pet and the xp gain, and the stored pet has these
    three values whatever the server had, every other field being the
    server's.  Sent a second time with the same copy, the request changes
    nothing more. *)
Theorem updatePetAfterWorkout_patches (throws : Z -> bool) (s : MemStorage)
    (seen pet : Pet.t) (calories : Z) :
  throws 200 = false ->
  reachable s ->
  evalState (getPet (Pet.id seen)) s = Some pet ->
  in_bounds seen -> 0 <= Pet.xp seen -> 0 <= calories <= 2 ^ 47 ->
  Pet.xp seen + xpGain calories <= 2 ^ 53 ->
  let patched :=
    Pet.mk (Pet.id pet) (Pet.userId pet) (Pet.name pet) (Pet.type pet)
      (Z.min (Pet.health seen + 5) 100) (Pet.hunger pet)
      (Z.min (Pet.happiness seen + 10) 100) (Pet.level pet)
      (Pet.xp seen + xpGain calories)
      (Pet.lastFed pet) (Pet.lastPlayed pet) (Pet.lastGroomed pet) in
  let s' := set_pets (JSMap.set (Pet.id seen) patched) s in
  runState (updatePetAfterWorkout throws (Some seen) calories) s
  = (Fulfilled (Some (OfPet (Some patched), xpGain calories)), s')
  /\ runState (updatePetAfterWorkout throws (Some seen) calories) s'
     = (Fulfilled (Some (OfPet (Some patched), xpGain calories)), s').
Proof.
  intros T R G Hb Hx [Hc _] Hs patched s'.
  unfold evalState in G. rewrite run_getPet in G. cbn [fst] in G.
  pose proof (reachable_consistent s R) as C.
  pose proof (updatePetAfterWorkout_body_accepted seen calories Hb Hx Hc Hs)
    as Acc.
  pose proof (updatePetAfterWorkout_body_exact seen calories Hx Hc Hs) as Eb.
  destruct (consistent_get_pet _ _ _ C G) as [Hid Hbp].
  assert (Hpatched : in_bounds patched).
  { destruct Hb as (? & ? & ?), Hbp as (? & ? & ?).
    unfold in_bounds, patched. cbn -[Z.min xpGain]. lia. }
  assert (C' : consistent s').
  { apply consistent_set_pets; [exact C | | exact Hpatched].
    unfold patched. cbn. exact Hid. }
  assert (G' : JSMap.get (Pet.id seen) (pets s') = Some patched).
  { unfold s'. cbn [pets set_pets]. apply JSMapFacts.get_set_same. }
  split.
  - unfold updatePetAfterWorkout. run.
    rewrite (run_accepted_patch throws T s _ pet _ C G Acc).
    cbn [fst snd]. run. rewrite Eb. reflexivity.
  - unfold updatePetAfterWorkout. run.
    rewrite (run_accepted_patch throws T s' _ patched _ C' G' Acc).
    cbn [fst snd]. run. rewrite Eb. unfold s'. rewrite set_pets_twice.
    reflexivity.
Qed.

(** The default pet, fed back with a stale copy that had health 90 and
    happiness 85, after a workout of 120 calories. *)
Lemma updatePetAfterWorkout_patches_witness :
  execState
    (updatePetAfterWorkout (fun _ => false)
       (Some (Pet.mk 1 1 "Buddy" "cat" 90 100 85 1 7 noon noon noon)) 120)
    booted
  = set_pets
      (JSMap.set 1 (Pet.mk 1 1 "Buddy" "cat" 95 100 95 1 31 noon noon noon))
      booted.
Proof.
  unfold execState.
  rewrite (proj1 (updatePetAfterWorkout_patches (fun _ => false) booted
                    (Pet.mk 1 1 "Buddy" "cat" 90 100 85 1 7 noon noon noon)
                    (Pet.mk 1 1 "Buddy" "cat" 100 100 100 1 0 noon noon noon)
                    120 eq_refl (reachable_boot noon noon) eq_refl
                    ltac:(unfold in_bounds; cbn; lia) ltac:(cbn; lia)
                    ltac:(lia) ltac:(vm_compute; discriminate))).
  reflexivity.
Defined.

(** X17.  Changing the species from the pet provider, for a pet that the
    server has under the id of the provider's copy: each of the five
    species of [PetType] is accepted, the mutation yields the stored pet,
    and the stored pet has the new species and is the server's pet in
    every other field. *)
Theorem changePetType_changes_type_only (throws : Z -> bool) (s : MemStorage)
    (seen pet : Pet.t) (type : PetType.t) :
  throws 200 = false ->
  reachable s ->
  evalState (getPet (Pet.id seen)) s = Some pet ->
  let changed :=
    Pet.mk (Pet.id pet) (Pet.userId pet) (Pet.name pet) (PetType.name type)
      (Pet.health pet) (Pet.hunger pet) (Pet.happiness pet) (Pet.level pet)
      (Pet.xp pet) (Pet.lastFed pet) (Pet.lastPlayed pet)
      (Pet.lastGroomed pet) in
  runState (changePetType throws (Some seen) type) s
  = (Fulfilled (Some (OfPet (Some changed))),
     set_pets (JSMap.set (Pet.id seen) changed) s).
Proof.
  intros T R G changed.
  unfold evalState in G. rewrite run_getPet in G. cbn [fst] in G.
  pose proof (reachable_consistent s R) as C.
  unfold changePetType. run.
  rewrite (run_accepted_patch throws T s _ pet _ C G).
  - cbn [fst snd]. run. reflexivity.
  - unfold accepted_body, absent_or_within. cbn [PatchBody.health
      PatchBody.hunger PatchBody.happiness PatchBody.xp PatchBody.level
      PatchBody.type PatchBody.lastFed PatchBody.lastPlayed
      PatchBody.lastGroomed].
    do 5 (split; [now left|]). split; [|tauto].
    right. exists (PetType.name type). split; [reflexivity|].
    destruct type; cbn; tauto.
Qed.

(** The default cat becomes a fox. *)
Lemma changePetType_changes_type_only_witness :
  execState
    (changePetType (fun _ => false)
       (Some (Pet.mk 1 1 "Buddy" "cat" 100 100 100 1 0 noon noon noon))
       PetType.fox)
    booted
  = set_pets
      (JSMap.set 1 (Pet.mk 1 1 "Buddy" "fox" 100 100 100 1 0 noon noon noon))
      booted.
Proof.
  unfold execState.
  rewrite (changePetType_changes_type_only (fun _ => false) booted
             (Pet.mk 1 1 "Buddy" "cat" 100 100 100 1 0 noon noon noon)
             (Pet.mk 1 1 "Buddy" "cat" 100 100 100 1 0 noon noon noon)
             PetType.fox eq_refl (reachable_boot noon noon) eq_refl).
  reflexivity.
Defined.

(** ** The client's completion of a workout *)

Section ClientCompletion.
Implicit Types (s : MemStorage).

(** [updatePet] writes nothing but the pets. *)
Lemma updatePet_users id updates s :
  users (execState (updatePet id updates) s) = users s.
Proof.
  unfold execState. rewrite run_updatePet.
  now destruct (JSMap.get id (pets s)).
Qed.

(** Every template is shorter than half an hour, so that its duration
    divided by 60 rounds to 0. *)
Lemma sample_minutes s k w :
  consistent s -> JSMap.get k (workouts s) = Some w ->
  Math_round (inject_Z (Workout.duration w) / inject_Z 60)%Q = 0.
Proof.
  intros C. rewrite (workouts_fixed s C), sample_workouts.
  cbn [JSMap.get].
  destruct (Z.eqb_spec 1 k) as [<-|_]; [intros [= <-]; vm_compute; reflexivity|].
  destruct (Z.eqb_spec 2 k) as [<-|_]; [intros [= <-]; vm_compute; reflexivity|].
  destruct (Z.eqb_spec 3 k) as [<-|_]; [intros [= <-]; vm_compute; reflexivity|].
  discriminate.
Qed.

Lemma run_post_users_stats s id user c a w :
  JSMap.get id (users s) = Some user -> 0 <= c -> 0 <= a -> 0 <= w ->
  runState
    (post_users_stats (Num id) (StatsBody.mk (JInt c) (JInt a) (JInt w))) s
  = (json (OfUser (add_stats user c a w)),
     set_users (JSMap.set id (add_stats user c a w)) s).
Proof.
  intros G Hc Ha Hw. unfold post_users_stats, statsSchema_parse.
  cbn [StatsBody.caloriesBurned StatsBody.activeMinutes
       StatsBody.completedWorkouts z_int].
  unfold nonnegative.
  destruct (Z.leb_spec 0 c); [|lia].
  destruct (Z.leb_spec 0 a); [|lia].
  destruct (Z.leb_spec 0 w); [|lia].
  rewrite run_bind, run_updateUserStats, G. reflexivity.
Qed.

(** The user that [updateUserStats] writes when the three sums are
    exact. *)
Lemma add_stats_exact user c a w :
  0 <= User.caloriesBurned user -> 0 <= User.activeMinutes user ->
  0 <= User.completedWorkouts user -> 0 <= c -> 0 <= a -> 0 <= w ->
  User.caloriesBurned user + c <= 2 ^ 53 ->
  User.activeMinutes user + a <= 2 ^ 53 ->
  User.completedWorkouts user + w <= 2 ^ 53 ->
  add_stats user c a w
  = User.mk (User.id user) (User.username user) (User.password user)
      (User.streak user) (User.caloriesBurned user + c)
      (User.activeMinutes user + a) (User.completedWorkouts user + w)
      (User.createdAt user).
Proof.
  intros. unfold add_stats. now rewrite !js_add_exact by assumption.
Qed.

End ClientCompletion.

(** X18.  [completeWorkout] of the workout provider, for a running workout
    that is one of the server's templates, when the first assignment of
    that template in the provider's list is the default user's, is not
    completed, and is what the server has under its id, and when user 1's
    calories burned plus twice the workout's calories, active minutes plus
    the duration and completed workouts plus 2 are each at most 2^53 (so
    that JavaScript adds them exactly).  The provider sends the
    completion, which the server answers 200, and then posts the
    workout's calories, its duration divided by 60 and rounded, and one
    workout to the stats route of user 1.  The rounded value is 0 for each
    of the three templates.  So the store at the end is the store of the
    completion with user 1's counters raised once more: from the start,
    calories burned have risen by twice the workout's calories, completed
    workouts by 2 and active minutes by the duration.  The provider ends
    with the timer closed, the completed modal open, that first assignment
    as the completed workout and Math.round(calories / 5) as the xp
    gained. *)
Theorem completeWorkout_counts_twice (throws : Z -> bool) (s : MemStorage)
    (ui : Provider.t) (currentWorkout : WorkoutWithExercises.t)
    (userWorkouts : list UserWorkoutListed.t) (target : UserWorkoutListed.t)
    (user : User.t) (now : Date) :
  throws 200 = false ->
  reachable s ->
  Provider.currentWorkout ui = Some currentWorkout ->
  evalState
    (getWorkout (Workout.id (WorkoutWithExercises.base currentWorkout))) s
  = Some (WorkoutWithExercises.base currentWorkout) ->
  find (fun uw =>
          UserWorkout.workoutId (UserWorkoutListed.base uw)
          =? Workout.id (WorkoutWithExercises.base currentWorkout))
    userWorkouts = Some target ->
  evalState (getUserWorkout (UserWorkout.id (UserWorkoutListed.base target))) s
  = Some (UserWorkoutListed.base target) ->
  UserWorkout.completed (UserWorkoutListed.base target) = false ->
  UserWorkout.userId (UserWorkoutListed.base target) = USER_ID ->
  evalState (getUser USER_ID) s = Some user ->
  let workout := WorkoutWithExercises.base currentWorkout in
  User.caloriesBurned user + 2 * Workout.calories workout <= 2 ^ 53 ->
  User.activeMinutes user + Workout.duration workout <= 2 ^ 53 ->
  User.completedWorkouts user + 2 <= 2 ^ 53 ->
  let completion :=
    execState
      (post_user_workouts_complete
         (Num (UserWorkout.id (UserWorkoutListed.base target))) now) s in
  let counted (times : Z) :=
    User.mk (User.id user) (User.username user) (User.password user)
      (User.streak user)
      (User.caloriesBurned user + times * Workout.calories workout)
      (User.activeMinutes user + Workout.duration workout)
      (User.completedWorkouts user + times)
      (User.createdAt user) in
  Math_round (inject_Z (Workout.duration workout) / inject_Z 60)%Q = 0
  /\ evalState (getUser USER_ID) completion = Some (counted 1)
  /\ runState (completeWorkout throws ui userWorkouts now) s
     = (Provider.mk false true (Some currentWorkout) (Some target)
          (xpGain (Workout.calories workout)),
        set_users (JSMap.set USER_ID (counted 2)) completion).
Proof.
  intros T R Hcur Hw Hfind Hg Hc Hu Huser workout B1 B2 B3 completion counted.
  unfold evalState in Hw, Hg, Huser.
  rewrite run_getWorkout in Hw. rewrite run_getUserWorkout in Hg.
  rewrite run_getUser in Huser. cbn [fst] in Hw, Hg, Huser.
  pose proof (reachable_consistent s R) as C.
  pose proof (attainable_users s (reachable_attainable s R)) as [Rows _].
  destruct (Rows _ _ (JSMapFacts.get_In _ _ _ Huser))
    as (_ & _ & N1 & N2 & N3).
  pose proof (find_some _ _ Hfind) as [_ Eid]. apply Z.eqb_eq in Eid.
  rewrite <- Eid in Hw. fold workout in Hw.
  destruct (consistent_workout _ _ _ C Hw) as (_ & Hcal & Hdur).
  pose proof (sample_minutes _ _ _ C Hw) as Hmin.
  assert (E1 : add_stats user (Workout.calories workout)
                 (Workout.duration workout) 1 = counted 1).
  { rewrite add_stats_exact by lia. unfold counted.
    now rewrite Z.mul_1_l. }
  assert (E2 : add_stats (counted 1) (Workout.calories workout) 0 1
               = counted 2).
  { rewrite add_stats_exact by (unfold counted; cbn -[Z.mul Z.add]; lia).
    unfold counted. cbn -[Z.mul Z.add]. f_equal; lia. }
  assert (Hdone : JSMap.get USER_ID (users completion) = Some (counted 1)).
  { unfold completion, execState.
    rewrite (run_post_user_workouts_complete _ now s _ _ Hg Hw Hc).
    cbn [snd]. rewrite Hu.
    assert (E : JSMap.get USER_ID
                  (users
                     (execState
                        (updateUserStats USER_ID (Workout.calories workout)
                           (Workout.duration workout) 1)
                        (set_userWorkouts
                           (JSMap.set
                              (UserWorkout.id (UserWorkoutListed.base target))
                              (mark_completed (UserWorkoutListed.base target)
                                 now)) s)))
                = Some (counted 1)).
    { unfold execState. rewrite run_updateUserStats. fields. rewrite Huser.
      cbn [snd]. fields. rewrite E1. apply JSMapFacts.get_set_same. }
    destruct (find _ (JSMap.values (pets s))) as [pet|];
      [rewrite updatePet_users|]; exact E. }
  split; [exact Hmin|]. split.
  - unfold evalState. rewrite run_getUser. cbn [fst]. exact Hdone.
  - unfold completeWorkout. rewrite Hcur, Hfind, Hc. cbn [negb]. run.
    rewrite run_apiRequest.
    fold (execState
            (post_user_workouts_complete
               (Num (UserWorkout.id (UserWorkoutListed.base target))) now) s).
    fold completion.
    rewrite (run_post_user_workouts_complete _ now s _ _ Hg Hw Hc).
    cbn [fst status json]. rewrite T. run. rewrite run_apiRequest.
    unfold completeWorkout_stats. fold workout. rewrite Hmin.
    rewrite (run_post_users_stats completion USER_ID _ _ 0 1 Hdone)
      by lia.
    cbn [fst snd status json]. rewrite T. run.
    rewrite E2. cbn [Provider.currentWorkout
      Provider.xpGained Provider.isWorkoutTimerOpen
      Provider.isWorkoutCompletedOpen Provider.completedWorkout].
    reflexivity.
Qed.

(** The default user schedules the morning cardio (120 calories, 20
    minutes) and completes it from the provider, whose list is the server's
    listing: 240 calories, 20 minutes and 2 workouts are on the account. *)
Lemma completeWorkout_counts_twice_witness :
  let s :=
    serve [PostUsersWorkouts (Num 1) (ScheduleBody.mk (JInt 1) (Some noon))]
      booted in
  let cardio :=
    Workout.mk 1 "Morning Cardio" "Energizing cardio to start your day"
      20 120 "Moderate" "Cardio" in
  let ui :=
    Provider.mk true false
      (Some (WorkoutWithExercises.mk cardio
               (evalState (getExercisesByWorkoutId 1) s)))
      None 0 in
  evalState (getUser USER_ID)
    (execState
       (completeWorkout (fun _ => false) ui
          (evalState (getUserWorkoutsByUserId USER_ID) s) noon) s)
  = Some (User.mk 1 "user" "password" 0 240 20 2 noon).
Proof.
  intros s cardio ui. unfold execState.
  rewrite (proj2 (proj2
             (completeWorkout_counts_twice (fun _ => false) s ui
                (WorkoutWithExercises.mk cardio
                   (evalState (getExercisesByWorkoutId 1) s))
                (evalState (getUserWorkoutsByUserId USER_ID) s)
                (UserWorkoutListed.mk (UserWorkout.mk 1 1 1 false noon None)
                   (Some cardio))
                (User.mk 1 "user" "password" 0 0 0 0 noon) noon
                eq_refl (reachable_serve _ booted (reachable_boot noon noon))
                eq_refl ltac:(vm_compute; reflexivity)
                ltac:(vm_compute; reflexivity)
                ltac:(vm_compute; reflexivity)
                eq_refl eq_refl ltac:(vm_compute; reflexivity)
                ltac:(vm_compute; discriminate)
                ltac:(vm_compute; discriminate)
                ltac:(vm_compute; discriminate)))).
  vm_compute. reflexivity.
Defined.

(** ** The timer *)

Section Timer.

Lemma value_toString n : 0 <= n -> digits_value (toString n) = Some n.
Proof.
  intros H. unfold digits_value, toString.
  pose proof (DecimalZ.of_to n) as E.
  destruct n as [|p|p]; [reflexivity| |lia].
  cbn [Z.to_int NilZero.string_of_int] in *.
  unfold NilZero.string_of_uint.
  destruct (Pos.to_uint p) eqn:D; cbn [Z.of_int] in E;
    try (rewrite <- D, NilEmpty.usu; cbn [option_map]; now rewrite D in * );
    try (rewrite NilEmpty.usu; cbn [option_map]; exact (f_equal Some E)).
  cbn in E. discriminate.
Qed.

Lemma value_padStart n str z :
  digits_value str = Some z -> digits_value (padStart n "0" str) = Some z.
Proof.
  intros V. unfold padStart.
  induction (n - String.length str)%nat as [|k IH]; [exact V|].
  cbn [repeat string_of_list_ascii String.append].
  unfold digits_value in IH |- *. cbn [NilEmpty.uint_of_string].
  destruct (NilEmpty.uint_of_string
              (string_of_list_ascii (repeat "0"%char k) ++ str)) as [d|];
    [|discriminate].
  exact IH.
Qed.

(** A string with a digits_value holds no colon, so that two displays that are
    equal agree on both sides of the colon. *)
Lemma split_at_colon a a' b b' za za' :
  digits_value a = Some za -> digits_value a' = Some za' ->
  a ++ ":" ++ b = a' ++ ":" ++ b' -> a = a' /\ b = b'.
Proof.
  revert a' za za'. induction a as [|c a IH]; intros [|c' a'] za za' V V' E.
  - cbn in E. injection E as E. now split.
  - cbn in E. injection E as <- _. unfold digits_value in V'. cbn in V'.
    destruct (NilEmpty.uint_of_string a'); discriminate.
  - cbn in E. injection E as -> _. unfold digits_value in V. cbn in V.
    destruct (NilEmpty.uint_of_string a); discriminate.
  - cbn in E. injection E as <- E.
    unfold digits_value in V, V'. cbn [NilEmpty.uint_of_string] in V, V'.
    destruct (NilEmpty.uint_of_string a) as [d|] eqn:Da;
      [|discriminate].
    destruct (NilEmpty.uint_of_string a') as [d'|] eqn:Da';
      [|discriminate].
    assert (a = a' /\ b = b') as [-> ->]; [|now split].
    apply (IH a' (Z.of_uint d) (Z.of_uint d'));
      [unfold digits_value; now rewrite Da | unfold digits_value; now rewrite Da' | exact E].
Qed.

Lemma two_digits n :
  0 <= n < 100 -> String.length (padStart 2 "0" (toString n)) = 2%nat.
Proof.
  intros H.
  assert (A : forallb
                (fun k => Nat.eqb
                   (String.length (padStart 2 "0" (toString (Z.of_nat k)))) 2)
                (seq 0 100) = true) by (vm_compute; reflexivity).
  rewrite forallb_forall in A. specialize (A (Z.to_nat n)).
  rewrite Z2Nat.id in A by lia. apply Nat.eqb_eq, A, in_seq. lia.
Qed.

Lemma length_append a b :
  String.length (a ++ b) = (String.length a + String.length b)%nat.
Proof. induction a as [|c a IH]; cbn; [reflexivity | now rewrite IH]. Qed.

Lemma ticks_above k t :
  Z.of_nat k < t -> ticks k t = t - Z.of_nat k.
Proof.
  revert t. induction k as [|k IH]; intros t H; [cbn; lia|].
  cbn [ticks]. unfold tick. destruct (Z.leb_spec t 1); [lia|].
  cbn [fst]. rewrite IH; lia.
Qed.

(** The last of [n + 1] firings works on what the first [n] have left. *)
Lemma ticks_end k t : ticks (S k) t = fst (tick (ticks k t)).
Proof.
  revert t. induction k as [|k IH]; intros t; [reflexivity|].
  cbn [ticks] in *. now rewrite IH.
Qed.

End Timer.

(** X19.  [formatTime] of the timer hook, for a whole number of seconds that
    is not negative: two times with the same display are the same time, so
    the display tells the time left; and below 6000 seconds, that is 100
    minutes, the display has five characters, two digits on each side of
    the colon. *)
Theorem formatTime_tells_time (a b : Z) :
  0 <= a -> 0 <= b ->
  (formatTime a = formatTime b -> a = b)
  /\ (a < 6000 -> String.length (formatTime a) = 5%nat).
Proof.
  intros Ha Hb. split.
  - unfold formatTime. cbv zeta. intros E.
    assert (Va : forall n, 0 <= n ->
               digits_value (padStart 2 "0" (toString n)) = Some n).
    { intros n Hn. apply value_padStart, value_toString, Hn. }
    destruct (split_at_colon _ _ _ _ _ _
                (Va (a / 60) ltac:(apply Z.div_pos; lia))
                (Va (b / 60) ltac:(apply Z.div_pos; lia)) E) as [Em Es].
    pose proof (Va (a / 60) ltac:(apply Z.div_pos; lia)) as V1.
    pose proof (Va (Z.rem a 60) ltac:(apply Z.rem_nonneg; lia)) as V2.
    rewrite Em, (Va (b / 60)) in V1 by (apply Z.div_pos; lia).
    rewrite Es, (Va (Z.rem b 60)) in V2 by (apply Z.rem_nonneg; lia).
    injection V1 as V1. injection V2 as V2.
    rewrite Z.rem_mod_nonneg in V2 by lia.
    rewrite Z.rem_mod_nonneg in V2 by lia.
    rewrite (Z.div_mod a 60), (Z.div_mod b 60) by lia. lia.
  - intros Hlt. unfold formatTime. cbv zeta.
    rewrite !length_append, !two_digits; [reflexivity| |].
    + rewrite Z.rem_mod_nonneg by lia.
      pose proof (Z.mod_pos_bound a 60 ltac:(lia)). lia.
    + split; [apply Z.div_pos; lia | apply Z.div_lt_upper_bound; lia].
Qed.

(** A minute and a half. *)
Lemma formatTime_tells_time_witness :
  formatTime 90 = "01:30" /\ String.length (formatTime 90) = 5%nat.
Proof.
  split; [vm_compute; reflexivity|].
  apply (proj2 (formatTime_tells_time 90 90 ltac:(lia) ltac:(lia))). lia.
Defined.

(** X20.  The countdown of the timer hook, started with a whole number of
    seconds [initialTime]: each firing of the interval takes one second
    off, so that [initialTime - n] is left after [n] firings; the firing
    that stops the interval and calls [onComplete] is the one with number
    max(initialTime, 1), none before it does, and it leaves 0.  A timer
    started at 0 or below so runs for one firing, as a timer started at
    1. *)
Theorem countdown_completes (initialTime : Z) (n : nat) :
  Z.of_nat n < Z.max initialTime 1 ->
  ticks n initialTime = initialTime - Z.of_nat n
  /\ snd (tick (ticks n initialTime))
     = (Z.of_nat n =? Z.max initialTime 1 - 1)
  /\ ticks (S n) initialTime = Z.max (initialTime - Z.of_nat n - 1) 0.
Proof.
  intros H.
  assert (E : ticks n initialTime = initialTime - Z.of_nat n).
  { destruct n as [|n]; [cbn; lia|]. apply ticks_above. lia. }
  split; [exact E|]. rewrite ticks_end, E. unfold tick.
  destruct (Z.leb_spec (initialTime - Z.of_nat n) 1); cbn [fst snd].
  - split; [symmetry; apply Z.eqb_eq|]; lia.
  - split; [symmetry; apply Z.eqb_neq|]; lia.
Qed.

(** A timer of 45 seconds: one second is left after 44 firings, and the
    next firing completes. *)
Lemma countdown_completes_witness :
  ticks 44 45 = 1 /\ snd (tick (ticks 44 45)) = true /\ ticks 45 45 = 0.
Proof.
  exact (countdown_completes 45 44 ltac:(lia)).
Defined.

(** ** The routes of the catalogue *)

(** X21.  The three routes of the catalogue agree, in every store that the
    server can be in.  [GET /api/workouts] lists the templates.  For a
    template of the list, [GET /api/workouts/:id] with its id answers 200
    with that template, and [GET /api/workouts/:id/exercises] answers 200
    with that template and three exercises, all of them exercises of this
    template.  For an id that no template of the list has, both answer 404.
    None of the three changes the store. *)
Theorem catalogue_routes_agree (s : MemStorage) (id : Z) :
  reachable s ->
  exists listed,
    runState get_workouts s = ((200, FetchedWorkouts listed), s)
    /\ (forall workout,
          In workout listed -> Workout.id workout = id ->
          runState (get_workouts_id (Num id)) s
          = ((200, FetchedWorkout workout), s)
          /\ exists exercises,
               runState (get_workouts_exercises (Num id)) s
               = ((200,
                   FetchedWorkoutWithExercises
                     (WorkoutWithExercises.mk workout exercises)), s)
               /\ map Exercise.workoutId exercises = [id; id; id])
    /\ ((forall workout, In workout listed -> Workout.id workout <> id) ->
        runState (get_workouts_id (Num id)) s
        = ((404, FetchedMessage "Workout not found"), s)
        /\ runState (get_workouts_exercises (Num id)) s
           = ((404, FetchedMessage "Workout not found"), s)).
Proof.
  intros R. apply reachable_attainable in R.
  pose proof (attainable_consistent s R) as C.
  pose proof (attainable_exercises s R) as E.
  pose proof (workouts_fixed s C) as W. rewrite sample_workouts in W.
  exists (JSMap.values (workouts s)). split; [reflexivity|].
  unfold get_workouts_id, get_workouts_exercises.
  rewrite !run_bind, run_getWorkout, run_getWorkoutWithExercises.
  cbn [fst snd]. unfold evalState. rewrite run_getExercisesByWorkoutId, E.
  cbn [fst]. rewrite W. split.
  - intros workout Hin Hid. cbn in Hin.
    destruct Hin as [<-|[<-|[<-|[]]]]; cbn in Hid; subst id;
      (split; [reflexivity|]); eexists; (split; [reflexivity|]);
      vm_compute; reflexivity.
  - intros N. cbn [JSMap.get].
    destruct (Z.eqb_spec 1 id) as [<-|_];
      [now destruct (N _ (or_introl eq_refl))|].
    destruct (Z.eqb_spec 2 id) as [<-|_];
      [now destruct (N _ (or_intror (or_introl eq_refl)))|].
    destruct (Z.eqb_spec 3 id) as [<-|_];
      [now destruct (N _ (or_intror (or_intror (or_introl eq_refl))))|].
    split; reflexivity.
Qed.

(** The strength training at start-up. *)
Lemma catalogue_routes_agree_witness :
  exists listed,
    fst (runState get_workouts booted) = (200, FetchedWorkouts listed).
Proof.
  destruct (catalogue_routes_agree booted 2 (reachable_boot noon noon))
    as (listed & L & _).
  exists listed. now rewrite L.
Defined.

(** ** The default account *)

Section DefaultAccount.
Implicit Types (s : MemStorage).

(** The user and the pet of the constructor stay. *)
Lemma attainable_default s :
  attainable s ->
  (exists user,
      JSMap.get 1 (users s) = Some user
      /\ User.username user = "user" /\ User.password user = "password")
  /\ (exists pet,
        JSMap.get 1 (pets s) = Some pet
        /\ Pet.userId pet = 1 /\ Pet.name pet = "Buddy").
Proof.
  induction 1 as [tUser tPet | patch s s' A [(u & Gu & Hn & Hp) (p & Gp & Ho & Hb)] W].
  - rewrite storage_users, storage_pets. split; eexists; cbn; eauto.
  - split.
    + destruct (users_grow_write patch s s' A W 1 u Gu)
        as (u' & G' & _ & En & Ep & _).
      exists u'. repeat split; congruence.
    + destruct (pets_stay_write patch s s' A W 1 p Gp)
        as (p' & G' & _ & Eo & En & _).
      exists p'. repeat split; congruence.
Qed.

(** With no key twice, [find] settles on the one element that has the
    key. *)
Lemma find_the_one {A B} (key : A -> B) (test : A -> bool) (l : list A) (a : A) :
  NoDup (map key l) -> In a l ->
  (forall x, test x = true <-> key x = key a) ->
  find test l = Some a.
Proof.
  intros Hnd Hin Ht.
  destruct (find test l) as [x|] eqn:F.
  - apply find_some in F. destruct F as [Hx Tx]. apply Ht in Tx.
    f_equal. exact (NoDup_map_same key l x a Hnd Hx Hin Tx).
  - exfalso. pose proof (find_none _ _ F a Hin) as N.
    assert (T : test a = true) by now apply Ht. congruence.
Qed.

End DefaultAccount.

(** X22.  The account that the constructor sets up is there in every store
    that the server can be in.  [GET /api/users/1] answers 200 with the
    user "user", and [GET /api/users/1/pet] answers 200 with a pet of user
    1 that is stored under the id 1, has the name "Buddy" and attributes
    from 0 to 100.  So the request with which the pet provider creates a
    pet for user 1 is always answered 409, and so is a registration
    under the name "user"; neither changes the store. *)
Theorem default_account_stays (s : MemStorage) (now : Date)
    (password : string) (type : option string) :
  reachable s ->
  (exists user,
      runState (get_users (Num USER_ID)) s = ((200, FetchedUser user), s)
      /\ User.id user = USER_ID /\ User.username user = "user")
  /\ (exists pet,
        runState (get_users_pet (Num USER_ID)) s = ((200, FetchedPet pet), s)
        /\ evalState (getPet 1) s = Some pet
        /\ Pet.userId pet = USER_ID /\ Pet.name pet = "Buddy"
        /\ in_bounds pet)
  /\ runState (post_pets (Some (InsertPet.mk USER_ID "Buddy" type)) now) s
     = (status_json 409 (Message "User already has a pet"), s)
  /\ runState (post_users (Some (InsertUser.mk "user" password)) now) s
     = (status_json 409 (Message "Username already exists"), s).
Proof.
  intros R. apply reachable_attainable in R.
  pose proof (attainable_consistent s R) as C.
  pose proof (attainable_users s R) as [URows UUniq].
  pose proof (attainable_pets s R) as [_ PUniq].
  destruct (attainable_default s R)
    as [(u & Gu & Hn & _) (p & Gp & Ho & Hb)].
  assert (Fu : find (fun user => String.eqb (User.username user) "user")
                 (JSMap.values (users s)) = Some u).
  { apply (find_the_one User.username); [exact UUniq| |].
    - apply JSMapFacts.values_In with (k := 1), JSMapFacts.get_In, Gu.
    - intros x. rewrite String.eqb_eq, Hn. reflexivity. }
  assert (Fp : find (fun pet => Pet.userId pet =? USER_ID)
                 (JSMap.values (pets s)) = Some p).
  { apply (find_the_one Pet.userId); [exact PUniq| |].
    - apply JSMapFacts.values_In with (k := 1), JSMapFacts.get_In, Gp.
    - intros x. rewrite Z.eqb_eq, Ho. reflexivity. }
  split; [|split; [|split]].
  - exists u. unfold get_users. rewrite run_bind, run_getUser.
    cbn [fst snd]. unfold USER_ID. rewrite Gu.
    split; [reflexivity|]. split; [|exact Hn].
    apply JSMapFacts.get_In in Gu. now destruct (URows _ _ Gu).
  - exists p. unfold get_users_pet. rewrite run_bind, run_getPetByUserId.
    cbn [fst snd]. rewrite Fp. split; [reflexivity|].
    unfold evalState. rewrite run_getPet. cbn [fst].
    split; [exact Gp|]. split; [exact Ho|]. split; [exact Hb|].
    now destruct (consistent_get_pet _ _ _ C Gp).
  - unfold post_pets. rewrite run_bind, run_getPetByUserId.
    cbn [fst snd InsertPet.userId]. now rewrite Fp.
  - unfold post_users. rewrite run_bind, run_getUserByUsername.
    cbn [fst snd InsertUser.username]. now rewrite Fu.
Qed.

(** After a registration and a feeding the default pet cannot be created
    again. *)
Lemma default_account_stays_witness :
  status
    (evalState (post_pets (Some (InsertPet.mk USER_ID "Buddy" None)) noon)
       (serve [PostUsers (Some (InsertUser.mk "ana" "secret")) noon;
               PostPetsFeed (Num 1) noon] booted))
  = 409.
Proof.
  unfold evalState.
  rewrite (proj1 (proj2 (proj2
             (default_account_stays _ noon "secret" None
                (reachable_serve _ booted (reachable_boot noon noon)))))).
  reflexivity.
Defined.

(** ** The first scheduling of the day *)

Section Initialization.
Implicit Types (s : MemStorage).

Lemma schedule_step s today w listed :
  reachable s ->
  JSMap.get (Workout.id w) (workouts s) = Some w ->
  evalState (getUserWorkoutsByUserId USER_ID) s = listed ->
  existsb (same_workout_same_day (Workout.id w) today) listed = false ->
  let s' :=
    execState
      (handle
         (PostUsersWorkouts (Num USER_ID)
            (ScheduleBody.mk (JInt (Workout.id w)) (Some today)))) s in
  evalState (getUserWorkoutsByUserId USER_ID) s'
  = (listed ++ [scheduled_today today (userWorkoutIdCounter s) w])%list
  /\ userWorkoutIdCounter s' = userWorkoutIdCounter s + 1
  /\ workouts s' = workouts s.
Proof.
  intros R G L Dup s'.
  pose proof (reachable_attainable s R) as A.
  pose proof (attainable_consistent s A) as C.
  pose proof (attainable_ids s A) as (_ & _ & _ & (Ka & Ca) & _).
  destruct (consistent_workout _ _ _ C G) as (_ & _ & _).
  assert (Hpos : 0 < Workout.id w).
  { pose proof (workouts_fixed s C) as W. rewrite sample_workouts in W.
    rewrite W in G. cbn [JSMap.get] in G.
    destruct (Z.eqb_spec 1 (Workout.id w)); [lia|].
    destruct (Z.eqb_spec 2 (Workout.id w)); [lia|].
    destruct (Z.eqb_spec 3 (Workout.id w)); [lia|]. discriminate. }
  subst s'. unfold execState. cbn [handle].
  rewrite (run_post_users_workouts USER_ID _ today s w Hpos G).
  cbv zeta. rewrite L, Dup. cbn [snd].
  split; [|split; reflexivity].
  unfold evalState in *. rewrite run_getUserWorkoutsByUserId in *.
  cbn [fst] in *.
  destruct (keys_next (userWorkouts s) (userWorkoutIdCounter s)
              (UserWorkout.mk (userWorkoutIdCounter s) USER_ID (Workout.id w)
                 false today None) Ka Ca) as [G0 _].
  cbn [userWorkouts workouts set_userWorkouts set_userWorkoutIdCounter].
  rewrite (JSMapMore.values_set_absent _ _ _ G0), filter_app, map_app, L.
  cbn [filter UserWorkout.userId]. rewrite Z.eqb_refl.
  cbn [map UserWorkout.workoutId]. now rewrite G.
Qed.

Lemma schedule_again s again w :
  reachable s ->
  JSMap.get (Workout.id w) (workouts s) = Some w ->
  existsb (same_workout_same_day (Workout.id w) again)
    (evalState (getUserWorkoutsByUserId USER_ID) s) = true ->
  execState
    (handle
       (PostUsersWorkouts (Num USER_ID)
          (ScheduleBody.mk (JInt (Workout.id w)) (Some again)))) s = s.
Proof.
  intros R G Dup.
  pose proof (reachable_consistent s R) as C.
  assert (Hpos : 0 < Workout.id w).
  { pose proof (workouts_fixed s C) as W. rewrite sample_workouts in W.
    rewrite W in G. cbn [JSMap.get] in G.
    destruct (Z.eqb_spec 1 (Workout.id w)); [lia|].
    destruct (Z.eqb_spec 2 (Workout.id w)); [lia|].
    destruct (Z.eqb_spec 3 (Workout.id w)); [lia|]. discriminate. }
  unfold execState. cbn [handle].
  rewrite (run_post_users_workouts USER_ID _ again s w Hpos G).
  cbv zeta. now rewrite Dup.
Qed.

(** The six orders of three things. *)
Lemma Permutation_three {A} (l : list A) a b c :
  Permutation l [a; b; c] ->
  l = [a; b; c] \/ l = [a; c; b] \/ l = [b; a; c] \/ l = [b; c; a]
  \/ l = [c; a; b] \/ l = [c; b; a].
Proof.
  intros P. pose proof (Permutation_length P) as Len.
  destruct l as [|x [|y [|z [|]]]]; try discriminate.
  assert (Hx : In x [a; b; c]) by (apply (Permutation_in _ P); now left).
  destruct Hx as [<-|[<-|[<-|[]]]].
  - apply Permutation_cons_inv, Permutation_length_2 in P.
    destruct P as [[-> ->]|[-> ->]]; tauto.
  - assert (Q : Permutation (b :: [y; z]) (b :: [a; c])).
    { rewrite P. apply perm_swap. }
    apply Permutation_cons_inv, Permutation_length_2 in Q.
    destruct Q as [[-> ->]|[-> ->]]; tauto.
  - assert (Q : Permutation (c :: [y; z]) (c :: [a; b])).
    { rewrite P. transitivity [a; c; b];
        [apply perm_skip, perm_swap | apply perm_swap]. }
    apply Permutation_cons_inv, Permutation_length_2 in Q.
    destruct Q as [[-> ->]|[-> ->]]; tauto.
Qed.

Lemma template_positive s w :
  consistent s -> JSMap.get (Workout.id w) (workouts s) = Some w ->
  0 < Workout.id w.
Proof.
  intros C G. pose proof (workouts_fixed s C) as W.
  rewrite sample_workouts in W. rewrite W in G. cbn [JSMap.get] in G.
  destruct (Z.eqb_spec 1 (Workout.id w)); [lia|].
  destruct (Z.eqb_spec 2 (Workout.id w)); [lia|].
  destruct (Z.eqb_spec 3 (Workout.id w)); [lia|]. discriminate.
Qed.

Lemma other_template today id a k :
  Workout.id a <> id ->
  same_workout_same_day id today (scheduled_today today k a) = false.
Proof.
  intros N. unfold scheduled_today. rewrite same_workout_same_day_split.
  cbn [UserWorkout.workoutId]. apply Z.eqb_neq in N. now rewrite N.
Qed.

Lemma same_template today again a k :
  same_calendar_day today again = true ->
  same_workout_same_day (Workout.id a) again (scheduled_today today k a)
  = true.
Proof.
  intros D. unfold scheduled_today. rewrite same_workout_same_day_split.
  cbn [UserWorkout.workoutId UserWorkout.scheduledFor].
  now rewrite Z.eqb_refl, D.
Qed.

(** Three templates, one after the other, for a user without
    assignments. *)
Lemma schedule_three s today a b c :
  reachable s ->
  evalState (getUserWorkoutsByUserId USER_ID) s = [] ->
  JSMap.get (Workout.id a) (workouts s) = Some a ->
  JSMap.get (Workout.id b) (workouts s) = Some b ->
  JSMap.get (Workout.id c) (workouts s) = Some c ->
  Workout.id a <> Workout.id b -> Workout.id a <> Workout.id c ->
  Workout.id b <> Workout.id c ->
  let s1 := serve (initializeWorkoutsMutation [a; b; c] today) s in
  let n := userWorkoutIdCounter s in
  reachable s1 /\ workouts s1 = workouts s
  /\ evalState (getUserWorkoutsByUserId USER_ID) s1
     = [scheduled_today today n a; scheduled_today today (n + 1) b;
        scheduled_today today (n + 2) c].
Proof.
  intros R L Ga Gb Gc Nab Nac Nbc s1 n. subst s1 n.
  cbn [initializeWorkoutsMutation map serve].
  destruct (schedule_step s today a [] R Ga L eq_refl) as (La & Na & Wa).
  apply (reachable_request s
           (PostUsersWorkouts (Num USER_ID)
              (ScheduleBody.mk (JInt (Workout.id a)) (Some today)))) in R.
  set (sa := execState _ s) in *. rewrite <- Wa in Gb, Gc.
  destruct (schedule_step sa today b _ R Gb La) as (Lb & Nb & Wb).
  { cbn [List.app existsb]. now rewrite other_template. }
  apply (reachable_request sa
           (PostUsersWorkouts (Num USER_ID)
              (ScheduleBody.mk (JInt (Workout.id b)) (Some today)))) in R.
  set (sb := execState _ sa) in *. rewrite <- Wb in Gc.
  destruct (schedule_step sb today c _ R Gc Lb) as (Lc & Nc & Wc).
  { cbn [List.app existsb]. now rewrite !other_template. }
  apply (reachable_request sb
           (PostUsersWorkouts (Num USER_ID)
              (ScheduleBody.mk (JInt (Workout.id c)) (Some today)))) in R.
  set (sc := execState _ sb) in *.
  split; [exact R|]. split; [congruence|].
  rewrite Lc, Nb, Na. cbn [List.app].
  now replace (userWorkoutIdCounter s + 1 + 1)
    with (userWorkoutIdCounter s + 2) by lia.
Qed.

(** Asking again on the same day for templates that are scheduled. *)
Lemma schedule_all_again s today again listed order :
  reachable s ->
  evalState (getUserWorkoutsByUserId USER_ID) s = listed ->
  same_calendar_day today again = true ->
  (forall w, In w order ->
     JSMap.get (Workout.id w) (workouts s) = Some w
     /\ exists k, In (scheduled_today today k w) listed) ->
  serve (initializeWorkoutsMutation order again) s = s.
Proof.
  intros R L D. induction order as [|w order IH]; intros H; [reflexivity|].
  cbn [initializeWorkoutsMutation map serve].
  destruct (H w (or_introl eq_refl)) as (G & k & Hin).
  rewrite (schedule_again s again w R G).
  - apply IH. intros w' Hw'. apply H. now right.
  - rewrite L. apply existsb_exists. eexists. split; [exact Hin|].
    now apply same_template.
Qed.

End Initialization.

(** X23.  The first scheduling of the day by the workout provider, which
    asks for each template of the catalogue, today, for user 1.  When the
    user has no assignment yet, then in whichever order the three requests
    arrive, each creates an assignment: afterwards the user's list has
    three assignments, not completed, dated today, under the next three
    ids, one for each template in the order of arrival.  Doing it again
    later on the same calendar day, in any order, changes nothing. *)
Theorem initialization_happens_once (s : MemStorage) (today again : Date)
    (order order' : list Workout.t) :
  reachable s ->
  evalState (getUserWorkoutsByUserId USER_ID) s = [] ->
  same_calendar_day today again = true ->
  Permutation order (evalState getWorkouts s) ->
  Permutation order' (evalState getWorkouts s) ->
  let s1 := serve (initializeWorkoutsMutation order today) s in
  let n := userWorkoutIdCounter s in
  evalState (getUserWorkoutsByUserId USER_ID) s1
  = map (fun filed => scheduled_today today (fst filed) (snd filed))
      (combine [n; n + 1; n + 2] order)
  /\ serve (initializeWorkoutsMutation order' again) s1 = s1.
Proof.
  intros R L D P P' s1 n.
  pose proof (reachable_consistent s R) as C.
  pose proof (workouts_fixed s C) as W. rewrite sample_workouts in W.
  unfold evalState in P, P'. cbn [getWorkouts] in P, P'.
  change (fst (runState getWorkouts s)) with (JSMap.values (workouts s))
    in P, P'.
  rewrite W in P, P'. cbn [JSMap.values map snd] in P, P'.
  assert (S3 : forall a b c,
             order = [a; b; c] -> Permutation [a; b; c] order' ->
             JSMap.get (Workout.id a) (workouts s) = Some a ->
             JSMap.get (Workout.id b) (workouts s) = Some b ->
             JSMap.get (Workout.id c) (workouts s) = Some c ->
             Workout.id a <> Workout.id b -> Workout.id a <> Workout.id c ->
             Workout.id b <> Workout.id c ->
             evalState (getUserWorkoutsByUserId USER_ID) s1
             = map (fun filed => scheduled_today today (fst filed) (snd filed))
                 (combine [n; n + 1; n + 2] order)
             /\ serve (initializeWorkoutsMutation order' again) s1 = s1).
  { intros a b c E Q Ga Gb Gc Nab Nac Nbc. subst s1 n. rewrite E.
    destruct (schedule_three s today a b c R L Ga Gb Gc Nab Nac Nbc)
      as (R1 & W1 & L1).
    split; [exact L1|].
    apply (schedule_all_again _ today again _ order' R1 L1 D).
    intros w Hw. apply (Permutation_in _ (Permutation_sym Q)) in Hw.
    rewrite W1.
    destruct Hw as [<-|[<-|[<-|[]]]];
      (split; [assumption|]); eexists; cbn; eauto. }
  pose proof P as P0. apply Permutation_three in P.
  destruct P as [E|[E|[E|[E|[E|E]]]]];
    apply (S3 _ _ _ E);
    try (rewrite W; reflexivity); try (cbn; lia);
    rewrite <- E; now rewrite P0, P'.
Qed.

(** At start-up the three requests arrive in the reverse order, and are
    sent again in the morning of the same day. *)
Lemma initialization_happens_once_witness :
  map (fun uw => UserWorkout.workoutId (UserWorkoutListed.base uw))
    (evalState (getUserWorkoutsByUserId USER_ID)
       (serve
          (initializeWorkoutsMutation (rev (evalState getWorkouts booted))
             noon) booted))
  = [3; 2; 1].
Proof.
  rewrite (proj1 (initialization_happens_once booted noon jan15_morning
                    (rev (evalState getWorkouts booted))
                    (evalState getWorkouts booted)
                    (reachable_boot noon noon) eq_refl eq_refl
                    (Permutation_sym (Permutation_rev _))
                    (Permutation_refl _))).
  vm_compute. reflexivity.
Defined.
